(** * s7150duo: data acquisition from two Solartron 7150 multimeters over GPIB

    A shallow embedding of [s7150duo.c].  The program is a single sequential
    control flow that talks to the outside world (GPIB bus, files, the
    gnuplot pipe, the keyboard, the clock).  The embedding threads an
    explicit program state through every function, records every call to
    the outside world in a chronological trace, and takes the answers of the
    outside world from an oracle ([World]).  Loops that the C code may run
    for ever are cut by a fuel argument. *)

From Stdlib Require Import ZArith List String Ascii Bool Lia Floats DecimalString.
Import ListNotations.
Open Scope Z_scope.
Open Scope list_scope.

(** ** C level helpers *)

Module C.

Definition NUL : ascii := "000"%char.
Definition LF : ascii := "010"%char.
Definition CR : ascii := "013"%char.

Definition code (c : ascii) : Z := Z.of_nat (nat_of_ascii c).

(** [unsigned long] on the LP64 target the program is built for. *)
Definition ULONG_WIDTH : Z := 64.
Definition to_ulong (z : Z) : Z := z mod 2 ^ ULONG_WIDTH.

(** A [char] read from the terminal, as a signed 8-bit value. *)
Definition to_schar (z : Z) : Z := (z + 128) mod 256 - 128.

(** [*p] and [p + 1] for a pointer into a NUL terminated string. *)
Definition deref (p : string) : ascii :=
  match p with
  | EmptyString => NUL
  | String c _ => c
  end.

Definition next (p : string) : string :=
  match p with
  | EmptyString => EmptyString
  | String _ r => r
  end.

Fixpoint strchr (s : string) (ch : ascii) : option string :=
  match s with
  | EmptyString => None
  | String c r => if Ascii.eqb c ch then Some s else strchr r ch
  end.

Definition strlen (s : string) : Z := Z.of_nat (String.length s).

(** The C string held by a character buffer: the bytes before the first
    NUL. *)
Fixpoint cstring (buf : list ascii) : string :=
  match buf with
  | [] => EmptyString
  | c :: r => if Ascii.eqb c NUL then EmptyString else String c (cstring r)
  end.

(** [memcpy]-like overwrite of the first bytes of a buffer. *)
Fixpoint overwrite (data buf : list ascii) : list ascii :=
  match data, buf with
  | [], _ => buf
  | d :: ds, [] => d :: overwrite ds []
  | d :: ds, _ :: bs => d :: overwrite ds bs
  end.

Fixpoint store (buf : list ascii) (i : nat) (c : ascii) : list ascii :=
  match buf, i with
  | [], _ => []
  | _ :: r, O => c :: r
  | b :: r, S j => b :: store r j c
  end.

Definition isspace (c : ascii) : bool :=
  let n := code c in (n =? 32) || ((9 <=? n) && (n <=? 13)).

Definition isdigit (c : ascii) : bool :=
  let n := code c in (48 <=? n) && (n <=? 57).

Fixpoint skip_space (s : string) : string :=
  match s with
  | String c r => if isspace c then skip_space r else s
  | EmptyString => s
  end.

(** At most [w] decimal digits; [None] when there is none. *)
Fixpoint scan_digits (w : nat) (s : string) (acc : option Z) : option Z :=
  match w, s with
  | S w', String c r =>
      if isdigit c
      then scan_digits w' r
             (Some (10 * match acc with Some a => a | None => 0 end
                    + (code c - 48)))
      else acc
  | _, _ => acc
  end.

(** [sscanf (s, "%5d", &x)]: the value stored in [x], or [None] when the
    conversion fails and [x] keeps its old value.  The field width counts
    the sign. *)
Definition sscanf_5d (s : string) : option Z :=
  match skip_space s with
  | String "-"%char r => option_map Z.opp (scan_digits 4 r None)
  | String "+"%char r => scan_digits 4 r None
  | t => scan_digits 5 t None
  end.

(** [sscanf (s, "%80s", buf)]. *)
Fixpoint scan_word (w : nat) (s : string) : string :=
  match w, s with
  | S w', String c r =>
      if isspace c || Ascii.eqb c NUL then EmptyString
      else String c (scan_word w' r)
  | _, _ => EmptyString
  end.

Definition sscanf_80s (s : string) : option string :=
  match scan_word 80 (skip_space s) with
  | EmptyString => None
  | t => Some t
  end.

Definition dec (z : Z) : string := NilZero.string_of_int (Z.to_int z).

(** Conversions between integers and IEEE doubles.  [float] is Rocq's
    binary64; a C [float] is kept as the binary64 value it promotes to. *)
Definition double_of_Z (z : Z) : float :=
  SF2Prim (binary_normalize prec emax z 0 false).

Definition float_of_double (x : float) : float :=
  match Prim2SF x with
  | S754_finite s m e =>
      SF2Prim (binary_normalize 24 128 (if s then Zneg m else Zpos m) e s)
  | _ => x
  end.

(** Conversion of a double to [int]: truncation toward zero.  Only used
    on finite values in the [int] range. *)
Definition int_of_double (x : float) : Z :=
  match Prim2SF x with
  | S754_finite s m e =>
      let a := if 0 <=? e then Zpos m * 2 ^ e else Zpos m / 2 ^ (- e) in
      if s then - a else a
  | _ => 0
  end.

End C.

(** ** Constants of the program *)

Definition MAXLEN : Z := 90.
Definition ESC : Z := 27.
Definition KEY_q : Z := 113.
Definition EOF : Z := -1.
Definition GNUPLOT : string := "gnuplot".
Definition ERR_FILE : Z := 4.
Definition ERR_INST : Z := 5.
Definition GPIB_BOARD_ID : Z := 0.

(** [enum s7150_function] (the build without [PLUS]). *)
Definition DCV : Z := 0.
Definition ACV : Z := 1.
Definition OHM : Z := 2.
Definition DCA : Z := 3.
Definition ACA : Z := 4.
Definition DIODE : Z := 5.

Definition ylabels (mode : Z) : string :=
  match mode with
  | 0 => "V" | 1 => "V" | 2 => "kOhms" | 3 => "mA" | 4 => "mA" | 5 => "mV"
  | _ => EmptyString
  end.

(** ** The trace of calls to the outside world

    Besides the calls to the outside world the trace logs the calls of the
    driver functions with their arguments, the value [s7150_open] returns
    and the key [readch] returns. *)

(** Which of the two result buffers of [main] a read call is handed. *)
Inductive bufid := Buffer1 | Buffer2.

(** Texts the program prints on the terminal, by name. *)
Inductive message :=
| Disclaimer
| Usage
| HelpHint (argv0 : string)
| NeedDataFile
| PerrorCommandLine
| ErrAddress
| ErrDelay
| ErrTimeout
| ErrMode1
| ErrMode2
| ModeList
| FileExistsPrompt (filename : string)
| CannotOpenFile (filename : string)
| CannotLaunchGnuplot
| Quit
| ErrOpen (pad : Z)
| ErrInit1 (pad : Z)
| ErrInit2 (pad : Z)
| ErrModeSetting
| ErrRead
| ErrReset
| Summary (pad1 pad2 : Z) (filename comment : string) (delay do_flush : Z)
          (tstop : float)
| Progress (loop : Z) (t1 : float) (b1 b2 : string)
| AcquisitionFinished
| BlankLines.

(** Lines of the output file. *)
Inductive out_line :=
| OutIdent
| OutComment (comment : string)
| OutStart (ctime : string)
| OutLegend
| OutRecord (t1 : float) (b1 b2 : string)
| OutStop (ctime : string).

(** Directives sent to gnuplot. *)
Inductive gp_cmd :=
| GpStyle (filename : string)
| GpLabels (ylabel : string)
| GpY2 (y2label : string)
| GpPlot (filename : string) (pad1 : Z) (l1 : string) (pad2 : Z) (l2 : string).

Inductive event :=
| Stderr (m : message)
| Stdout (m : message)
| Access (filename : string) (found : bool)
| Fgetc (key : Z)
| Fopen (filename : string) (ok : bool)
| Fprintf_outfile (l : out_line)
| Fflush_outfile
| Fclose_outfile
| Popen (cmd : string) (ok : bool)
| Fprintf_gp (c : gp_cmd)
| Fflush_gp
| Pclose
| Ibdev (pad : Z) (ud : Z)
| Ibwrt (dvm : Z) (cmd : string) (err : bool)
| Ibrd (dvm : Z) (cnt : Z) (err : bool) (data : list ascii)
| Sleep (seconds : Z)
| Usleep (usec : Z)
| Init_keyboard
| Close_keyboard
| Readch (key : Z)
| Call_s7150_open (pad : Z)
| Ret_s7150_open (pad : Z) (dvm : Z)
| Call_s7150_setup (dvm : Z) (display : Z) (func range : Z) (freq : float)
| Call_s7150_read (dvm : Z) (delay : Z) (result : bufid)
| Call_s7150_close (dvm : Z).

(** ** The outside world *)

(** The answers of the environment.  Calls of one kind are numbered from 0
    in the order the program makes them. *)
Record World := {
  w_sscanf_g : string -> option float;   (* sscanf (s, "%g", &tstop) *)
  w_access : string -> bool;             (* the file exists *)
  w_fgetc : Z;                           (* answer to the overwrite prompt *)
  w_fopen : string -> bool;              (* fopen (name, "wt") succeeds *)
  w_popen : string -> bool;              (* popen (cmd, "w") succeeds *)
  w_ibdev : nat -> Z;                    (* descriptor, negative on error *)
  w_ibwrt : nat -> bool;                 (* ibsta has ERR set *)
  w_ibrd : nat -> bool * list ascii;     (* ERR, and the bytes delivered *)
  w_gettimeofday : nat -> Z * Z;         (* tv_sec, tv_usec *)
  w_ctime : nat -> string;               (* ctime of the k-th time() *)
  w_read_stdin : nat -> option Z;        (* a byte of the terminal, if any *)
  w_uninit_char : Z;                     (* an uninitialised char *)
  w_stack : list ascii                   (* what buffer1/2 hold at entry *)
}.

(** ** Program state *)

Record State := {
  trace : list event;
  optind : nat;                  (* global of GetOpt *)
  letP : option string;          (* static of GetOpt, None is NULL *)
  peek_character : Z;            (* static of kbhit *)
  n_ibdev : nat;
  n_ibwrt : nat;
  n_ibrd : nat;
  n_clock : nat;
  n_time : nat;
  n_stdin : nat
}.

Definition initial_state : State :=
  {| trace := []; optind := 1; letP := None; peek_character := -1;
     n_ibdev := 0; n_ibwrt := 0; n_ibrd := 0; n_clock := 0; n_time := 0;
     n_stdin := 0 |}.

Definition set_trace (t : list event) (s : State) : State :=
  {| trace := t; optind := optind s; letP := letP s;
     peek_character := peek_character s; n_ibdev := n_ibdev s;
     n_ibwrt := n_ibwrt s; n_ibrd := n_ibrd s; n_clock := n_clock s;
     n_time := n_time s; n_stdin := n_stdin s |}.

Definition set_getopt (oi : nat) (lp : option string) (s : State) : State :=
  {| trace := trace s; optind := oi; letP := lp;
     peek_character := peek_character s; n_ibdev := n_ibdev s;
     n_ibwrt := n_ibwrt s; n_ibrd := n_ibrd s; n_clock := n_clock s;
     n_time := n_time s; n_stdin := n_stdin s |}.

Definition set_peek (p : Z) (s : State) : State :=
  {| trace := trace s; optind := optind s; letP := letP s;
     peek_character := p; n_ibdev := n_ibdev s;
     n_ibwrt := n_ibwrt s; n_ibrd := n_ibrd s; n_clock := n_clock s;
     n_time := n_time s; n_stdin := n_stdin s |}.

Definition tick_ibdev (s : State) : State :=
  {| trace := trace s; optind := optind s; letP := letP s;
     peek_character := peek_character s; n_ibdev := S (n_ibdev s);
     n_ibwrt := n_ibwrt s; n_ibrd := n_ibrd s; n_clock := n_clock s;
     n_time := n_time s; n_stdin := n_stdin s |}.

Definition tick_ibwrt (s : State) : State :=
  {| trace := trace s; optind := optind s; letP := letP s;
     peek_character := peek_character s; n_ibdev := n_ibdev s;
     n_ibwrt := S (n_ibwrt s); n_ibrd := n_ibrd s; n_clock := n_clock s;
     n_time := n_time s; n_stdin := n_stdin s |}.

Definition tick_ibrd (s : State) : State :=
  {| trace := trace s; optind := optind s; letP := letP s;
     peek_character := peek_character s; n_ibdev := n_ibdev s;
     n_ibwrt := n_ibwrt s; n_ibrd := S (n_ibrd s); n_clock := n_clock s;
     n_time := n_time s; n_stdin := n_stdin s |}.

Definition tick_clock (s : State) : State :=
  {| trace := trace s; optind := optind s; letP := letP s;
     peek_character := peek_character s; n_ibdev := n_ibdev s;
     n_ibwrt := n_ibwrt s; n_ibrd := n_ibrd s; n_clock := S (n_clock s);
     n_time := n_time s; n_stdin := n_stdin s |}.

Definition tick_time (s : State) : State :=
  {| trace := trace s; optind := optind s; letP := letP s;
     peek_character := peek_character s; n_ibdev := n_ibdev s;
     n_ibwrt := n_ibwrt s; n_ibrd := n_ibrd s; n_clock := n_clock s;
     n_time := S (n_time s); n_stdin := n_stdin s |}.

Definition tick_stdin (s : State) : State :=
  {| trace := trace s; optind := optind s; letP := letP s;
     peek_character := peek_character s; n_ibdev := n_ibdev s;
     n_ibwrt := n_ibwrt s; n_ibrd := n_ibrd s; n_clock := n_clock s;
     n_time := n_time s; n_stdin := S (n_stdin s) |}.

(** ** The monad of the embedding *)

(** What a computation ends with: a value; a [return code] out of [main];
    behaviour the C standard leaves undefined; or the fuel ran out. *)
Inductive undefined :=
| ModuloByZero
| PcloseNull
| NegativeIndex
| BufferOverflow
| IntOverflow.

Inductive res (A : Type) :=
| Val (a : A)
| Return (code : Z)
| Undefined (u : undefined)
| OutOfFuel.
Arguments Val {A} a.
Arguments Return {A} code.
Arguments Undefined {A} u.
Arguments OutOfFuel {A}.

Definition M (A : Type) : Type := State -> res A * State.

Definition ret {A} (a : A) : M A := fun s => (Val a, s).

Definition bind {A B} (m : M A) (k : A -> M B) : M B :=
  fun s =>
    match m s with
    | (Val a, s') => k a s'
    | (Return c, s') => (Return c, s')
    | (Undefined u, s') => (Undefined u, s')
    | (OutOfFuel, s') => (OutOfFuel, s')
    end.

Definition return_ {A} (code : Z) : M A := fun s => (Return code, s).
Definition undefined_ {A} (u : undefined) : M A := fun s => (Undefined u, s).
Definition out_of_fuel {A} : M A := fun s => (OutOfFuel, s).

Definition emit (e : event) : M unit :=
  fun s => (Val tt, set_trace (trace s ++ [e]) s).

Definition gets {A} (f : State -> A) : M A := fun s => (Val (f s), s).
Definition modify (f : State -> State) : M unit := fun s => (Val tt, f s).

Declare Scope prog_scope.
Delimit Scope prog_scope with prog.
Notation "x <- c1 ;; c2" := (bind c1 (fun x => c2))
  (at level 61, c1 at next level, right associativity) : prog_scope.
Notation "c1 ;; c2" := (bind c1 (fun _ => c2))
  (at level 61, right associativity) : prog_scope.
Notation "'when' b 'do' c" := (if b then c else ret tt)
  (at level 60, b at level 9, c at level 60) : prog_scope.
Open Scope prog_scope.

(** ** Local variables of [main] set from the command line *)

Record locals := {
  do_display : bool;
  do_graph : bool;
  do_overwrite : bool;
  pad1 : Z;
  pad2 : Z;
  do_flush : Z;
  delay : Z;
  mode1 : Z;
  mode2 : Z;
  range : Z;
  tstop : float;
  comment : string;
  gnuplot : string
}.

Definition defaults : locals :=
  {| do_display := true; do_graph := true; do_overwrite := false;
     pad1 := 16; pad2 := 12; do_flush := 100; delay := 10;
     mode1 := DCV; mode2 := DCA; range := 0; tstop := 0%float;
     comment := EmptyString; gnuplot := GNUPLOT |}.

Definition set_do_display (b : bool) (v : locals) : locals :=
  {| do_display := b; do_graph := do_graph v; do_overwrite := do_overwrite v;
     pad1 := pad1 v; pad2 := pad2 v; do_flush := do_flush v; delay := delay v;
     mode1 := mode1 v; mode2 := mode2 v; range := range v; tstop := tstop v;
     comment := comment v; gnuplot := gnuplot v |}.

Definition set_do_graph (b : bool) (v : locals) : locals :=
  {| do_display := do_display v; do_graph := b; do_overwrite := do_overwrite v;
     pad1 := pad1 v; pad2 := pad2 v; do_flush := do_flush v; delay := delay v;
     mode1 := mode1 v; mode2 := mode2 v; range := range v; tstop := tstop v;
     comment := comment v; gnuplot := gnuplot v |}.

Definition set_do_overwrite (b : bool) (v : locals) : locals :=
  {| do_display := do_display v; do_graph := do_graph v; do_overwrite := b;
     pad1 := pad1 v; pad2 := pad2 v; do_flush := do_flush v; delay := delay v;
     mode1 := mode1 v; mode2 := mode2 v; range := range v; tstop := tstop v;
     comment := comment v; gnuplot := gnuplot v |}.

Definition set_pad1 (x : Z) (v : locals) : locals :=
  {| do_display := do_display v; do_graph := do_graph v;
     do_overwrite := do_overwrite v;
     pad1 := x; pad2 := pad2 v; do_flush := do_flush v; delay := delay v;
     mode1 := mode1 v; mode2 := mode2 v; range := range v; tstop := tstop v;
     comment := comment v; gnuplot := gnuplot v |}.

Definition set_pad2 (x : Z) (v : locals) : locals :=
  {| do_display := do_display v; do_graph := do_graph v;
     do_overwrite := do_overwrite v;
     pad1 := pad1 v; pad2 := x; do_flush := do_flush v; delay := delay v;
     mode1 := mode1 v; mode2 := mode2 v; range := range v; tstop := tstop v;
     comment := comment v; gnuplot := gnuplot v |}.

Definition set_do_flush (x : Z) (v : locals) : locals :=
  {| do_display := do_display v; do_graph := do_graph v;
     do_overwrite := do_overwrite v;
     pad1 := pad1 v; pad2 := pad2 v; do_flush := x; delay := delay v;
     mode1 := mode1 v; mode2 := mode2 v; range := range v; tstop := tstop v;
     comment := comment v; gnuplot := gnuplot v |}.

Definition set_delay (x : Z) (v : locals) : locals :=
  {| do_display := do_display v; do_graph := do_graph v;
     do_overwrite := do_overwrite v;
     pad1 := pad1 v; pad2 := pad2 v; do_flush := do_flush v; delay := x;
     mode1 := mode1 v; mode2 := mode2 v; range := range v; tstop := tstop v;
     comment := comment v; gnuplot := gnuplot v |}.

Definition set_mode1 (x : Z) (v : locals) : locals :=
  {| do_display := do_display v; do_graph := do_graph v;
     do_overwrite := do_overwrite v;
     pad1 := pad1 v; pad2 := pad2 v; do_flush := do_flush v; delay := delay v;
     mode1 := x; mode2 := mode2 v; range := range v; tstop := tstop v;
     comment := comment v; gnuplot := gnuplot v |}.

Definition set_mode2 (x : Z) (v : locals) : locals :=
  {| do_display := do_display v; do_graph := do_graph v;
     do_overwrite := do_overwrite v;
     pad1 := pad1 v; pad2 := pad2 v; do_flush := do_flush v; delay := delay v;
     mode1 := mode1 v; mode2 := x; range := range v; tstop := tstop v;
     comment := comment v; gnuplot := gnuplot v |}.

Definition set_tstop (x : float) (v : locals) : locals :=
  {| do_display := do_display v; do_graph := do_graph v;
     do_overwrite := do_overwrite v;
     pad1 := pad1 v; pad2 := pad2 v; do_flush := do_flush v; delay := delay v;
     mode1 := mode1 v; mode2 := mode2 v; range := range v; tstop := x;
     comment := comment v; gnuplot := gnuplot v |}.

Definition set_comment (x : string) (v : locals) : locals :=
  {| do_display := do_display v; do_graph := do_graph v;
     do_overwrite := do_overwrite v;
     pad1 := pad1 v; pad2 := pad2 v; do_flush := do_flush v; delay := delay v;
     mode1 := mode1 v; mode2 := mode2 v; range := range v; tstop := tstop v;
     comment := x; gnuplot := gnuplot v |}.

Definition set_gnuplot (x : string) (v : locals) : locals :=
  {| do_display := do_display v; do_graph := do_graph v;
     do_overwrite := do_overwrite v;
     pad1 := pad1 v; pad2 := pad2 v; do_flush := do_flush v; delay := delay v;
     mode1 := mode1 v; mode2 := mode2 v; range := range v; tstop := tstop v;
     comment := comment v; gnuplot := x |}.

(** ** Pure parts of the program *)

(** [strclean]: the buffer is cut at the first CR or LF; the C function
    returns the length of what is left. *)
Fixpoint strclean (buf : string) : string :=
  match buf with
  | EmptyString => EmptyString
  | String c r =>
      if Ascii.eqb c C.LF || Ascii.eqb c C.CR then EmptyString
      else String c (strclean r)
  end.

(** The integration code selected in [s7150_setup]. *)
Definition integration (freq : float) : Z :=
  let i := 3 in
  let i := if (freq <? 0.25)%float then 4 else i in
  let i := if (1.5 <? freq)%float then 1 else i in
  let i := if (10 <? freq)%float then 0 else i in
  i.

(** [delay = delay/2.0]: a division of doubles, converted back to [int]. *)
Definition halve (delay : Z) : Z :=
  C.int_of_double (C.double_of_Z delay / 2)%float.

(** [10.0/delay], converted to the [float] parameter of [s7150_setup]. *)
Definition sampling_freq (delay : Z) : float :=
  C.float_of_double (10 / C.double_of_Z delay)%float.

(** The time-based stop test of the acquisition loop. *)
Definition timed_out (t1 tstop : float) : bool :=
  (tstop <? t1)%float && (0 <? tstop)%float.

(** The flush test [!(loop % do_flush)]; [do_flush] is converted to
    [unsigned long].  [None] when the divisor is zero. *)
Definition flush_due (loop do_flush : Z) : option bool :=
  let d := C.to_ulong do_flush in
  if d =? 0 then None else Some (loop mod d =? 0).

Definition quit_key (key : Z) : bool := (key =? KEY_q) || (key =? ESC).

(** ** The program *)

Section Program.

Variable w : World.

(** *** Keyboard *)

Definition kbhit : M Z :=
  p <- gets peek_character ;;
  if negb (p =? -1) then ret 1
  else
    n <- gets n_stdin ;;
    modify tick_stdin ;;
    match w_read_stdin w n with
    | Some ch => modify (set_peek (C.to_schar ch)) ;; ret 1
    | None => ret 0
    end.

Definition readch : M Z :=
  p <- gets peek_character ;;
  ch <- (if negb (p =? -1) then modify (set_peek (-1)) ;; ret (C.to_schar p)
         else
           n <- gets n_stdin ;;
           modify tick_stdin ;;
           ret (C.to_schar match w_read_stdin w n with
                           | Some ch => ch
                           | None => w_uninit_char w
                           end)) ;;
  emit (Readch ch) ;;
  ret ch.

(** *** Clock *)

Definition timeinfo : M float :=
  n <- gets n_clock ;;
  modify tick_clock ;;
  let (sec, usec) := w_gettimeofday w n in
  ret (C.double_of_Z sec + C.double_of_Z usec / 1000000)%float.

(** [time (&t)] followed by [ctime (&t)]. *)
Definition time_ctime : M string :=
  n <- gets n_time ;;
  modify tick_time ;;
  ret (w_ctime w n).

(** *** Command line scanner *)

Definition SW : ascii := "-"%char.

Definition gopEOF (oi : nat) : M (Z * option string) :=
  modify (set_getopt oi None) ;; ret (EOF, None).

Definition gopError : M (Z * option string) :=
  emit (Stderr PerrorCommandLine) ;; ret (C.code "~", None).

(** The part of [GetOpt] after [letP] has been made to point into the
    current option cluster. *)
Definition GetOpt_letter (argv : list string) (optionS : string)
    (oi : nat) (p : string) : M (Z * option string) :=
  let ch := C.deref p in
  let p := C.next p in
  if Ascii.eqb ch C.NUL then gopEOF (S oi)
  else
    match (if Ascii.eqb ch ":" then None else C.strchr optionS ch) with
    | None => modify (set_getopt oi (Some p)) ;; gopError
    | Some optP =>
        if Ascii.eqb (C.deref (C.next optP)) ":" then
          let oi := S oi in
          if Ascii.eqb (C.deref p) C.NUL then
            match nth_error argv oi with
            | None => modify (set_getopt oi (Some p)) ;; gopError
            | Some a =>
                modify (set_getopt (S oi) None) ;; ret (C.code ch, Some a)
            end
          else modify (set_getopt oi None) ;; ret (C.code ch, Some p)
        else
          if Ascii.eqb (C.deref p) C.NUL
          then modify (set_getopt (S oi) None) ;; ret (C.code ch, None)
          else modify (set_getopt oi (Some p)) ;; ret (C.code ch, None)
    end.

Definition GetOpt (argv : list string) (optionS : string)
  : M (Z * option string) :=
  oi <- gets optind ;;
  lp <- gets letP ;;
  if (oi <? List.length argv)%nat then
    match lp with
    | Some p => GetOpt_letter argv optionS oi p
    | None =>
        match nth_error argv oi with
        | None => gopEOF oi
        | Some a =>
            if negb (Ascii.eqb (C.deref a) SW) then gopEOF oi
            else
              let p := C.next a in
              if Ascii.eqb (C.deref p) SW then gopEOF (S oi)
              else GetOpt_letter argv optionS oi p
        end
    end
  else gopEOF oi.

(** *** Instrument driver *)

Definition ibwrt (dvm : Z) (cmd : string) : M bool :=
  n <- gets n_ibwrt ;;
  modify tick_ibwrt ;;
  let err := w_ibwrt w n in
  emit (Ibwrt dvm cmd err) ;;
  ret err.

Definition nl : string := String C.LF EmptyString.

Definition s7150_open_body (pad : Z) : M Z :=
  n <- gets n_ibdev ;;
  modify tick_ibdev ;;
  let dvm := w_ibdev w n in
  emit (Ibdev pad dvm) ;;
  if dvm <? 0 then emit (Stderr (ErrOpen pad)) ;; ret 0
  else
    e1 <- ibwrt dvm ("A" ++ nl)%string ;;
    if e1 : bool then emit (Stderr (ErrInit1 pad)) ;; ret 0
    else
      emit (Sleep 2) ;;
      e2 <- ibwrt dvm ("U7N0T1" ++ nl)%string ;;
      if e2 : bool then emit (Stderr (ErrInit2 pad)) ;; ret 0
      else ret dvm.

(** [s7150_open], with its call and its return value logged. *)
Definition s7150_open (pad : Z) : M Z :=
  emit (Call_s7150_open pad) ;;
  dvm <- s7150_open_body pad ;;
  emit (Ret_s7150_open pad dvm) ;;
  ret dvm.

Definition setup_command (d func range i : Z) : string :=
  ("D" ++ C.dec d ++ "M" ++ C.dec func ++ "R" ++ C.dec range
       ++ "I" ++ C.dec i ++ nl)%string.

Definition s7150_setup (dvm display func range : Z) (freq : float) : M Z :=
  emit (Call_s7150_setup dvm display func range freq) ;;
  let d := if display =? 0 then 1 else 0 in
  let i := integration freq in
  e <- ibwrt dvm (setup_command d func range i) ;;
  if e : bool then emit (Stderr ErrModeSetting) ;; ret 0
  else ret 1.

Definition INT_MAX : Z := 2147483647.

(** [s7150_read]: the returned pair is the C return value and the
    contents of the [result] buffer afterwards. *)
Definition s7150_read (dvm delay : Z) (id : bufid) (result : list ascii)
  : M (Z * list ascii) :=
  emit (Call_s7150_read dvm delay id) ;;
  (if delay >? 0 then
     if delay * 100000 >? INT_MAX then undefined_ IntOverflow
     else emit (Usleep (delay * 100000))
   else ret tt) ;;
  n <- gets n_ibrd ;;
  modify tick_ibrd ;;
  let (err, bytes) := w_ibrd w n in
  let data := firstn 16 bytes in
  emit (Ibrd dvm 16 err data) ;;
  let result := C.overwrite data result in
  if err : bool then emit (Stderr ErrRead) ;; ret (0, result)
  else
    match List.length data with
    | O => undefined_ NegativeIndex
    | S i => ret (1, C.store result i C.NUL)
    end.

Definition s7150_close (dvm : Z) : M Z :=
  emit (Call_s7150_close dvm) ;;
  e <- ibwrt dvm ("DC1" ++ nl ++ "A" ++ nl)%string ;;
  if e : bool then emit (Stderr ErrReset) ;; ret 0
  else ret 1.

(** *** Helpers of [main] *)

(** [pclose (gp)]; [gp] is [true] when the pointer is not NULL. *)
Definition pclose (gp : bool) : M unit :=
  if gp then emit Pclose else undefined_ PcloseNull.

(** [strcpy] into a buffer of [MAXLEN] bytes. *)
Definition strcpy (src : string) : M string :=
  if C.strlen src <? MAXLEN then ret src else undefined_ BufferOverflow.

Definition is_key (c : ascii) (key : Z) : bool := key =? C.code c.

Definition arg_of (optarg : option string) : string :=
  match optarg with
  | Some a => a
  | None => EmptyString
  end.

Definition scan_int (optarg : option string) (old : Z) : Z :=
  match C.sscanf_5d (arg_of optarg) with
  | Some x => x
  | None => old
  end.

Definition optionS : string := "hfnda:A:w:t:T:m:c:M:g:".

(** The option loop [while ((key = GetOpt (...)) != EOF) switch (key)]. *)
Fixpoint options (fuel : nat) (argv : list string) (v : locals) : M locals :=
  match fuel with
  | O => out_of_fuel
  | S fuel =>
      r <- GetOpt argv optionS ;;
      let (key, optarg) := r : Z * option string in
      if key =? EOF then ret v
      else if is_key "h" key then emit (Stderr Usage) ;; return_ 0
      else if is_key "f" key then options fuel argv (set_do_overwrite true v)
      else if is_key "n" key then options fuel argv (set_do_graph false v)
      else if is_key "d" key then options fuel argv (set_do_display false v)
      else if is_key "c" key then
        let c := strclean (arg_of optarg) in
        if C.strlen c =? 0 then options fuel argv v
        else c' <- strcpy c ;; options fuel argv (set_comment c' v)
      else if is_key "g" key then
        match C.sscanf_80s (arg_of optarg) with
        | Some g => options fuel argv (set_gnuplot g v)
        | None => options fuel argv v
        end
      else if is_key "w" key then
        options fuel argv (set_do_flush (scan_int optarg (do_flush v)) v)
      else if is_key "a" key then
        let x := scan_int optarg (pad1 v) in
        if (x <? 0) || (x >? 30) then emit (Stdout ErrAddress) ;; return_ 1
        else options fuel argv (set_pad1 x v)
      else if is_key "A" key then
        let x := scan_int optarg (pad2 v) in
        if (x <? 0) || (x >? 30) then emit (Stdout ErrAddress) ;; return_ 1
        else options fuel argv (set_pad2 x v)
      else if is_key "t" key then
        let x := scan_int optarg (delay v) in
        if (x <? 0) || (x >? 600) then emit (Stdout ErrDelay) ;; return_ 1
        else options fuel argv (set_delay x v)
      else if is_key "T" key then
        let x := match w_sscanf_g w (arg_of optarg) with
                 | Some x => x
                 | None => tstop v
                 end in
        if (x <? 0)%float then emit (Stdout ErrTimeout) ;; return_ 1
        else options fuel argv (set_tstop x v)
      else if is_key "m" key then
        let x := scan_int optarg (mode1 v) in
        if (x <? 0) || (x >? 5)
        then emit (Stdout ErrMode1) ;; emit (Stdout ModeList) ;; return_ 1
        else options fuel argv (set_mode1 x v)
      else if is_key "M" key then
        let x := scan_int optarg (mode2 v) in
        if (x <? 0) || (x >? 5)
        then emit (Stdout ErrMode2) ;; emit (Stdout ModeList) ;; return_ 1
        else options fuel argv (set_mode2 x v)
      else emit (Stderr (HelpHint (arg_of (nth_error argv 0)))) ;; return_ 1
  end.

(** *** The stages of [main] *)

(** The error exit taken on every instrument failure before the loop. *)
Definition quit_instrument {A} (gp : bool) : M A :=
  emit (Stderr Quit) ;; pclose gp ;; return_ ERR_INST.

(** Output data file: name, overwrite prompt, [fopen]. *)
Definition prepare_outfile (argv : list string) (v : locals) : M string :=
  oi <- gets optind ;;
  match nth_error argv oi with
  | None => emit (Stderr Usage) ;; emit (Stderr NeedDataFile) ;; return_ 1
  | Some name =>
      filename <- strcpy name ;;
      let found := w_access w filename in
      emit (Access filename found) ;;
      (if found && negb (do_overwrite v) then
         emit (Stderr (FileExistsPrompt filename)) ;;
         let key := w_fgetc w in
         emit (Fgetc key) ;;
         if is_key "Y" key || is_key "y" key then ret tt else return_ 1
       else ret tt) ;;
      let ok := w_fopen w filename in
      emit (Fopen filename ok) ;;
      if ok then ret filename
      else
        emit (Stderr (CannotOpenFile filename)) ;;
        pclose false ;;
        return_ ERR_FILE
  end.

(** Launch of gnuplot; yields whether [gp] is not NULL, and the locals
    with [do_graph] cleared when the launch failed. *)
Definition prepare_gnuplot (v : locals) (filename : string)
  : M (bool * locals) :=
  let gp := w_popen w (gnuplot v) in
  emit (Popen (gnuplot v) gp) ;;
  v <- (if gp then ret v
        else emit (Stderr CannotLaunchGnuplot) ;; ret (set_do_graph false v)) ;;
  (if do_graph v then
     emit (Fprintf_gp (GpStyle filename)) ;;
     emit (Fprintf_gp (GpLabels (ylabels (mode1 v)))) ;;
     emit (Fprintf_gp (GpY2 (ylabels (mode2 v)))) ;;
     emit Fflush_gp
   else ret tt) ;;
  ret (gp, v).

Definition open_instruments (v : locals) (gp : bool) : M (Z * Z) :=
  dvm1 <- s7150_open (pad1 v) ;;
  dvm2 <- s7150_open (pad2 v) ;;
  if (dvm1 =? 0) || (dvm2 =? 0) then quit_instrument gp
  else ret (dvm1, dvm2).

Definition Z_of_bool (b : bool) : Z := if b then 1 else 0.

(** The delay is divided, then both instruments are set up; yields the
    locals with the divided delay. *)
Definition setup_instruments (v : locals) (gp : bool) (dvm1 dvm2 : Z)
  : M locals :=
  let v := set_delay (halve (delay v)) v in
  r1 <- s7150_setup dvm1 (Z_of_bool (do_display v)) (mode1 v) (range v)
          (sampling_freq (delay v)) ;;
  if r1 =? 0 then quit_instrument gp
  else
    r2 <- s7150_setup dvm2 (Z_of_bool (do_display v)) (mode2 v) (range v)
            (sampling_freq (delay v)) ;;
    if r2 =? 0 then quit_instrument gp
    else ret v.

(** Summary on the terminal and header of the output file; yields [t0]. *)
Definition write_header (v : locals) (filename : string) : M float :=
  emit (Stdout (Summary (pad1 v) (pad2 v) filename (comment v) (delay v)
                  (do_flush v) (tstop v))) ;;
  ts <- time_ctime ;;
  emit (Fprintf_outfile OutIdent) ;;
  emit (Fprintf_outfile (OutComment (comment v))) ;;
  emit (Fprintf_outfile (OutStart ts)) ;;
  emit (Fprintf_outfile OutLegend) ;;
  timeinfo.

Definition plot_command (v : locals) (filename : string) : gp_cmd :=
  GpPlot filename (pad1 v) (ylabels (mode1 v)) (pad2 v) (ylabels (mode2 v)).

Definition read_failed {A} (gp : bool) : M A :=
  emit (Stderr Quit) ;; pclose gp ;; emit Close_keyboard ;; return_ ERR_INST.

(** One pass through the body of the [do ... while] loop, from the
    values of [loop], [key] and the two buffers at its start to their
    values at its end. *)
Definition acquire_body (v : locals) (filename : string) (gp : bool)
    (dvm1 dvm2 : Z) (t0 : float)
    (loop key : Z) (buffer1 buffer2 : list ascii)
  : M (Z * Z * list ascii * list ascii) :=
  r1 <- s7150_read dvm1 (delay v) Buffer1 buffer1 ;;
  let (ok1, buffer1) := r1 : Z * list ascii in
  if ok1 =? 0 then read_failed gp
  else
    r2 <- s7150_read dvm2 (delay v) Buffer2 buffer2 ;;
    let (ok2, buffer2) := r2 : Z * list ascii in
    if ok2 =? 0 then read_failed gp
    else
      t <- timeinfo ;;
      let t1 := ((t - t0) / 60)%float in
      let loop := C.to_ulong (loop + 1) in
      emit (Stdout (Progress loop t1 (C.cstring buffer1) (C.cstring buffer2))) ;;
      emit (Fprintf_outfile
              (OutRecord t1 (C.cstring buffer1) (C.cstring buffer2))) ;;
      let key := if timed_out t1 (tstop v) then ESC else key in
      match flush_due loop (do_flush v) with
      | None => undefined_ ModuloByZero
      | Some due =>
          (if due then
             emit Fflush_outfile ;;
             if do_graph v then
               emit (Fprintf_gp (plot_command v filename)) ;; emit Fflush_gp
             else ret tt
           else ret tt) ;;
          hit <- kbhit ;;
          key <- (if negb (hit =? 0) then readch else ret key) ;;
          ret (loop, key, buffer1, buffer2)
      end.

(** The acquisition loop; yields the final values of [loop] and [key]. *)
Fixpoint acquire (fuel : nat) (v : locals) (filename : string) (gp : bool)
    (dvm1 dvm2 : Z) (t0 : float)
    (loop key : Z) (buffer1 buffer2 : list ascii) : M (Z * Z) :=
  match fuel with
  | O => out_of_fuel
  | S fuel =>
      r <- acquire_body v filename gp dvm1 dvm2 t0 loop key buffer1 buffer2 ;;
      let '(loop, key, buffer1, buffer2) := r in
      if quit_key key then ret (loop, key)
      else acquire fuel v filename gp dvm1 dvm2 t0 loop key buffer1 buffer2
  end.

(** [while (!kbhit ()) usleep (100000)]. *)
Fixpoint wait_key (fuel : nat) : M unit :=
  match fuel with
  | O => out_of_fuel
  | S fuel =>
      hit <- kbhit ;;
      if hit =? 0 then emit (Usleep 100000) ;; wait_key fuel
      else ret tt
  end.

(** Everything after the loop. *)
Definition shutdown (fuel : nat) (v : locals) (filename : string)
    (gp : bool) (dvm1 dvm2 : Z) : M unit :=
  ts <- time_ctime ;;
  emit (Fprintf_outfile (OutStop ts)) ;;
  emit Fclose_outfile ;;
  c1 <- s7150_close dvm1 ;;
  (if c1 =? 0 then emit (Stderr Quit) ;; return_ ERR_INST
   else
     c2 <- s7150_close dvm2 ;;
     if c2 =? 0 then emit (Stderr Quit) ;; return_ ERR_INST
     else ret tt) ;;
  (if do_graph v then
     emit (Fprintf_gp (plot_command v filename)) ;;
     emit Fflush_gp ;;
     emit (Stdout AcquisitionFinished) ;;
     wait_key fuel ;;
     pclose gp
   else ret tt) ;;
  emit Close_keyboard ;;
  emit (Stdout BlankLines) ;;
  return_ 0.

Definition buffer_at_entry : list ascii :=
  firstn (Z.to_nat MAXLEN) (w_stack w ++ repeat C.NUL (Z.to_nat MAXLEN)).

(** The part of [main] from the division of the delay on. *)
Definition measure (fuel : nat) (v : locals) (filename : string) (gp : bool)
    (dvm1 dvm2 : Z) : M unit :=
  v <- setup_instruments v gp dvm1 dvm2 ;;
  t0 <- write_header v filename ;;
  _ <- acquire fuel v filename gp dvm1 dvm2 t0 0 0
         buffer_at_entry buffer_at_entry ;;
  shutdown fuel v filename gp dvm1 dvm2.

(** The part of [main] from the first instrument call on. *)
Definition session (fuel : nat) (v : locals) (filename : string) (gp : bool)
  : M unit :=
  emit Init_keyboard ;;
  d <- open_instruments v gp ;;
  let (dvm1, dvm2) := d : Z * Z in
  measure fuel v filename gp dvm1 dvm2.

(** The part of [main] after the option loop. *)
Definition main_configured (argv : list string) (fuel : nat) (v : locals)
  : M unit :=
  filename <- prepare_outfile argv v ;;
  g <- prepare_gnuplot v filename ;;
  let (gp, v) := g : bool * locals in
  session fuel v filename gp.

Definition main (argv : list string) (fuel : nat) : M unit :=
  emit (Stderr Disclaimer) ;;
  v <- options fuel argv defaults ;;
  main_configured argv fuel v.

(** A run of the program from its initial state. *)
Definition run (argv : list string) (fuel : nat) : res unit * State :=
  main argv fuel initial_state.

(** The locals as the option loop leaves them, when it ends normally. *)
Definition configured (argv : list string) (fuel : nat) : res locals :=
  fst ((emit (Stderr Disclaimer) ;; options fuel argv defaults) initial_state).

End Program.

(** * Vocabulary of the properties *)

(** ** The accepted delays *)

(** The delays the option loop accepts, 0..600. *)
Definition delays : list Z := map Z.of_nat (seq 0 601).

(** ** Computations and the events they add to the trace *)

(** [wp m Q]: from every state, [m] extends the trace by some events [evs]
    and ends with a result [r] such that [Q r evs]. *)
Definition wp {A} (m : M A) (Q : res A -> list event -> Prop) : Prop :=
  forall s, exists evs,
    trace (snd (m s)) = trace s ++ evs /\ Q (fst (m s)) evs.

(** A computation that only adds events satisfying [P], with a result
    satisfying [R]. *)
Definition only {A} (P : event -> Prop) (R : res A -> Prop) (m : M A) : Prop :=
  wp m (fun r evs => Forall P evs /\ R r).

Definition any {A} : res A -> Prop := fun _ => True.

(** ** Observations on a trace *)

(** The line an event writes to the output file, if it writes one. *)
Definition out_line_of (e : event) : list out_line :=
  match e with
  | Fprintf_outfile l => [l]
  | _ => []
  end.

(** The lines written to the output file, in order. *)
Definition out_lines (tr : list event) : list out_line :=
  flat_map out_line_of tr.

(** Sample Record lines. *)
Definition is_record (l : out_line) : Prop :=
  match l with
  | OutRecord _ _ _ => True
  | _ => False
  end.

(** The four lines of the header, for the comment [c] and the start time
    [ts]. *)
Definition header_block (c ts : string) : list out_line :=
  [OutIdent; OutComment c; OutStart ts; OutLegend].

(** An iteration of the acquisition loop starts with the read call that is
    handed [buffer1]. *)
Definition iteration_of (e : event) : list unit :=
  match e with
  | Call_s7150_read _ _ Buffer1 => [tt]
  | _ => []
  end.

(** The number of iterations started. *)
Definition iterations (tr : list event) : nat :=
  List.length (flat_map iteration_of tr).

(** The report of a failed read on stderr. *)
Definition read_error_of (e : event) : list unit :=
  match e with
  | Stderr ErrRead => [tt]
  | _ => []
  end.

(** The number of read errors reported. *)
Definition read_errors (tr : list event) : nat :=
  List.length (flat_map read_error_of tr).

(** A return of [s7150_open]. *)
Definition open_of (e : event) : list (Z * Z) :=
  match e with
  | Ret_s7150_open pad dvm => [(pad, dvm)]
  | _ => []
  end.

(** The calls of [s7150_open] that returned: address and returned value. *)
Definition opens (tr : list event) : list (Z * Z) := flat_map open_of tr.

(** ** The events of each function *)

(** Messages of the option loop. *)
Definition parse_message (m : message) : Prop :=
  match m with
  | Disclaimer | Usage | HelpHint _ | NeedDataFile | PerrorCommandLine
  | ErrAddress | ErrDelay | ErrTimeout | ErrMode1 | ErrMode2 | ModeList => True
  | _ => False
  end.

(** Events of the option loop. *)
Definition options_event (e : event) : Prop :=
  match e with
  | Stderr m | Stdout m => parse_message m
  | _ => False
  end.

(** Events of [prepare_outfile]. *)
Definition outfile_event (e : event) : Prop :=
  match e with
  | Stderr (Usage | NeedDataFile | FileExistsPrompt _ | CannotOpenFile _)
  | Access _ _ | Fgetc _ | Fopen _ _ => True
  | _ => False
  end.

(** Events of [s7150_open]. *)
Definition open_event (e : event) : Prop :=
  match e with
  | Call_s7150_open _ | Ret_s7150_open _ _ | Ibdev _ _ | Ibwrt _ _ _ | Sleep _
  | Stderr (ErrOpen _ | ErrInit1 _ | ErrInit2 _) => True
  | _ => False
  end.

(** Events of the error exits. *)
Definition quit_event (e : event) : Prop :=
  match e with
  | Stderr Quit | Pclose | Close_keyboard => True
  | _ => False
  end.

(** Events of [s7150_setup] called with the frequency [freq]. *)
Definition setup_event (freq : float) (e : event) : Prop :=
  match e with
  | Call_s7150_setup _ _ _ _ f => f = freq
  | Ibwrt _ _ _ | Stderr ErrModeSetting => True
  | _ => False
  end.

(** Events of [s7150_read] called with the delay [delay]. *)
Definition read_event (delay : Z) (e : event) : Prop :=
  match e with
  | Call_s7150_read _ d _ => d = delay
  | Usleep _ | Ibrd _ _ _ _ | Stderr ErrRead => True
  | _ => False
  end.

(** Events of [s7150_close]. *)
Definition close_event (e : event) : Prop :=
  match e with
  | Call_s7150_close _ | Ibwrt _ _ _ | Stderr ErrReset => True
  | _ => False
  end.

(** ** Results of the stages of [main] *)

(** The value a computation ends with, if it does, satisfies [F]. *)
Definition val_sat {A} (F : A -> Prop) (r : res A) : Prop :=
  match r with
  | Val a => F a
  | _ => True
  end.

(** What the option loop has checked of the locals it yields. *)
Definition valid (v : locals) : Prop :=
  0 <= delay v <= 600 /\ 0 <= mode1 v <= 5 /\ 0 <= mode2 v <= 5.

(** The directives that set up the display of gnuplot. *)
Definition gnuplot_setup (v : locals) (filename : string) : list event :=
  [Fprintf_gp (GpStyle filename); Fprintf_gp (GpLabels (ylabels (mode1 v)));
   Fprintf_gp (GpY2 (ylabels (mode2 v))); Fflush_gp].

(** How [setup_instruments] ends. *)
Definition setup_result (v : locals) (r : res locals) : Prop :=
  match r with
  | Val v' => v' = set_delay (halve (delay v)) v
  | Return c => c = ERR_INST
  | Undefined u => u = PcloseNull
  | OutOfFuel => False
  end.

(** ** The acquisition loop *)

(** Events of the loop run with the locals [v]. *)
Definition loop_event (v : locals) (filename : string) (e : event) : Prop :=
  match e with
  | Call_s7150_read _ d _ => d = delay v
  | Usleep _ | Ibrd _ _ _ _ | Stderr ErrRead | Stderr Quit | Pclose
  | Close_keyboard | Stdout (Progress _ _ _ _)
  | Fprintf_outfile (OutRecord _ _ _) | Fflush_outfile | Readch _ => True
  | Fprintf_gp c => do_graph v = true /\ c = plot_command v filename
  | Fflush_gp => do_graph v = true
  | _ => False
  end.

(** How one pass through the loop body ends, in terms of the iterations
    started, the lines written and the read errors reported. *)
Definition body_counts {A} (r : res A) (evs : list event) : Prop :=
  iterations evs = 1%nat /\
  match r with
  | Val _ =>
      read_errors evs = 0%nat /\
      exists t1 b1 b2, out_lines evs = [OutRecord t1 b1 b2]
  | Return c => c = ERR_INST /\ read_errors evs = 1%nat /\ out_lines evs = []
  | Undefined u =>
      (out_lines evs = [] /\ (read_errors evs <= 1)%nat) \/
      (u = ModuloByZero /\ read_errors evs = 0%nat /\
       exists t1 b1 b2, out_lines evs = [OutRecord t1 b1 b2])
  | OutOfFuel => False
  end.

(** The same for one call of [s7150_read]. *)
Definition read_counts (delay : Z) (id : bufid) (r : res (Z * list ascii))
    (evs : list event) : Prop :=
  Forall (read_event delay) evs /\
  iterations evs = match id with Buffer1 => 1%nat | Buffer2 => 0%nat end /\
  out_lines evs = [] /\
  match r with
  | Val (c, _) =>
      (c = 0 /\ read_errors evs = 1%nat) \/ (c = 1 /\ read_errors evs = 0%nat)
  | Undefined u =>
      read_errors evs = 0%nat /\ (u = IntOverflow \/ u = NegativeIndex)
  | _ => False
  end.

(** A function that emits [evs x] and returns [x]. *)
Definition yields {A} (evs : A -> list event) (r : res A) (e : list event)
  : Prop := exists x, r = Val x /\ e = evs x.

(** The writing of a Sample Record. *)
Definition record_of (e : event) : list unit :=
  match e with
  | Fprintf_outfile (OutRecord _ _ _) => [tt]
  | _ => []
  end.

(** The number of Sample Record lines written. *)
Definition records (tr : list event) : nat :=
  List.length (flat_map record_of tr).

(** The events selected by [f], each with the number of Sample Records
    written before it, counted from [n]. *)
Fixpoint marks (f : event -> bool) (n : Z) (tr : list event) : list Z :=
  match tr with
  | [] => []
  | e :: tr' =>
      (if f e then [n] else [])
        ++ marks f (n + Z.of_nat (List.length (record_of e))) tr'
  end.

(** [fflush (outfile)]. *)
Definition is_flush (e : event) : bool :=
  match e with
  | Fflush_outfile => true
  | _ => false
  end.

(** The plot command sent to gnuplot. *)
Definition is_plot (e : event) : bool :=
  match e with
  | Fprintf_gp (GpPlot _ _ _ _ _) => true
  | _ => false
  end.

(** The iterations after [from], [count] of them, that are multiples of
    [N]. *)
Fixpoint due_list (N from : Z) (count : nat) : list Z :=
  match count with
  | O => []
  | S c =>
      (if (from + 1) mod N =? 0 then [from + 1] else [])
        ++ due_list N (from + 1) c
  end.

(** How the loop ends, in terms of the iterations started, the lines
    written and the read errors reported. *)
Definition loop_counts {A} (r : res A) (evs : list event) : Prop :=
  Forall is_record (out_lines evs) /\
  let n := List.length (out_lines evs) in
  match r with
  | Val _ =>
      read_errors evs = 0%nat /\ iterations evs = n /\ (1 <= n)%nat
  | Return c =>
      c = ERR_INST /\ read_errors evs = 1%nat /\ iterations evs = S n
  | Undefined _ =>
      (read_errors evs = 1%nat /\ iterations evs = S n) \/
      (read_errors evs = 0%nat /\ (n <= iterations evs <= S n)%nat)
  | OutOfFuel => read_errors evs = 0%nat /\ iterations evs = n
  end.

(** The flushes and plots of one pass through the loop body that starts
    with the counter [l]. *)
Definition body_marks (v : locals) (l : Z)
    (r : res (Z * Z * list ascii * list ascii)) (evs : list event) : Prop :=
  let N := C.to_ulong (do_flush v) in
  match r with
  | Val (l', _, _, _) =>
      l' = l + 1 /\ records evs = 1%nat /\
      marks is_flush l evs = (if (l + 1) mod N =? 0 then [l + 1] else []) /\
      marks is_plot l evs
        = (if do_graph v && ((l + 1) mod N =? 0) then [l + 1] else [])
  | _ =>
      records evs = 0%nat /\
      marks is_flush l evs = [] /\ marks is_plot l evs = []
  end.

(** The flushes and plots of the loop entered with the counter [l]. *)
Definition loop_marks (v : locals) (l : Z) (fuel : nat) {A} (r : res A)
    (evs : list event) : Prop :=
  let N := C.to_ulong (do_flush v) in
  (records evs <= fuel)%nat /\
  marks is_flush l evs = due_list N l (records evs) /\
  marks is_plot l evs = if do_graph v then due_list N l (records evs) else [].

(** The last event of [l] is [x]. *)
Definition ends_with (x : event) (l : list event) : Prop :=
  exists pre, l = pre ++ [x].

(** With a stop time of 0, the key one pass through the loop body ends
    with is the key it started with or a key just read. *)
Definition body_stop (key : Z) (r : res (Z * Z * list ascii * list ascii))
    (evs : list event) : Prop :=
  match r with
  | Val (_, k, _, _) => k = key \/ ends_with (Readch k) evs
  | Return c => c = ERR_INST /\ (1 <= read_errors evs)%nat
  | _ => True
  end.

(** With a stop time of 0, the loop ends on a key [q] or ESC just read
    from the keyboard, or with [ERR_INST] after a read error. *)
Definition loop_stop (r : res (Z * Z)) (evs : list event) : Prop :=
  match r with
  | Val (_, k) => quit_key k = true /\ ends_with (Readch k) evs
  | Return c => c = ERR_INST /\ (1 <= read_errors evs)%nat
  | _ => True
  end.

(** ** After the loop *)

(** Events of a failed reset. *)
Definition reset_event (e : event) : Prop :=
  close_event e \/ e = Stderr Quit.

(** Events of [shutdown] after the [fclose]. *)
Definition shutdown_event (v : locals) (filename : string) (e : event)
  : Prop :=
  match e with
  | Call_s7150_close _ | Ibwrt _ _ _ | Stderr ErrReset | Stderr Quit
  | Close_keyboard | Stdout BlankLines => True
  | Fprintf_gp c => do_graph v = true /\ c = plot_command v filename
  | Fflush_gp | Stdout AcquisitionFinished | Usleep _ | Pclose =>
      do_graph v = true
  | _ => False
  end.

(** What [shutdown] adds to the trace: the footer, the [fclose], and then
    the events [rest] of the instrument reset and of the final plot. *)
Definition shutdown_shape (v : locals) (filename : string) (gp : bool)
    (r : res unit) (evs : list event) : Prop :=
  exists ts rest,
    evs = Fprintf_outfile (OutStop ts) :: Fclose_outfile :: rest /\
    Forall (shutdown_event v filename) rest /\
    match r with
    | Val _ => False
    | Return c =>
        (c = 0 /\
         (do_graph v = true ->
          In (Fprintf_gp (plot_command v filename)) rest)) \/
        (c = ERR_INST /\ In (Stderr ErrReset) rest /\ Forall reset_event rest)
    | Undefined u => u = PcloseNull /\ gp = false /\ do_graph v = true
    | OutOfFuel => do_graph v = true
    end.

(** How [s7150_close] ends. *)
Definition close_shape (r : res Z) (evs : list event) : Prop :=
  Forall close_event evs /\
  exists c, r = Val c /\ ((c = 0 /\ In (Stderr ErrReset) evs) \/ c = 1).

(** How [wait_key] ends. *)
Definition wait_shape (r : res unit) (evs : list event) : Prop :=
  Forall (fun e => e = Usleep 100000) evs /\ (r = Val tt \/ r = OutOfFuel).

(** ** The whole session *)

(** Messages of [measure]. *)
Definition measure_message (m : message) : Prop :=
  match m with
  | Quit | ErrModeSetting | ErrRead | ErrReset | Summary _ _ _ _ _ _ _
  | Progress _ _ _ _ | AcquisitionFinished | BlankLines => True
  | _ => False
  end.

(** The events of [measure] for the locals [v] it is entered with. *)
Definition measure_event (v : locals) (filename : string) (e : event) : Prop :=
  match e with
  | Close_keyboard | Pclose | Ibwrt _ _ _ | Usleep _ | Ibrd _ _ _ _
  | Readch _ | Call_s7150_close _
  | Fprintf_outfile _ | Fflush_outfile | Fclose_outfile => True
  | Stderr m | Stdout m => measure_message m
  | Call_s7150_setup _ _ _ _ f => f = sampling_freq (halve (delay v))
  | Call_s7150_read _ d _ => d = halve (delay v)
  | Fprintf_gp c => do_graph v = true /\ c = plot_command v filename
  | Fflush_gp => do_graph v = true
  | _ => False
  end.

(** Events of [session]. *)
Definition session_event (v : locals) (filename : string) (e : event) : Prop :=
  e = Init_keyboard \/ open_event e \/ quit_event e
  \/ measure_event v filename e.

(** Events of [shutdown]. *)
Definition footer_event (v : locals) (filename : string) (e : event) : Prop :=
  (exists ts, e = Fprintf_outfile (OutStop ts)) \/ e = Fclose_outfile
  \/ shutdown_event v filename e.

(** What the run does with the delay [d] of the command line. *)
Definition uses_halved (d : Z) (e : event) : Prop :=
  match e with
  | Call_s7150_read _ x _ => x = halve d
  | Call_s7150_setup _ _ _ _ f => f = sampling_freq (halve d)
  | _ => True
  end.

(** The state in which the option loop starts. *)
Definition after_disclaimer : State :=
  set_trace [Stderr Disclaimer] initial_state.

(** ** Sessions without gnuplot *)

(** Nothing is sent to gnuplot. *)
Definition no_gp (e : event) : Prop :=
  match e with
  | Fprintf_gp _ | Fflush_gp => False
  | _ => True
  end.

(** No launch of gnuplot. *)
Definition no_popen (e : event) : Prop :=
  match e with
  | Popen _ _ => False
  | _ => True
  end.

(** A session without gnuplot: nothing is sent to it, and either the
    session ends while the output file is prepared, or the failed launch
    is reported and both instruments are opened. *)
Definition degraded (v : locals) (r : res unit) (evs : list event) : Prop :=
  Forall no_gp evs /\
  (Forall outfile_event evs \/
   In (Stderr CannotLaunchGnuplot) evs /\
   exists d1 d2, opens evs = [(pad1 v, d1); (pad2 v, d2)]).

(** ** A failure to open the second instrument *)

Definition not_fclose (e : event) : Prop := e <> Fclose_outfile.

(** The output file has been opened and [fclose] has not been called. *)
Definition outfile_left_open (tr : list event) : Prop :=
  (exists f, In (Fopen f true) tr) /\ ~ In Fclose_outfile tr.

(** [s7150_open] was called twice and returned 0 the second time. *)
Definition second_open_failed (tr : list event) : Prop :=
  exists p1 d1 p2, opens tr = [(p1, d1); (p2, 0)].

(** The exit taken when the second instrument cannot be opened. *)
Definition open_failure_exit (r : res unit) (evs : list event) : Prop :=
  second_open_failed evs ->
  r = Return ERR_INST /\
  (exists pre, evs = pre ++ [Stderr Quit; Pclose]) /\
  out_lines evs = [] /\
  (exists f, In (Fopen f true) evs) /\
  Forall not_fclose evs.

(** Events that neither write to the output file nor close it. *)
Definition leaves_outfile (e : event) : Prop :=
  match e with
  | Fprintf_outfile _ | Fclose_outfile => False
  | _ => True
  end.

(** ** The shape of the output file *)

(** Events that are no write to the output file, no start of an iteration
    and no report of a read error. *)
Definition silent (e : event) : Prop :=
  match e with
  | Fprintf_outfile _ | Call_s7150_read _ _ _ | Stderr ErrRead => False
  | _ => True
  end.

(** The shape of the output file and of the loop in a run, in terms of the
    lines written, the iterations started and the read errors reported. *)
Definition file_shape (r : res unit) (evs : list event) : Prop :=
  (out_lines evs = [] /\ iterations evs = 0%nat /\ read_errors evs = 0%nat)
  \/
  exists c ts recs,
    Forall is_record recs /\
    let n := List.length recs in
    ((exists ts', out_lines evs = header_block c ts ++ recs ++ [OutStop ts'])
     /\ read_errors evs = 0%nat /\ iterations evs = n /\ (1 <= n)%nat
     \/
     out_lines evs = header_block c ts ++ recs
     /\ read_errors evs = 1%nat /\ iterations evs = S n
     /\ (r = Return ERR_INST \/ exists u, r = Undefined u)
     \/
     out_lines evs = header_block c ts ++ recs
     /\ read_errors evs = 0%nat /\ (n <= iterations evs <= S n)%nat
     /\ (r = OutOfFuel \/ exists u, r = Undefined u)).

(** ** The cadence of flushes and plots *)

(** Events that are no flush, no plot command and no Sample Record. *)
Definition unmarked (e : event) : Prop :=
  match e with
  | Fflush_outfile | Fprintf_gp (GpPlot _ _ _ _ _)
  | Fprintf_outfile (OutRecord _ _ _) => False
  | _ => True
  end.

(** The cadence of flushes and plots in the events [evs] of a run that ends
    with [r]: [body] runs to the end of the loop, [tail] is what follows
    it.  In [body] the flushes fall on the multiples of [N], and so do the
    plots when plotting is on.  Either nothing follows the loop, and then
    the program does not end with code 0; or the footer and the [fclose]
    follow, and a last plot when plotting is on and the program ends with
    code 0. *)
Definition cadence (N : Z) (plotting : bool) (plot : gp_cmd) (r : res unit)
    (evs : list event) : Prop :=
  exists body tail,
    evs = body ++ tail /\
    marks is_flush 0 body = due_list N 0 (records body) /\
    marks is_plot 0 body
    = (if plotting then due_list N 0 (records body) else []) /\
    (tail = [] /\ r <> Return 0 \/
     exists ts rest,
       tail = Fprintf_outfile (OutStop ts) :: Fclose_outfile :: rest /\
       (r = Return 0 -> plotting = true -> In (Fprintf_gp plot) rest)).

(** ** Single reads and free running *)

(** What one call of [s7150_read] adds to the trace. *)
Definition read_trace (dvm delay : Z) (id : bufid) (err : bool)
    (data : list ascii) : list event :=
  Call_s7150_read dvm delay id
    :: (if delay =? 0 then [] else [Usleep (delay * 100000)])
    ++ Ibrd dvm 16 err data
    :: (if err then [Stderr ErrRead] else []).

(** No call of [usleep]. *)
Definition no_sleep (e : event) : Prop :=
  match e with
  | Usleep _ => False
  | _ => True
  end.

(** Reads without a delay, and a setup with an infinite sampling
    frequency. *)
Definition free_running (e : event) : Prop :=
  match e with
  | Call_s7150_read _ x _ => x = 0
  | Call_s7150_setup _ _ _ _ f => f = infinity
  | _ => True
  end.

(** With a flush interval of 0, one pass through the loop body ends in the
    modulo by zero after its Sample Record, or before on a failed read. *)
Definition stops_at_modulo (r : res (Z * Z * list ascii * list ascii))
    (evs : list event) : Prop :=
  match r with
  | Val _ | OutOfFuel => False
  | Return c => c = ERR_INST /\ read_errors evs = 1%nat
  | Undefined u =>
      u = ModuloByZero /\ records evs = 1%nat \/
      u <> ModuloByZero /\ records evs = 0%nat
  end.

(** ** Concrete worlds and command lines *)

(** A reading of an instrument: 15 characters and a carriage return. *)
Definition reading : list ascii :=
  list_ascii_of_string "+1.23456E+0 VDC"%string ++ [C.CR].

(** A bench on which every call succeeds; [q] is the third key poll and a
    further key arrives two polls later. *)
Definition bench : World :=
  {| w_sscanf_g := fun _ => None;
     w_access := fun _ => false;
     w_fgetc := 110;
     w_fopen := fun _ => true;
     w_popen := fun _ => true;
     w_ibdev := fun n => 16 + Z.of_nat n;
     w_ibwrt := fun _ => false;
     w_ibrd := fun _ => (false, reading);
     w_gettimeofday := fun n => (60 * Z.of_nat n, 0);
     w_ctime := fun _ => "Thu Jan  1 00:00:00 1970"%string;
     w_read_stdin := fun n =>
       if (n =? 2)%nat then Some KEY_q
       else if (n =? 4)%nat then Some 32 else None;
     w_uninit_char := 0;
     w_stack := [] |}.

(** Worlds that differ from [w] in one answer. *)
Definition with_popen (f : string -> bool) (w : World) : World :=
  {| w_sscanf_g := w_sscanf_g w; w_access := w_access w; w_fgetc := w_fgetc w;
     w_fopen := w_fopen w; w_popen := f; w_ibdev := w_ibdev w;
     w_ibwrt := w_ibwrt w; w_ibrd := w_ibrd w;
     w_gettimeofday := w_gettimeofday w; w_ctime := w_ctime w;
     w_read_stdin := w_read_stdin w; w_uninit_char := w_uninit_char w;
     w_stack := w_stack w |}.

Definition with_ibdev (f : nat -> Z) (w : World) : World :=
  {| w_sscanf_g := w_sscanf_g w; w_access := w_access w; w_fgetc := w_fgetc w;
     w_fopen := w_fopen w; w_popen := w_popen w; w_ibdev := f;
     w_ibwrt := w_ibwrt w; w_ibrd := w_ibrd w;
     w_gettimeofday := w_gettimeofday w; w_ctime := w_ctime w;
     w_read_stdin := w_read_stdin w; w_uninit_char := w_uninit_char w;
     w_stack := w_stack w |}.

Definition with_ibwrt (f : nat -> bool) (w : World) : World :=
  {| w_sscanf_g := w_sscanf_g w; w_access := w_access w; w_fgetc := w_fgetc w;
     w_fopen := w_fopen w; w_popen := w_popen w; w_ibdev := w_ibdev w;
     w_ibwrt := f; w_ibrd := w_ibrd w;
     w_gettimeofday := w_gettimeofday w; w_ctime := w_ctime w;
     w_read_stdin := w_read_stdin w; w_uninit_char := w_uninit_char w;
     w_stack := w_stack w |}.

Definition with_ibrd (f : nat -> bool * list ascii) (w : World) : World :=
  {| w_sscanf_g := w_sscanf_g w; w_access := w_access w; w_fgetc := w_fgetc w;
     w_fopen := w_fopen w; w_popen := w_popen w; w_ibdev := w_ibdev w;
     w_ibwrt := w_ibwrt w; w_ibrd := f;
     w_gettimeofday := w_gettimeofday w; w_ctime := w_ctime w;
     w_read_stdin := w_read_stdin w; w_uninit_char := w_uninit_char w;
     w_stack := w_stack w |}.

(** gnuplot cannot be launched. *)
Definition bench_no_gnuplot : World := with_popen (fun _ => false) bench.

(** The second [ibdev] fails. *)
Definition bench_bad_second_address : World :=
  with_ibdev (fun n => if (n =? 1)%nat then -1 else 16) bench.

(** The first [ibrd] reports an error. *)
Definition bench_read_error : World := with_ibrd (fun _ => (true, [])) bench.

(** The seventh [ibwrt], the reset of the first instrument, fails. *)
Definition bench_reset_error : World :=
  with_ibwrt (fun n => (n =? 6)%nat) bench.

Definition argv_default : list string := ["s7150duo"; "out.dat"]%string.
Definition argv_delay7 : list string :=
  ["s7150duo"; "-t"; "7"; "out.dat"]%string.
Definition argv_flush2 : list string :=
  ["s7150duo"; "-w"; "2"; "out.dat"]%string.
Definition argv_flush0 : list string :=
  ["s7150duo"; "-w"; "0"; "out.dat"]%string.
Definition argv_delay1 : list string :=
  ["s7150duo"; "-t"; "1"; "out.dat"]%string.

(** ** Further observations and predicates *)

(** Line feed and carriage return. *)
Definition is_eol (c : ascii) : bool := Ascii.eqb c C.LF || Ascii.eqb c C.CR.

(** The integration code by the delay of the command line. *)
Definition integration_of_delay (d : Z) : Z :=
  if d <? 2 then 0 else if d <? 14 then 1 else if d <? 82 then 3 else 4.

(** The option letters [GetOpt] looks at next: the rest of the cluster it
    is in, or the letters of the next argument when it starts with one
    [SW]. *)
Definition pending (argv : list string) (s : State) : option string :=
  if (optind s <? List.length argv)%nat then
    match letP s with
    | Some p => Some p
    | None =>
        match nth_error argv (optind s) with
        | Some (String c q) =>
            if Ascii.eqb c SW && negb (Ascii.eqb (C.deref q) SW)
            then Some q else None
        | _ => None
        end
    end
  else None.

(** The state in which [GetOpt] reports an error. *)
Definition perror_state (oi : nat) (p : string) (s : State) : State :=
  set_trace (trace s ++ [Stderr PerrorCommandLine])
            (set_getopt oi (Some p) s).

(** What is left of the command line: one for each argument from [optind]
    on and one for each of its characters; within a cluster, the
    characters not yet looked at. *)
Fixpoint weight (args : list string) : nat :=
  match args with
  | [] => O
  | a :: r => (1 + String.length a + weight r)%nat
  end.

Definition left_over (argv : list string) (s : State) : nat :=
  match letP s with
  | Some p => (String.length p + weight (skipn (S (optind s)) argv))%nat
  | None => weight (skipn (optind s) argv)
  end.

(** A call of [GetOpt] that yields an option uses up some of the command
    line. *)
Definition uses_up (argv : list string) (s : State)
    (r : res (Z * option string) * State) : Prop :=
  match fst r with
  | Val (key, _) =>
      key = EOF \/ key = C.code "~"
      \/ (left_over argv (snd r) < left_over argv s)%nat
  | _ => False
  end.

(** What the option loop guarantees of the settings it yields. *)
Definition accepted (v : locals) : Prop :=
  0 <= pad1 v <= 30 /\ 0 <= pad2 v <= 30 /\
  0 <= delay v <= 600 /\
  0 <= mode1 v <= 5 /\ 0 <= mode2 v <= 5 /\
  range v = 0 /\
  -9999 <= do_flush v <= 99999 /\
  (tstop v <? 0)%float = false /\
  C.strlen (comment v) < MAXLEN /\
  C.strlen (gnuplot v) <= 80.

(** A message on stderr. *)
Definition open_error_of (e : event) : list message :=
  match e with
  | Stderr m => [m]
  | _ => []
  end.

(** The messages written to stderr, in order. *)
Definition stderr_messages (tr : list event) : list message :=
  flat_map open_error_of tr.

(** How a call of [s7150_open] ends: with the descriptor, after the whole
    initialisation; or with 0, after one message at the step that failed,
    or after none when the descriptor itself is 0. *)
Definition open_outcome (pad : Z) (ud : Z) (r : res Z) (evs : list event)
  : Prop :=
  exists dvm,
    r = Val dvm /\
    (dvm <> 0 ->
     dvm = ud /\ 0 < ud /\
     evs = [Call_s7150_open pad; Ibdev pad ud;
            Ibwrt ud ("A" ++ nl)%string false; Sleep 2;
            Ibwrt ud ("U7N0T1" ++ nl)%string false;
            Ret_s7150_open pad ud]) /\
    (dvm = 0 ->
     (ud < 0 /\ stderr_messages evs = [ErrOpen pad] /\
      Forall (fun e => forall d c b, e <> Ibwrt d c b) evs) \/
     (0 <= ud /\ stderr_messages evs = [ErrInit1 pad] /\
      ~ In (Sleep 2) evs) \/
     (0 <= ud /\ stderr_messages evs = [ErrInit2 pad]) \/
     (ud = 0 /\ stderr_messages evs = [])).

(** What allows the program to open, and so to truncate, the file [f]. *)
Definition may_open (w : World) (overwrite : bool) (f : string) : Prop :=
  w_access w f = false \/ overwrite = true
  \/ w_fgetc w = C.code "Y" \/ w_fgetc w = C.code "y".

(** The calls of [fopen] among [evs], made with the forced overwrite
    [overwrite], that ended with [r]. *)
Definition guarded_open (w : World) (argv : list string) (overwrite : bool)
    {A} (r : res A) (evs : list event) : Prop :=
  forall f ok,
    In (Fopen f ok) evs ->
    In f argv /\ C.strlen f < MAXLEN /\ ok = w_fopen w f /\
    may_open w overwrite f /\
    (ok = false -> r = Undefined PcloseNull).

(** The calls of [init_keyboard] ([true]) and [close_keyboard] ([false]),
    in order. *)
Definition kb_of (e : event) : list bool :=
  match e with
  | Init_keyboard => [true]
  | Close_keyboard => [false]
  | _ => []
  end.

Definition keyboard (tr : list event) : list bool := flat_map kb_of tr.

(** Events that touch neither the keyboard settings nor report a read
    error. *)
Definition calm (e : event) : Prop :=
  kb_of e = [] /\ read_error_of e = [].

(** How a run ends: the exit code, with what was done to the keyboard
    settings and the read errors reported. *)
Definition exit_status (r : res unit) (evs : list event) : Prop :=
  match r with
  | Val _ => False
  | Return c =>
      (c = 0 /\ read_errors evs = 0%nat /\
       (keyboard evs = [] \/ keyboard evs = [true; false])) \/
      (c = 1 /\ read_errors evs = 0%nat /\ keyboard evs = []) \/
      (c = ERR_INST /\ (read_errors evs <= 1)%nat /\
       keyboard evs = true :: repeat false (read_errors evs))
  | _ => True
  end.

(** The same for the part of [main] from the first instrument call on,
    [init_keyboard] having been called. *)
Definition session_status (r : res unit) (evs : list event) : Prop :=
  match r with
  | Val _ => False
  | Return c =>
      (c = 0 /\ read_errors evs = 0%nat /\ keyboard evs = [false]) \/
      (c = ERR_INST /\ (read_errors evs <= 1)%nat /\
       keyboard evs = repeat false (read_errors evs))
  | _ => True
  end.

Definition loop_status {A} (r : res A) (evs : list event) : Prop :=
  match r with
  | Return c =>
      c = ERR_INST /\ read_errors evs = 1%nat /\ keyboard evs = [false]
  | Undefined _ => keyboard evs = []
  | _ => read_errors evs = 0%nat /\ keyboard evs = []
  end.

Definition exit_codes {A} (r : res A) : Prop :=
  match r with
  | Return c => c = 0 \/ c = 1
  | _ => True
  end.

(** A key read by [readch]. *)
Definition key_of (e : event) : list Z :=
  match e with
  | Readch k => [k]
  | _ => []
  end.

(** The keys read from the keyboard, in their order. *)
Definition keys_read (tr : list event) : list Z := flat_map key_of tr.

(** How one pass through the loop body that completes leaves [key]: the
    progress line and the Sample Record carry the same time [t1] and the
    same readings.  If the pass has read a key, it has read one key, at its
    very end, and that key is the one it leaves, whether or not [t1] is
    past the stop time.  Only if the pass has read no key does it leave ESC
    when [t1] is past a positive stop time, and the key it started with
    otherwise. *)
Definition body_timed (v : locals) (key : Z)
    (r : res (Z * Z * list ascii * list ascii)) (evs : list event) : Prop :=
  match r with
  | Val (l', k, _, _) =>
      exists t1 b1 b2,
        In (Stdout (Progress l' t1 b1 b2)) evs /\
        In (Fprintf_outfile (OutRecord t1 b1 b2)) evs /\
        (keys_read evs = [k] /\ ends_with (Readch k) evs \/
         keys_read evs = [] /\
         k = if timed_out t1 (tstop v) then ESC else key)
  | _ => True
  end.

(** The instruments [s7150_close] is called for, in order. *)
Definition close_call_of (e : event) : list Z :=
  match e with
  | Call_s7150_close dvm => [dvm]
  | _ => []
  end.

Definition close_calls (tr : list event) : list Z :=
  flat_map close_call_of tr.

Definition reset_error_of (e : event) : list unit :=
  match e with
  | Stderr ErrReset => [tt]
  | _ => []
  end.

(** The number of failed resets reported. *)
Definition reset_errors (tr : list event) : nat :=
  List.length (flat_map reset_error_of tr).

(** How the resets after the loop go: the second instrument is reset only
    when the reset of the first succeeded, and the program leaves with
    [ERR_INST] exactly when a reset failed. *)
Definition reset_order (dvm1 dvm2 : Z) (r : res unit) (evs : list event)
  : Prop :=
  (close_calls evs = [dvm1] /\ reset_errors evs = 1%nat
   /\ r = Return ERR_INST) \/
  (close_calls evs = [dvm1; dvm2] /\ reset_errors evs = 1%nat
   /\ r = Return ERR_INST) \/
  (close_calls evs = [dvm1; dvm2] /\ reset_errors evs = 0%nat
   /\ r <> Return ERR_INST).

(** The two opens of a run. *)
Definition opened_both (v : locals) (r : res unit) (evs : list event)
  : Prop :=
  opens evs = [] \/
  exists d1 d2,
    opens evs = [(pad1 v, d1); (pad2 v, d2)] /\
    (d1 = 0 \/ d2 = 0 -> r = Return ERR_INST \/ r = Undefined PcloseNull).

(** No failure to launch gnuplot is reported. *)
Definition no_launch_report (e : event) : Prop :=
  match e with
  | Stderr CannotLaunchGnuplot => False
  | _ => True
  end.

(** What a run does when [popen] has answered with a stream: it reports no
    failure to launch gnuplot, and either it ends before the launch, or the
    launch is followed at once by the directives that set up the display,
    flushed through the pipe, and by the session. *)
Definition undetected (v : locals) (evs : list event) : Prop :=
  Forall no_launch_report evs /\
  (Forall no_popen evs \/
   exists filename pre post,
     evs = pre ++ Popen (gnuplot v) true
             :: gnuplot_setup v filename ++ Init_keyboard :: post).

(** A call of [s7150_read]: the delay it is handed and the buffer it
    fills. *)
Definition read_call_of (e : event) : list (Z * bufid) :=
  match e with
  | Call_s7150_read _ d id => [(d, id)]
  | _ => []
  end.

(** The calls of [s7150_read] in a trace, in their order. *)
Definition read_calls (tr : list event) : list (Z * bufid) :=
  flat_map read_call_of tr.

(** The calls of [n] passes through the loop body in which both instruments
    are read with the delay [d]. *)
Fixpoint read_pairs (d : Z) (n : nat) : list (Z * bufid) :=
  match n with
  | O => []
  | S n => (d, Buffer1) :: (d, Buffer2) :: read_pairs d n
  end.

(** The calls of [s7150_read] come in pairs, the first instrument then the
    second, each with the delay [d]; only the last pass may stop after its
    first read; and every Sample Record written belongs to a pass that has
    made both calls. *)
Definition reads_paired (d : Z) (evs : list event) : Prop :=
  exists n tail,
    read_calls evs = read_pairs d n ++ tail /\
    (tail = [] \/ tail = [(d, Buffer1)]) /\
    (records evs <= n)%nat.

(** How the program ends once a read error has been reported: with
    [ERR_INST] when gnuplot had been launched ([gp] is not [NULL]), in the
    [pclose] of a [NULL] stream when it had not. *)
Definition read_exit {A} (gp : bool) (r : res A) (evs : list event) : Prop :=
  (1 <= read_errors evs)%nat ->
  match r with
  | Return c => gp = true /\ c = ERR_INST
  | Undefined u => gp = false /\ u = PcloseNull
  | _ => False
  end.

(** The reads, the record and the exit of one pass through the loop body. *)
Definition body_reads {A} (d : Z) (gp : bool) (r : res A)
    (evs : list event) : Prop :=
  match r with
  | Val _ =>
      read_calls evs = [(d, Buffer1); (d, Buffer2)] /\
      records evs = 1%nat /\ read_errors evs = 0%nat
  | _ =>
      (read_calls evs = [(d, Buffer1)] /\ records evs = 0%nat \/
       read_calls evs = [(d, Buffer1); (d, Buffer2)] /\ (records evs <= 1)%nat)
      /\ read_exit gp r evs
  end.

(** Command lines and a state for the examples. *)
Definition argv_flags : list string := ["s7150duo"; "-fn"; "out.dat"]%string.
Definition argv_unknown : list string := ["s7150duo"; "-x"; "out.dat"]%string.
Definition argv_dashes : list string :=
  ["s7150duo"; "--"; "-t"; "out.dat"]%string.

(** A state in which the next poll of the keyboard finds the key [q] of
    the bench. *)
Definition key_waiting : State := tick_stdin (tick_stdin initial_state).

(** * Examples of the pure parts *)

Example sscanf_5d_ex1 : C.sscanf_5d "0" = Some 0.
Proof. reflexivity. Qed.
Example sscanf_5d_ex2 : C.sscanf_5d " -12345" = Some (-1234).
Proof. reflexivity. Qed.
Example sscanf_5d_ex3 : C.sscanf_5d "x7" = None.
Proof. reflexivity. Qed.
Example float_of_double_ex :
  C.float_of_double (10 / 7)%float = 0x1.6db6dcp+0%float.
Proof. vm_compute. reflexivity. Qed.
Example int_of_double_ex :
  C.int_of_double (C.double_of_Z 7 / 2)%float = 3.
Proof. vm_compute. reflexivity. Qed.

Example integration_ex1 : integration (sampling_freq 5) = 1.
Proof. vm_compute. reflexivity. Qed.
Example integration_ex2 : integration (sampling_freq 7) = 3.
Proof. vm_compute. reflexivity. Qed.
Example integration_ex3 : integration (sampling_freq 41) = 4.
Proof. vm_compute. reflexivity. Qed.
Example halve_ex : halve 10 = 5 /\ halve 7 = 3 /\ halve 1 = 0.
Proof. vm_compute. auto. Qed.

(** * Reasoning about the embedding *)

(** ** Comparisons of doubles against the constants of the program *)

Lemma SF_quarter : Prim2SF 0.25 = S754_finite false 4503599627370496 (-54).
Proof. vm_compute. reflexivity. Qed.

Lemma SF_three_halves :
  Prim2SF 1.5 = S754_finite false 6755399441055744 (-52).
Proof. vm_compute. reflexivity. Qed.

Lemma SF_ten : Prim2SF 10 = S754_finite false 5629499534213120 (-49).
Proof. vm_compute. reflexivity. Qed.

(** Below a positive finite number means not above one of larger exponent. *)
Lemma SFltb_below_not_above (x : spec_float) (m : positive) (e : Z) :
  SFltb x (S754_finite false m e) = true ->
  forall m' e', e < e' -> SFltb (S754_finite false m' e') x = false.
Proof.
  intros H m' e' He.
  destruct x as [s|s| |s mx ex]; unfold SFltb, SFcompare in *;
    try destruct s; try reflexivity; try discriminate.
  destruct (Z.compare_spec ex e); try discriminate;
    destruct (Z.compare_spec e' ex); try lia; reflexivity.
Qed.

Lemma SFcompare_antisym (x y : spec_float) :
  SFcompare y x = option_map CompOpp (SFcompare x y).
Proof.
  destruct x as [[]|[]| |[] mx ex], y as [[]|[]| |[] my ey];
    try reflexivity; unfold SFcompare;
    assert (H : Pos.compare_cont Eq my mx
                = CompOpp (Pos.compare_cont Eq mx my))
      by (symmetry; apply (Pos.compare_cont_antisym mx my Eq));
    rewrite (Z.compare_antisym ex ey), H;
    destruct (ex ?= ey); simpl;
    try rewrite CompOpp_involutive; reflexivity.
Qed.

Lemma leb_not_ltb (x y : float) :
  (x <=? y)%float = true -> (y <? x)%float = false.
Proof.
  rewrite leb_spec, ltb_spec. unfold SFleb, SFltb.
  rewrite (SFcompare_antisym (Prim2SF x) (Prim2SF y)).
  destruct (SFcompare (Prim2SF x) (Prim2SF y)) as [[]|]; simpl; congruence.
Qed.

Lemma below_quarter (f : float) :
  (f <? 0.25)%float = true ->
  (1.5 <? f)%float = false /\ (10 <? f)%float = false.
Proof.
  rewrite !ltb_spec, SF_quarter, SF_three_halves, SF_ten. intros H.
  split; apply (SFltb_below_not_above _ _ _ H); lia.
Qed.

Lemma above_ten (f : float) :
  (10 <? f)%float = true -> (1.5 <? f)%float = true.
Proof.
  rewrite !ltb_spec, SF_three_halves, SF_ten.
  destruct (Prim2SF f) as [s|s| |s m e]; unfold SFltb, SFcompare;
    try destruct s; try reflexivity; try discriminate.
  destruct (Z.compare_spec (-49) e); try discriminate;
    destruct (Z.compare_spec (-52) e); try lia; reflexivity.
Qed.

(** ** The delay division on the validated range *)

Lemma in_delays (d : Z) : 0 <= d <= 600 -> In d delays.
Proof.
  intros H. unfold delays. apply in_map_iff.
  exists (Z.to_nat d). split; [lia|]. apply in_seq. lia.
Qed.



(** ** Computations and the events they add to the trace *)

Lemma wp_ret {A} (a : A) (Q : res A -> list event -> Prop) :
  Q (Val a) [] -> wp (ret a) Q.
Proof. intros H s. exists []. simpl. rewrite app_nil_r. auto. Qed.

Lemma wp_return {A} (c : Z) (Q : res A -> list event -> Prop) :
  Q (Return c) [] -> wp (return_ c) Q.
Proof. intros H s. exists []. simpl. rewrite app_nil_r. auto. Qed.

Lemma wp_undefined {A} (u : undefined) (Q : res A -> list event -> Prop) :
  Q (Undefined u) [] -> wp (undefined_ u) Q.
Proof. intros H s. exists []. simpl. rewrite app_nil_r. auto. Qed.

Lemma wp_out_of_fuel {A} (Q : res A -> list event -> Prop) :
  Q OutOfFuel [] -> wp out_of_fuel Q.
Proof. intros H s. exists []. simpl. rewrite app_nil_r. auto. Qed.

Lemma wp_emit (e : event) (Q : res unit -> list event -> Prop) :
  Q (Val tt) [e] -> wp (emit e) Q.
Proof. intros H s. exists [e]. simpl. auto. Qed.

Lemma wp_gets {A} (f : State -> A) (Q : res A -> list event -> Prop) :
  (forall a, Q (Val a) []) -> wp (gets f) Q.
Proof. intros H s. exists []. simpl. rewrite app_nil_r. auto. Qed.

Lemma wp_modify (f : State -> State) (Q : res unit -> list event -> Prop) :
  (forall s, trace (f s) = trace s) -> Q (Val tt) [] -> wp (modify f) Q.
Proof. intros Hf H s. exists []. simpl. rewrite app_nil_r. auto. Qed.

Lemma wp_bind {A B} (m : M A) (k : A -> M B)
    (Q : res B -> list event -> Prop) :
  wp m (fun r e1 =>
          match r with
          | Val a => wp (k a) (fun r' e2 => Q r' (e1 ++ e2))
          | Return c => Q (Return c) e1
          | Undefined u => Q (Undefined u) e1
          | OutOfFuel => Q OutOfFuel e1
          end) ->
  wp (bind m k) Q.
Proof.
  intros H s. destruct (H s) as [e1 [H1 H2]]. unfold bind.
  destruct (m s) as [[a|c|u|] s1]; simpl in *; eauto.
  destruct (H2 s1) as [e2 [H3 H4]]. exists (e1 ++ e2).
  rewrite H3, H1, app_assoc. auto.
Qed.

Lemma wp_mono {A} (m : M A) (Q Q' : res A -> list event -> Prop) :
  wp m Q -> (forall r evs, Q r evs -> Q' r evs) -> wp m Q'.
Proof.
  intros H HQ s. destruct (H s) as [evs [H1 H2]]. exists evs. auto.
Qed.

Lemma wp_conj {A} (m : M A) (Q1 Q2 : res A -> list event -> Prop) :
  wp m Q1 -> wp m Q2 -> wp m (fun r evs => Q1 r evs /\ Q2 r evs).
Proof.
  intros H1 H2 s. destruct (H1 s) as [e1 [E1 P1]].
  destruct (H2 s) as [e2 [E2 P2]]. exists e1.
  rewrite E1 in E2. apply app_inv_head in E2. subst e2. auto.
Qed.

(** The events of a run are what [main] adds to the empty trace. *)
Lemma wp_main_run (w : World) (argv : list string) (fuel : nat)
    (Q : res unit -> list event -> Prop) :
  wp (main w argv fuel) Q ->
  Q (fst (run w argv fuel)) (trace (snd (run w argv fuel))).
Proof.
  intros H. destruct (H initial_state) as [evs [H1 H2]].
  unfold run. rewrite H1. exact H2.
Qed.

Section Only.

Context {A : Type} (P : event -> Prop).

Lemma only_ret (R : res A -> Prop) (a : A) : R (Val a) -> only P R (ret a).
Proof. intros H. apply wp_ret. auto. Qed.

Lemma only_return (R : res A -> Prop) (c : Z) :
  R (Return c) -> only P R (return_ c).
Proof. intros H. apply wp_return. auto. Qed.

Lemma only_undefined (R : res A -> Prop) (u : undefined) :
  R (Undefined u) -> only P R (undefined_ u).
Proof. intros H. apply wp_undefined. auto. Qed.

Lemma only_out_of_fuel (R : res A -> Prop) :
  R OutOfFuel -> only P R out_of_fuel.
Proof. intros H. apply wp_out_of_fuel. auto. Qed.

Lemma only_gets (R : res A -> Prop) (f : State -> A) :
  (forall a, R (Val a)) -> only P R (gets f).
Proof. intros H. apply wp_gets. auto. Qed.

Lemma only_mono (R R' : res A -> Prop) (m : M A) :
  only P R m -> (forall r, R r -> R' r) -> only P R' m.
Proof.
  intros H HR. eapply wp_mono; [exact H|]. intros r evs [H1 H2]. auto.
Qed.

End Only.

Lemma only_emit (P : event -> Prop) (R : res unit -> Prop) (e : event) :
  P e -> R (Val tt) -> only P R (emit e).
Proof. intros H1 H2. apply wp_emit. auto. Qed.

Lemma only_modify (P : event -> Prop) (R : res unit -> Prop)
    (f : State -> State) :
  (forall s, trace (f s) = trace s) -> R (Val tt) -> only P R (modify f).
Proof. intros H1 H2. apply wp_modify; auto. Qed.

Lemma only_bind {A B} (P : event -> Prop) (R1 : res A -> Prop)
    (R : res B -> Prop) (m : M A) (k : A -> M B) :
  only P R1 m ->
  (forall a, R1 (Val a) -> only P R (k a)) ->
  (forall c, R1 (Return c) -> R (Return c)) ->
  (forall u, R1 (Undefined u) -> R (Undefined u)) ->
  (R1 OutOfFuel -> R OutOfFuel) ->
  only P R (bind m k).
Proof.
  intros Hm Hk Hc Hu Hf. apply wp_bind. eapply wp_mono; [exact Hm|].
  intros [a|c|u|] e1 [H1 H2]; auto.
  eapply wp_mono; [exact (Hk a H2)|]. intros r e2 [H3 H4].
  split; [apply Forall_app|]; auto.
Qed.

(** The variant for a first computation whose result does not matter. *)
Lemma only_seq {A B} (P : event -> Prop) (R : res B -> Prop)
    (m : M A) (k : A -> M B) :
  only P (fun r => match r with
                   | Val _ => True
                   | Return c => R (Return c)
                   | Undefined u => R (Undefined u)
                   | OutOfFuel => R OutOfFuel
                   end) m ->
  (forall a, only P R (k a)) ->
  only P R (bind m k).
Proof. intros Hm Hk. eapply only_bind; eauto. Qed.

Lemma only_then {A B} (P : event -> Prop) (m : M A) (k : A -> M B) :
  only P any m -> (forall a, only P any (k a)) -> only P any (bind m k).
Proof. intros. eapply only_bind; eauto; intros; exact I. Qed.

Lemma only_weaken {A} (P P' : event -> Prop) (R : res A -> Prop) (m : M A) :
  only P R m -> (forall e, P e -> P' e) -> only P' R m.
Proof.
  intros H HP. eapply wp_mono; [exact H|]. intros r evs [H1 H2].
  split; [eapply Forall_impl; eauto | exact H2].
Qed.

(** One step of a proof that a computation only emits events in [P]. *)
Ltac only_step :=
  lazymatch goal with
  | |- only _ any (bind _ _) => apply only_then; [|intros]
  | |- only _ any (ret _) => apply only_ret; exact I
  | |- only _ any (return_ _) => apply only_return; exact I
  | |- only _ any (undefined_ _) => apply only_undefined; exact I
  | |- only _ any out_of_fuel => apply only_out_of_fuel; exact I
  | |- only _ any (emit _) => apply only_emit; [simpl; auto | exact I]
  | |- only _ any (gets _) => apply only_gets; intros; exact I
  | |- only _ any (modify _) => apply only_modify; [reflexivity | exact I]
  | |- only _ any (if ?b then _ else _) => destruct b eqn:?
  | |- only _ any (match ?x with _ => _ end) => destruct x eqn:?
  end.

(** ** Observations on traces *)

Lemma flat_map_nil {A B} (f : A -> list B) (l : list A) :
  Forall (fun a => f a = []) l -> flat_map f l = [].
Proof. induction 1; simpl; [reflexivity|]. rewrite H, IHForall. reflexivity. Qed.

Lemma out_lines_app (a b : list event) :
  out_lines (a ++ b) = out_lines a ++ out_lines b.
Proof. apply flat_map_app. Qed.

Lemma iterations_app (a b : list event) :
  iterations (a ++ b) = (iterations a + iterations b)%nat.
Proof. unfold iterations. rewrite flat_map_app, length_app. reflexivity. Qed.

Lemma read_errors_app (a b : list event) :
  read_errors (a ++ b) = (read_errors a + read_errors b)%nat.
Proof. unfold read_errors. rewrite flat_map_app, length_app. reflexivity. Qed.

Lemma opens_app (a b : list event) : opens (a ++ b) = opens a ++ opens b.
Proof. apply flat_map_app. Qed.

(** ** The events of each function *)

Section Leaves.

Variable w : World.

Lemma kbhit_silent (P : event -> Prop) : only P any (kbhit w).
Proof. unfold kbhit. repeat only_step. Qed.

Lemma timeinfo_silent (P : event -> Prop) : only P any (timeinfo w).
Proof. unfold timeinfo. repeat only_step. Qed.

Lemma time_ctime_silent (P : event -> Prop) : only P any (time_ctime w).
Proof. unfold time_ctime. repeat only_step. Qed.

Lemma wait_key_events (fuel : nat) :
  only (fun e => e = Usleep 100000) any (wait_key w fuel).
Proof.
  induction fuel; simpl; repeat first [apply kbhit_silent | only_step];
    assumption.
Qed.

Lemma GetOpt_events (argv : list string) (optionS : string) :
  only options_event any (GetOpt argv optionS).
Proof.
  unfold GetOpt, GetOpt_letter, gopEOF, gopError. repeat only_step.
Qed.

Lemma s7150_open_events (pad : Z) : only open_event any (s7150_open w pad).
Proof. unfold s7150_open, s7150_open_body, ibwrt. repeat only_step. Qed.

Lemma s7150_setup_events (dvm display func range : Z) (freq : float) :
  only (setup_event freq) any (s7150_setup w dvm display func range freq).
Proof. unfold s7150_setup, ibwrt. repeat only_step. Qed.

Lemma s7150_read_events (dvm delay : Z) (id : bufid) (b : list ascii) :
  only (read_event delay) any (s7150_read w dvm delay id b).
Proof. unfold s7150_read. repeat only_step. Qed.

Lemma s7150_close_events (dvm : Z) : only close_event any (s7150_close w dvm).
Proof. unfold s7150_close, ibwrt. repeat only_step. Qed.

End Leaves.

(** ** Results of the stages of [main] *)

Lemma only_bind_any {A B} (P : event -> Prop) (F : B -> Prop)
    (m : M A) (k : A -> M B) :
  only P any m -> (forall a, only P (val_sat F) (k a)) ->
  only P (val_sat F) (bind m k).
Proof. intros. eapply only_bind; eauto; intros; exact I. Qed.

Ltac wp_step :=
  lazymatch goal with
  | |- wp (bind _ _) _ => apply wp_bind
  | |- wp (ret _) _ => apply wp_ret
  | |- wp (return_ _) _ => apply wp_return
  | |- wp (undefined_ _) _ => apply wp_undefined
  | |- wp out_of_fuel _ => apply wp_out_of_fuel
  | |- wp (emit _) _ => apply wp_emit
  | |- wp (gets _) _ => apply wp_gets; intros
  | |- wp (modify _) _ => apply wp_modify; [reflexivity|]
  | |- wp (if ?b then _ else _) _ => destruct b eqn:?
  | |- wp (match ?x with _ => _ end) _ => destruct x eqn:?
  end; cbv beta iota.

Ltac bool_hyps :=
  repeat match goal with
  | H : (_ || _) = false |- _ => apply orb_false_iff in H; destruct H
  | H : (_ <? _) = false |- _ => apply Z.ltb_ge in H
  | H : (_ >? _) = false |- _ => rewrite Z.gtb_ltb in H; apply Z.ltb_ge in H
  end.

Lemma options_valid (w : World) (fuel : nat) (argv : list string) :
  forall v, valid v -> only options_event (val_sat valid) (options w fuel argv v).
Proof.
  induction fuel as [|fuel IH]; intros v Hv; simpl.
  - apply only_out_of_fuel. exact I.
  - apply only_bind_any; [apply GetOpt_events|]. intros [key optarg].
    unfold strcpy.
    repeat lazymatch goal with
    | |- only _ _ (options _ _ _ _) =>
        apply IH; unfold valid in *; simpl; bool_hyps; lia
    | |- only _ _ (if ?b then _ else _) => destruct b eqn:?
    | |- only _ _ (match ?x with _ => _ end) => destruct x eqn:?
    | |- only _ _ (bind (if ?b then _ else _) _) => destruct b eqn:?
    | |- only _ _ (bind _ _) =>
        apply only_bind_any;
        [first [apply only_emit; [exact I|exact I]
               |apply only_undefined; exact I
               |apply only_ret; exact I]
        |intros]
    | |- only _ _ (ret _) => apply only_ret; simpl; assumption
    | |- only _ _ (return_ _) => apply only_return; exact I
    end.
Qed.

Ltac events_ok :=
  repeat first [apply Forall_nil | apply Forall_cons; [simpl; auto|]].

Lemma Forall_or_l {A} (P Q : A -> Prop) (l : list A) :
  Forall P l -> Forall (fun a => P a \/ Q a) l.
Proof. intros H. eapply Forall_impl; [|exact H]. cbv beta. auto. Qed.

Lemma Forall_or_r {A} (P Q : A -> Prop) (l : list A) :
  Forall Q l -> Forall (fun a => P a \/ Q a) l.
Proof. intros H. eapply Forall_impl; [|exact H]. cbv beta. auto. Qed.

Ltac forall_app :=
  repeat (apply Forall_app; split);
  auto using Forall_or_l, Forall_or_r; events_ok.

(** A call of a function whose events are known, inside a [bind]. *)
Ltac wp_call L :=
  apply wp_bind; eapply wp_mono; [apply L|]; cbv beta;
  let r := fresh "r" in let evs := fresh "evs" in let H := fresh "H" in
  intros r evs H.

Section Stages.
Variable w : World.

Lemma prepare_outfile_shape (argv : list string) (v : locals) :
  wp (prepare_outfile w argv v)
     (fun r evs =>
        Forall outfile_event evs /\
        match r with
        | Val f => In (Fopen f true) evs
        | Return c => c = 1
        | Undefined u => u = BufferOverflow \/ u = PcloseNull
        | OutOfFuel => False
        end).
Proof.
  unfold prepare_outfile, strcpy, pclose.
  repeat wp_step; simpl; repeat split; auto 10; events_ok.
Qed.

Lemma prepare_gnuplot_shape (v : locals) (filename : string) :
  wp (prepare_gnuplot w v filename)
     (fun r evs =>
        let gp := w_popen w (gnuplot v) in
        let v' := if gp then v else set_do_graph false v in
        r = Val (gp, v') /\
        evs = Popen (gnuplot v) gp
                :: (if gp then [] else [Stderr CannotLaunchGnuplot])
                ++ (if do_graph v' then gnuplot_setup v filename else [])).
Proof.
  unfold prepare_gnuplot.
  repeat wp_step; simpl; rewrite ?Heqb0; simpl; auto.
Qed.

Lemma s7150_open_shape (pad : Z) :
  wp (s7150_open w pad)
     (fun r evs =>
        Forall open_event evs /\
        exists dvm, r = Val dvm /\ opens evs = [(pad, dvm)]).
Proof.
  unfold s7150_open, s7150_open_body, ibwrt.
  repeat wp_step; simpl; repeat split; eauto 10; events_ok.
Qed.

Lemma open_instruments_shape (v : locals) (gp : bool) :
  wp (open_instruments w v gp)
     (fun r evs =>
        Forall (fun e => open_event e \/ quit_event e) evs /\
        exists d1 d2,
          opens evs = [(pad1 v, d1); (pad2 v, d2)] /\
          match r with
          | Val d => d = (d1, d2) /\ d1 <> 0 /\ d2 <> 0
          | Return c =>
              c = ERR_INST /\ gp = true /\ (d1 = 0 \/ d2 = 0) /\
              exists pre, evs = pre ++ [Stderr Quit; Pclose]
          | Undefined u => u = PcloseNull /\ gp = false /\ (d1 = 0 \/ d2 = 0)
          | OutOfFuel => False
          end).
Proof.
  unfold open_instruments, quit_instrument, pclose.
  wp_call s7150_open_shape. destruct H as [F1 [d1 [-> O1]]].
  wp_call s7150_open_shape. destruct H as [F2 [d2 [-> O2]]].
  destruct ((d1 =? 0) || (d2 =? 0)) eqn:E.
  - assert (d1 = 0 \/ d2 = 0) by (apply orb_true_iff in E; lia).
    destruct gp; repeat wp_step; simpl.
    + split; [forall_app|].
      exists d1, d2. rewrite !opens_app, O1, O2.
      repeat split; auto.
      exists (evs ++ evs0). rewrite <- app_assoc. reflexivity.
    + split; [forall_app|].
      exists d1, d2. rewrite !opens_app, O1, O2. repeat split; auto.
  - apply orb_false_iff in E. destruct E as [E1 E2].
    apply wp_ret. split; [forall_app|].
    exists d1, d2. rewrite !opens_app, O1, O2. repeat split; lia.
Qed.

Lemma s7150_setup_shape (dvm display func range : Z) (freq : float) :
  wp (s7150_setup w dvm display func range freq)
     (fun r evs =>
        Forall (setup_event freq) evs /\
        exists c, r = Val c).
Proof.
  unfold s7150_setup, ibwrt.
  repeat wp_step; simpl; repeat split; eauto; events_ok.
Qed.

Lemma setup_instruments_shape (v : locals) (gp : bool) (dvm1 dvm2 : Z) :
  only (fun e => setup_event (sampling_freq (halve (delay v))) e
                 \/ quit_event e)
       (setup_result v) (setup_instruments w v gp dvm1 dvm2).
Proof.
  unfold setup_instruments, quit_instrument, pclose, only. simpl delay.
  wp_call s7150_setup_shape. destruct H as [F1 [c1 ->]].
  destruct (c1 =? 0).
  - destruct gp; repeat wp_step; simpl; (split; [forall_app|simpl; auto]).
  - wp_call s7150_setup_shape. destruct H as [F2 [c2 ->]].
    destruct (c2 =? 0).
    + destruct gp; repeat wp_step; simpl; (split; [forall_app|simpl; auto]).
    + apply wp_ret. split; [forall_app|reflexivity].
Qed.

Lemma write_header_shape (v : locals) (filename : string) :
  wp (write_header w v filename)
     (fun r evs =>
        (exists t0, r = Val t0) /\
        exists ts,
          evs = Stdout (Summary (pad1 v) (pad2 v) filename (comment v)
                          (delay v) (do_flush v) (tstop v))
                  :: map Fprintf_outfile (header_block (comment v) ts)).
Proof.
  unfold write_header, time_ctime, timeinfo.
  repeat wp_step; simpl; split; eauto.
Qed.

End Stages.

(** ** The acquisition loop *)

Lemma read_event_loop_event (v : locals) (filename : string) (e : event) :
  read_event (delay v) e -> loop_event v filename e.
Proof. destruct e; simpl; try tauto. destruct m; simpl; tauto. Qed.

Section LoopEvents.
Variable w : World.

Lemma acquire_body_events v filename gp dvm1 dvm2 t0 loop key b1 b2 :
  only (loop_event v filename) any
       (acquire_body w v filename gp dvm1 dvm2 t0 loop key b1 b2).
Proof.
  unfold acquire_body, read_failed, pclose, readch.
  repeat first
    [ eapply only_weaken;
      [apply s7150_read_events | apply read_event_loop_event]
    | apply kbhit_silent | apply timeinfo_silent | only_step ].
Qed.

Lemma acquire_events fuel v filename gp dvm1 dvm2 t0 :
  forall loop key b1 b2,
    only (loop_event v filename) any
         (acquire w fuel v filename gp dvm1 dvm2 t0 loop key b1 b2).
Proof.
  induction fuel as [|fuel IH]; intros; simpl.
  - only_step.
  - apply only_then; [apply acquire_body_events|].
    intros [[[l k] c1] c2]. destruct (quit_key k); [only_step|apply IH].
Qed.

End LoopEvents.

Ltac wp_run :=
  repeat (change (0 =? 0) with true; change (1 =? 0) with false;
          cbv beta iota; wp_step).

Ltac wp_call' L :=
  lazymatch goal with
  | |- wp (bind _ _) _ => apply wp_bind
  | _ => idtac
  end;
  eapply wp_mono; [apply L|]; cbv beta;
  let r := fresh "r" in let evs := fresh "evs" in let H := fresh "H" in
  intros r evs H.

Ltac wp_yield L :=
  wp_call' L;
  lazymatch goal with
  | H : yields _ _ _ |- _ =>
      let x := fresh "x" in destruct H as [x [-> ->]]; cbv beta iota
  end.

Lemma records_app (a b : list event) :
  records (a ++ b) = (records a + records b)%nat.
Proof. unfold records. rewrite flat_map_app, length_app. reflexivity. Qed.

Lemma marks_app (f : event -> bool) (a b : list event) :
  forall n, marks f n (a ++ b)
            = marks f n a ++ marks f (n + Z.of_nat (records a)) b.
Proof.
  induction a as [|e a IH]; intros n; simpl.
  - unfold records. simpl. rewrite Z.add_0_r. reflexivity.
  - rewrite IH, <- app_assoc. do 3 f_equal.
    unfold records. simpl. rewrite length_app. lia.
Qed.

Lemma marks_none (f : event -> bool) (l : list event) :
  Forall (fun e => f e = false) l -> forall n, marks f n l = [].
Proof.
  induction 1 as [|e l He Hl IH]; intros n; simpl; [reflexivity|].
  rewrite He, IH. reflexivity.
Qed.

Lemma records_none (l : list event) :
  Forall (fun e => record_of e = []) l -> records l = 0%nat.
Proof. intros H. unfold records. rewrite flat_map_nil; auto. Qed.

Lemma in_due_list (N k : Z) (count : nat) :
  forall from,
    In k (due_list N from count) <->
    from < k <= from + Z.of_nat count /\ k mod N = 0.
Proof.
  induction count as [|c IH]; intros from; simpl due_list.
  - simpl. lia.
  - rewrite in_app_iff, IH. destruct ((from + 1) mod N =? 0) eqn:E.
    + apply Z.eqb_eq in E. simpl. split.
      * intros [[<-|[]]|[H1 H2]]; split; auto; lia.
      * intros [H1 H2]. destruct (Z.eq_dec k (from + 1)); [auto|right; lia].
    + apply Z.eqb_neq in E. simpl. split.
      * intros [[]|[H1 H2]]. split; auto; lia.
      * intros [H1 H2]. right. split; auto.
        destruct (Z.eq_dec k (from + 1)); [subst; contradiction|lia].
Qed.

Lemma read_event_quiet (d : Z) (l : list event) :
  Forall (read_event d) l ->
  records l = 0%nat /\
  forall n, marks is_flush n l = [] /\ marks is_plot n l = [].
Proof.
  intros H. split; [|intros n; split].
  - apply records_none. eapply Forall_impl; [|exact H].
    intros [] He; try reflexivity; contradiction.
  - apply marks_none. eapply Forall_impl; [|exact H].
    intros [] He; try reflexivity; contradiction.
  - apply marks_none. eapply Forall_impl; [|exact H].
    intros [] He; try reflexivity; contradiction.
Qed.

Section LoopLeaves.
Variable w : World.

Lemma s7150_read_counts dvm delay id b :
  wp (s7150_read w dvm delay id b) (read_counts delay id).
Proof.
  unfold s7150_read, read_counts.
  repeat wp_step; destruct id; simpl; repeat split; auto; events_ok.
Qed.

Lemma readch_shape : wp (readch w) (yields (fun k => [Readch k])).
Proof. unfold readch, yields. repeat wp_step; simpl; eauto. Qed.

Lemma kbhit_shape : wp (kbhit w) (yields (fun _ => [])).
Proof. unfold kbhit, yields. repeat wp_step; simpl; eauto. Qed.

Lemma timeinfo_shape : wp (timeinfo w) (yields (fun _ => [])).
Proof. unfold timeinfo, yields. repeat wp_step; simpl; eauto. Qed.

Lemma time_ctime_shape : wp (time_ctime w) (yields (fun _ => [])).
Proof. unfold time_ctime, yields. repeat wp_step; simpl; eauto. Qed.

End LoopLeaves.

Ltac body_call :=
  first [ wp_yield readch_shape | wp_yield kbhit_shape
        | wp_yield timeinfo_shape | wp_yield time_ctime_shape ].

Ltac wp_body := repeat first [ body_call | progress wp_run ].

Section LoopCounts.
Variable w : World.

Lemma acquire_body_counts v filename gp dvm1 dvm2 t0 loop key b1 b2 :
  wp (acquire_body w v filename gp dvm1 dvm2 t0 loop key b1 b2) body_counts.
Proof.
  unfold acquire_body, read_failed, pclose, body_counts.
  wp_call' s7150_read_counts. destruct H as [_ [I1 [O1 H1]]].
  destruct r as [[c1 b1']|c|u|]; simpl in H1; try contradiction.
  2: { destruct H1 as [H1 _]. rewrite I1, O1, H1. auto. }
  destruct H1 as [[-> E1]|[-> E1]]; wp_body.
  1,2: rewrite ?iterations_app, ?read_errors_app, ?out_lines_app, I1, O1, E1;
    simpl; auto.
  wp_call' s7150_read_counts. destruct H as [_ [I2 [O2 H2]]].
  destruct r as [[c2 b2']|c|u|]; simpl in H2; try contradiction.
  2: { destruct H2 as [H2 _].
       rewrite ?iterations_app, ?read_errors_app, ?out_lines_app,
         I1, O1, E1, I2, O2, H2. simpl. auto. }
  destruct H2 as [[-> E2]|[-> E2]]; wp_body;
    rewrite ?iterations_app, ?read_errors_app, ?out_lines_app,
      I1, O1, E1, I2, O2, E2; simpl; eauto 10.
Qed.
End LoopCounts.

Lemma ends_one (x : event) : ends_with x [x].
Proof. exists []. reflexivity. Qed.

Lemma ends_cons (x a : event) (l : list event) :
  ends_with x l -> ends_with x (a :: l).
Proof. intros [pre ->]. exists (a :: pre). reflexivity. Qed.

Lemma ends_app (x : event) (l1 l2 : list event) :
  ends_with x l2 -> ends_with x (l1 ++ l2).
Proof. intros [pre ->]. exists (l1 ++ pre). apply app_assoc. Qed.

Ltac ends_tac :=
  repeat first [apply ends_one | apply ends_cons | apply ends_app].

Lemma timed_out_zero (t1 : float) : timed_out t1 0 = false.
Proof.
  unfold timed_out. change (0 <? 0)%float with false. apply andb_false_r.
Qed.

Section LoopMarks.
Variable w : World.

Lemma acquire_counts fuel v filename gp dvm1 dvm2 t0 :
  forall loop key b1 b2,
    wp (acquire w fuel v filename gp dvm1 dvm2 t0 loop key b1 b2) loop_counts.
Proof.
  induction fuel as [|fuel IH]; intros; simpl.
  - apply wp_out_of_fuel. unfold loop_counts. simpl. auto.
  - wp_call' acquire_body_counts. destruct H as [I1 H1].
    destruct r as [[[[l k] c1] c2]|c|u|].
    + destruct H1 as [E1 [t1 [x1 [x2 O1]]]].
      destruct (quit_key k).
      * apply wp_ret. unfold loop_counts.
        rewrite app_nil_r, O1, E1, I1. simpl.
        repeat split; auto; events_ok.
      * eapply wp_mono; [apply IH|]. intros r e2 [F2 H2].
        unfold loop_counts in *.
        rewrite out_lines_app, iterations_app, read_errors_app, O1, E1, I1.
        simpl. split; [constructor; [exact I|exact F2]|].
        destruct r; simpl; intuition lia.
    + destruct H1 as [-> [E1 O1]]. unfold loop_counts.
      rewrite O1, E1, I1. simpl. auto.
    + unfold loop_counts.
      destruct H1 as [[O1 E1]|[_ [E1 [t1 [x1 [x2 O1]]]]]];
        rewrite O1, I1; simpl; (split; [events_ok|]); lia.
    + contradiction.
Qed.

Lemma acquire_body_marks v filename gp dvm1 dvm2 t0 l key b1 b2 :
  C.to_ulong (do_flush v) <> 0 -> 0 <= l -> l + 1 < 2 ^ 64 ->
  wp (acquire_body w v filename gp dvm1 dvm2 t0 l key b1 b2)
     (body_marks v l).
Proof.
  intros HN Hl Hl1.
  assert (HU : C.to_ulong (l + 1) = l + 1).
  { unfold C.to_ulong, C.ULONG_WIDTH. apply Z.mod_small. lia. }
  unfold acquire_body, read_failed, pclose, body_marks, flush_due.
  rewrite HU. apply Z.eqb_neq in HN. rewrite HN.
  wp_call' s7150_read_counts. destruct H as [F1 [_ [_ H1]]].
  destruct (read_event_quiet _ _ F1) as [R1 M1].
  destruct r as [[c1 b1']|c|u|]; simpl in H1; try contradiction.
  2: { rewrite R1. destruct (M1 l). auto. }
  destruct H1 as [[-> _]|[-> _]]; wp_body.
  1,2: rewrite records_app, !marks_app, R1; destruct (M1 l) as [-> ->];
    simpl; auto.
  wp_call' s7150_read_counts. destruct H as [F2 [_ [_ H2]]].
  destruct (read_event_quiet _ _ F2) as [R2 M2].
  destruct r as [[c2 b2']|c|u|]; simpl in H2; try contradiction.
  2: { rewrite records_app, !marks_app, R1, R2.
       destruct (M1 l) as [-> ->]. destruct (M2 (l + Z.of_nat 0)) as [-> ->].
       auto. }
  destruct H2 as [[-> _]|[-> _]]; wp_body;
    rewrite !records_app, !marks_app, R1, R2;
    destruct (M1 l) as [-> ->]; destruct (M2 (l + Z.of_nat 0)) as [-> ->];
    simpl; rewrite ?Z.add_0_r; rewrite ?Heqb; rewrite ?Heqb0;
    rewrite ?andb_false_r, ?andb_true_r; unfold records; simpl; auto.
Qed.

Lemma acquire_marks fuel v filename gp dvm1 dvm2 t0 :
  C.to_ulong (do_flush v) <> 0 ->
  forall l key b1 b2,
    0 <= l -> l + Z.of_nat fuel < 2 ^ 64 ->
    wp (acquire w fuel v filename gp dvm1 dvm2 t0 l key b1 b2)
       (loop_marks v l fuel).
Proof.
  intros HN. induction fuel as [|fuel IH]; intros l key b1 b2 Hl Hf.
  - simpl. apply wp_out_of_fuel. unfold loop_marks. simpl.
    destruct (do_graph v); auto.
  - simpl acquire.
    assert (Hb := acquire_body_marks v filename gp dvm1 dvm2 t0 l key b1 b2
                    HN Hl ltac:(lia)).
    wp_call' Hb.
    unfold body_marks in H.
    destruct r as [[[[l' k] c1] c2]|c|u|].
    + destruct H as [-> [R1 [MF MP]]].
      destruct (quit_key k).
      * apply wp_ret. unfold loop_marks. rewrite app_nil_r, R1, MF, MP.
        simpl. rewrite !app_nil_r. split; [lia|].
        destruct (do_graph v); auto.
      * eapply wp_mono; [apply IH; lia|]. intros r e2 [R2 [MF2 MP2]].
        unfold loop_marks.
        rewrite records_app, !marks_app, R1, MF, MP.
        change (Z.of_nat 1) with 1. rewrite MF2, MP2. simpl.
        split; [lia|]. destruct (do_graph v); auto.
    + unfold loop_marks. destruct H as [-> [-> ->]]. simpl.
      split; [lia|]. destruct (do_graph v); auto.
    + unfold loop_marks. destruct H as [-> [-> ->]]. simpl.
      split; [lia|]. destruct (do_graph v); auto.
    + unfold loop_marks. destruct H as [-> [-> ->]]. simpl.
      split; [lia|]. destruct (do_graph v); auto.
Qed.

Lemma acquire_body_stop v filename gp dvm1 dvm2 t0 l key b1 b2 :
  tstop v = 0%float ->
  wp (acquire_body w v filename gp dvm1 dvm2 t0 l key b1 b2) (body_stop key).
Proof.
  intros HT.
  unfold acquire_body, read_failed, pclose, body_stop.
  rewrite HT.
  wp_call' s7150_read_counts. destruct H as [_ [_ [_ H1]]].
  destruct r as [[c1 b1']|c|u|]; simpl in H1; try contradiction; [|exact I].
  destruct H1 as [[-> E1]|[-> E1]]; wp_body.
  1,2: try (rewrite read_errors_app, E1; split; [reflexivity|lia]); exact I.
  wp_call' s7150_read_counts. destruct H as [_ [_ [_ H2]]].
  destruct r as [[c2 b2']|c|u|]; simpl in H2; try contradiction; [|exact I].
  destruct H2 as [[-> E2]|[-> E2]]; wp_body;
    rewrite ?timed_out_zero;
    try (rewrite !read_errors_app, E2; split; [reflexivity|lia]);
    try exact I; auto; right; ends_tac.
Qed.

Lemma acquire_stop v filename gp dvm1 dvm2 t0 :
  tstop v = 0%float ->
  forall fuel l key b1 b2,
    quit_key key = false ->
    wp (acquire w fuel v filename gp dvm1 dvm2 t0 l key b1 b2) loop_stop.
Proof.
  intros HT. induction fuel as [|fuel IH]; intros l key b1 b2 HK.
  - simpl. apply wp_out_of_fuel. exact I.
  - simpl acquire.
    wp_call' (acquire_body_stop v filename gp dvm1 dvm2 t0 l key b1 b2 HT).
    unfold body_stop in H.
    destruct r as [[[[l' k] c1] c2]|c|u|]; try exact H.
    destruct (quit_key k) eqn:Q.
    + apply wp_ret. rewrite app_nil_r. split; [exact Q|].
      destruct H as [->|H]; [congruence|exact H].
    + eapply wp_mono; [apply (IH l' k c1 c2 Q)|]. intros r e2 H2.
      unfold loop_stop in *. destruct r as [[l2 k2]|c|u|]; auto.
      * destruct H2 as [Q2 E2]. split; [exact Q2|apply ends_app; exact E2].
      * destruct H2 as [-> E2]. rewrite read_errors_app. split; [auto|lia].
Qed.

End LoopMarks.

(** ** After the loop *)

Lemma close_event_shutdown v filename e :
  close_event e -> shutdown_event v filename e.
Proof. destruct e; simpl; try tauto. destruct m; simpl; tauto. Qed.

Lemma close_event_reset e : close_event e -> reset_event e.
Proof. unfold reset_event. auto. Qed.

Ltac shape_tac :=
  repeat first [ assumption | apply Forall_nil
               | apply Forall_app; split
               | apply Forall_cons; [simpl; auto|] ].

Ltac in_tac := repeat rewrite in_app_iff; simpl; tauto.

Section Shutdown.
Variable w : World.

Lemma s7150_close_shape dvm : wp (s7150_close w dvm) close_shape.
Proof.
  unfold s7150_close, ibwrt, close_shape.
  repeat wp_step; simpl; (split; [events_ok|eauto 10]).
Qed.

Lemma wait_key_shape fuel : wp (wait_key w fuel) wait_shape.
Proof.
  unfold wait_shape. induction fuel as [|fuel IH]; simpl.
  - apply wp_out_of_fuel. auto.
  - wp_yield kbhit_shape. destruct (x =? 0).
    + wp_run. eapply wp_mono; [exact IH|]. cbv beta.
      intros r evs [F H]. simpl. split; [constructor; auto|].
      destruct H as [->| ->]; auto.
    + apply wp_ret. auto.
Qed.

Lemma shutdown_shape_holds fuel v filename gp dvm1 dvm2 :
  wp (shutdown w fuel v filename gp dvm1 dvm2) (shutdown_shape v filename gp).
Proof.
  unfold shutdown, pclose, shutdown_shape.
  wp_yield time_ctime_shape. wp_run.
  wp_call' s7150_close_shape. destruct H as [F1 [c1 [-> H1]]].
  assert (S1 := Forall_impl _ (close_event_shutdown v filename) F1).
  assert (T1 := Forall_impl _ close_event_reset F1).
  destruct H1 as [[-> I1]| ->]; wp_run.
  - simpl. eexists x, _. split; [reflexivity|].
    split; [shape_tac|]. right. split; [reflexivity|].
    split; [in_tac|shape_tac; right; reflexivity].
  - wp_call' s7150_close_shape. destruct H as [F2 [c2 [-> H2]]].
    assert (S2 := Forall_impl _ (close_event_shutdown v filename) F2).
    assert (T2 := Forall_impl _ close_event_reset F2).
    destruct H2 as [[-> I2]| ->]; wp_run.
    + simpl. eexists x, _. split; [reflexivity|].
      split; [shape_tac|]. right. split; [reflexivity|].
      split; [in_tac|shape_tac; right; reflexivity].
    + wp_call' wait_key_shape. destruct H as [F3 H3].
      assert (S3 : Forall (shutdown_event v filename) evs1).
      { eapply Forall_impl; [|exact F3]. intros e ->. exact Heqb. }
      destruct H3 as [-> | ->].
      * destruct gp; wp_run; simpl; eexists x, _;
          (split; [reflexivity|]); (split; [shape_tac|]); auto.
        left. split; [reflexivity|]. intros _. in_tac.
      * simpl; eexists x, _;
          (split; [reflexivity|]); (split; [shape_tac|]); auto.
    + simpl. eexists x, _. split; [reflexivity|]. split; [shape_tac|].
      left. split; [reflexivity|]. congruence.
Qed.

End Shutdown.

(** ** The whole session *)

Section Session.
Variable w : World.

Lemma shutdown_events fuel v filename gp dvm1 dvm2 :
  only (footer_event v filename) any (shutdown w fuel v filename gp dvm1 dvm2).
Proof.
  eapply wp_mono; [apply shutdown_shape_holds|].
  intros r evs [ts [rest [-> [F _]]]]. split; [|exact I].
  constructor; [left; eauto|]. constructor; [right; left; reflexivity|].
  eapply Forall_impl; [|exact F]. unfold footer_event. auto.
Qed.

Lemma measure_events fuel v filename gp dvm1 dvm2 :
  only (measure_event v filename) any
       (measure w fuel v filename gp dvm1 dvm2).
Proof.
  unfold measure.
  eapply only_bind with (R1 := setup_result v).
  - eapply only_weaken; [apply setup_instruments_shape|].
    intros e [H|H]; destruct e; simpl in *; try tauto;
      destruct m; simpl in *; tauto.
  - intros v' Hv. simpl in Hv. subst v'.
    apply only_then.
    + unfold write_header, time_ctime, timeinfo. repeat only_step.
    + intros t0. apply only_then.
      * eapply only_weaken; [apply acquire_events|].
        intros e H; destruct e; simpl in *; try tauto;
          try (destruct m; simpl in *; tauto);
          destruct l; simpl in *; tauto.
      * intros _. eapply only_weaken; [apply shutdown_events|].
        intros e [[ts ->]|[->|H]]; simpl; auto.
        destruct e; simpl in *; try tauto; destruct m; simpl in *; tauto.
  - intros; exact I.
  - intros; exact I.
  - intros; exact I.
Qed.

Lemma session_events fuel v filename gp :
  only (session_event v filename) any (session w fuel v filename gp).
Proof.
  unfold session. apply only_then.
  - apply only_emit; [left; reflexivity|exact I].
  - intros _. eapply only_bind with (R1 := any).
    + eapply wp_mono; [apply open_instruments_shape|].
      intros r evs [F _]. split; [|exact I].
      eapply Forall_impl; [|exact F]. unfold session_event. tauto.
    + intros [dvm1 dvm2] _. eapply only_weaken; [apply measure_events|].
      unfold session_event. tauto.
    + intros; exact I.
    + intros; exact I.
    + intros; exact I.
Qed.

Lemma main_configured_halves argv fuel v :
  only (uses_halved (delay v)) any (main_configured w argv fuel v).
Proof.
  unfold main_configured. apply only_then.
  - eapply wp_mono; [apply prepare_outfile_shape|].
    intros r evs [F _]. split; [|exact I].
    eapply Forall_impl; [|exact F]. intros [] He; simpl in *; tauto.
  - intros filename. eapply only_bind with
      (R1 := val_sat (fun g : bool * locals => delay (snd g) = delay v)).
    + eapply wp_mono; [apply prepare_gnuplot_shape|]. cbv zeta.
      intros r evs [-> ->]. split.
      * destruct (w_popen w (gnuplot v)); simpl;
          destruct (do_graph v); repeat constructor.
      * simpl. destruct (w_popen w (gnuplot v)); reflexivity.
    + intros [gp v'] Hv. simpl in Hv. rewrite <- Hv.
      eapply only_weaken; [apply session_events|].
      intros e H; destruct e; simpl; auto;
        destruct H as [H|[H|[H|H]]]; simpl in H;
        try discriminate; try contradiction; exact H.
    + intros; exact I.
    + intros; exact I.
    + intros; exact I.
Qed.

Lemma run_unfold argv fuel :
  run w argv fuel
  = bind (options w fuel argv defaults) (main_configured w argv fuel)
         after_disclaimer.
Proof. reflexivity. Qed.

Lemma configured_unfold argv fuel :
  configured w argv fuel
  = fst (options w fuel argv defaults after_disclaimer).
Proof. reflexivity. Qed.

Lemma valid_defaults : valid defaults.
Proof. repeat split; vm_compute; discriminate. Qed.

Lemma run_configured argv fuel v :
  configured w argv fuel = Val v ->
  valid v /\
  exists s1 evs0,
    trace s1 = Stderr Disclaimer :: evs0 /\
    Forall options_event evs0 /\
    run w argv fuel = main_configured w argv fuel v s1.
Proof.
  rewrite run_unfold, configured_unfold. unfold bind.
  destruct (options_valid w fuel argv defaults valid_defaults after_disclaimer)
    as [evs0 [T [F V]]].
  destruct (options w fuel argv defaults after_disclaimer) as [r s1].
  simpl in *. intros ->. split; [exact V|].
  exists s1, evs0. auto.
Qed.

Lemma run_not_configured argv fuel :
  (forall v, configured w argv fuel <> Val v) ->
  Forall options_event (trace (snd (run w argv fuel))) /\
  (fst (run w argv fuel) = OutOfFuel \/
   (exists c, fst (run w argv fuel) = Return c) \/
   (exists u, fst (run w argv fuel) = Undefined u)).
Proof.
  rewrite run_unfold, configured_unfold. unfold bind.
  destruct (options_valid w fuel argv defaults valid_defaults after_disclaimer)
    as [evs0 [T [F V]]].
  destruct (options w fuel argv defaults after_disclaimer) as [r s1].
  simpl in *. intros H. destruct r; simpl.
  - exfalso. eapply H. reflexivity.
  - rewrite T. split; [constructor; [exact I|exact F]|eauto].
  - rewrite T. split; [constructor; [exact I|exact F]|eauto].
  - rewrite T. split; [constructor; [exact I|exact F]|eauto].
Qed.

Lemma run_wp argv fuel v (Q : res unit -> list event -> Prop) :
  configured w argv fuel = Val v ->
  wp (main_configured w argv fuel v) Q ->
  valid v /\
  exists evs0 evs,
    trace (snd (run w argv fuel)) = Stderr Disclaimer :: evs0 ++ evs /\
    Forall options_event evs0 /\
    Q (fst (run w argv fuel)) evs.
Proof.
  intros C H. destruct (run_configured argv fuel v C) as [V [s1 [evs0 [T [F R]]]]].
  split; [exact V|]. destruct (H s1) as [evs [T1 HQ]].
  exists evs0, evs. rewrite R, T1, T. auto.
Qed.

End Session.

(** ** The delay in a run *)

Lemma options_event_halved (d : Z) (e : event) :
  options_event e -> uses_halved d e.
Proof. destruct e; simpl; tauto. Qed.

Lemma run_uses_halved (w : World) (argv : list string) (fuel : nat)
    (v : locals) :
  configured w argv fuel = Val v ->
  0 <= delay v <= 600 /\
  Forall (uses_halved (delay v)) (trace (snd (run w argv fuel))).
Proof.
  intros C.
  destruct (run_wp w argv fuel v _ C (main_configured_halves w argv fuel v))
    as [[V _] [evs0 [evs [T [F0 [F _]]]]]].
  split; [exact V|].
  rewrite T. constructor; [exact I|]. apply Forall_app. split; [|exact F].
  eapply Forall_impl; [|exact F0]. apply options_event_halved.
Qed.

(** ** Sessions without gnuplot *)

Lemma session_event_no_gp v filename :
  do_graph v = false -> forall e, session_event v filename e -> no_gp e.
Proof.
  intros G e [->|[H|[H|H]]]; [exact I| | |]; destruct e; simpl in *;
    try tauto; try congruence. destruct H. congruence.
Qed.

Lemma measure_event_no_open v filename e :
  measure_event v filename e -> open_of e = [].
Proof. destruct e; simpl; tauto. Qed.

Section Degraded.
Variable w : World.
Hypothesis no_gnuplot : forall cmd, w_popen w cmd = false.

Lemma session_degraded fuel v filename gp :
  do_graph v = false ->
  wp (session w fuel v filename gp)
     (fun r evs => Forall no_gp evs /\
                   exists d1 d2, opens evs = [(pad1 v, d1); (pad2 v, d2)]).
Proof.
  intros G. apply wp_conj.
  - eapply wp_mono; [apply session_events|]. intros r evs [F _].
    eapply Forall_impl; [|exact F]. apply session_event_no_gp; exact G.
  - unfold session. wp_run.
    wp_call' open_instruments_shape. destruct H as [_ [d1 [d2 [O H]]]].
    destruct r as [[a b]|c|u|].
    + eapply wp_mono; [apply measure_events|]. intros r e2 [F _].
      exists d1, d2. simpl. rewrite opens_app, O.
      unfold opens at 1. rewrite flat_map_nil; [reflexivity|].
      eapply Forall_impl; [|exact F]. apply measure_event_no_open.
    + exists d1, d2. exact O.
    + exists d1, d2. exact O.
    + contradiction.
Qed.

Lemma main_configured_degraded argv fuel v :
  wp (main_configured w argv fuel v) (degraded v).
Proof.
  unfold main_configured, degraded.
  wp_call' prepare_outfile_shape. destruct H as [F1 H1].
  assert (G1 : Forall no_gp evs /\ Forall no_popen evs /\ opens evs = []).
  { repeat split; [| |apply flat_map_nil]; (eapply Forall_impl; [|exact F1]);
      intros []; simpl; tauto. }
  destruct G1 as [G1 [P1 O1]].
  destruct r as [filename|c|u|]; [|auto..].
  wp_call' prepare_gnuplot_shape. cbv zeta in H.
  rewrite no_gnuplot in H. destruct H as [-> ->]. simpl.
  eapply wp_mono; [apply session_degraded; reflexivity|].
  intros r e3 [G3 [d1 [d2 O3]]]. split.
  - apply Forall_app. split; [exact G1|]. repeat (constructor; [exact I|]).
    exact G3.
  - right. split; [in_tac|]. exists d1, d2.
    rewrite opens_app, O1. simpl. exact O3.
Qed.

End Degraded.

(** ** A failure to open the second instrument *)

Lemma leaves_outfile_quiet (evs : list event) :
  Forall leaves_outfile evs ->
  out_lines evs = [] /\ Forall not_fclose evs.
Proof.
  intros F. split.
  - apply flat_map_nil. eapply Forall_impl; [|exact F].
    intros []; simpl; tauto.
  - eapply Forall_impl; [|exact F].
    intros e H ->. exact H.
Qed.

Section OpenFailure.
Variable w : World.
Hypothesis gnuplot_ok : forall cmd, w_popen w cmd = true.

Lemma main_configured_open_failure argv fuel v :
  wp (main_configured w argv fuel v) open_failure_exit.
Proof.
  unfold main_configured, open_failure_exit, second_open_failed.
  wp_call' prepare_outfile_shape. destruct H as [F1 H1].
  assert (O1 : opens evs = []).
  { apply flat_map_nil. eapply Forall_impl; [|exact F1].
    intros []; simpl; tauto. }
  destruct r as [filename|c|u|];
    try (intros [p1 [d1 [p2 E]]]; rewrite O1 in E; discriminate).
  wp_call' prepare_gnuplot_shape. cbv zeta in H.
  rewrite gnuplot_ok in H. destruct H as [-> ->].
  set (e2 := Popen (gnuplot v) true
               :: [] ++ (if do_graph v then gnuplot_setup v filename else [])).
  assert (O2 : opens e2 = []).
  { unfold e2. destruct (do_graph v); reflexivity. }
  cbv beta iota. unfold session. wp_run.
  wp_call' open_instruments_shape. destruct H as [F3 [d1 [d2 [O3 H3]]]].
  destruct r as [[a b]|c|u|].
  - destruct H3 as [_ [_ D2]].
    eapply wp_mono; [apply measure_events|]. intros r e4 _ [p1 [x [p2 E]]].
    repeat rewrite opens_app in E. rewrite O1, O2, O3 in E.
    simpl in E. congruence.
  - destruct H3 as [-> [_ [_ [pre E3]]]]. intros _. split; [reflexivity|].
    split.
    { exists (evs ++ e2 ++ [Init_keyboard] ++ pre). rewrite E3.
      rewrite <- !app_assoc. reflexivity. }
    assert (Q : out_lines (evs ++ e2 ++ [Init_keyboard] ++ evs0) = []
                /\ Forall not_fclose (evs ++ e2 ++ [Init_keyboard] ++ evs0)).
    { apply leaves_outfile_quiet. repeat (apply Forall_app; split).
      - eapply Forall_impl; [|exact F1]. intros []; simpl; tauto.
      - unfold e2. destruct (do_graph v); simpl; repeat constructor.
      - repeat constructor.
      - eapply Forall_impl; [|exact F3].
        intros [] [H|H]; simpl in *; tauto. }
    destruct Q as [Q1 Q2]. split; [exact Q1|]. split; [|exact Q2].
    exists filename. apply in_or_app. left. exact H1.
  - destruct H3 as [_ [G _]]. discriminate.
  - contradiction.
Qed.

End OpenFailure.

(** ** The shape of the output file *)

Lemma silent_counts (evs : list event) :
  Forall silent evs ->
  out_lines evs = [] /\ iterations evs = 0%nat /\ read_errors evs = 0%nat.
Proof.
  intros F. unfold iterations, read_errors, out_lines.
  rewrite !flat_map_nil; auto;
    (eapply Forall_impl; [|exact F]); intros []; simpl; try tauto;
    destruct m; simpl; tauto.
Qed.

Lemma file_shape_prefix (pre evs : list event) (r : res unit) :
  Forall silent pre -> file_shape r evs -> file_shape r (pre ++ evs).
Proof.
  intros F H. destruct (silent_counts pre F) as [O [I E]].
  unfold file_shape. rewrite out_lines_app, iterations_app, read_errors_app.
  rewrite O, I, E. exact H.
Qed.

Lemma file_shape_silent (evs : list event) (r : res unit) :
  Forall silent evs -> file_shape r evs.
Proof. intros F. left. apply silent_counts. exact F. Qed.

Section FileShape.
Variable w : World.

Lemma shutdown_counts fuel v filename gp dvm1 dvm2 :
  wp (shutdown w fuel v filename gp dvm1 dvm2)
     (fun r evs =>
        (exists ts, out_lines evs = [OutStop ts]) /\
        iterations evs = 0%nat /\ read_errors evs = 0%nat /\
        forall a, r <> Val a).
Proof.
  eapply wp_mono; [apply shutdown_shape_holds|].
  intros r evs [ts [rest [-> [F H]]]].
  assert (S : Forall silent rest).
  { eapply Forall_impl; [|exact F]. intros []; simpl; try tauto.
    destruct m; simpl; tauto. }
  destruct (silent_counts rest S) as [O [I E]].
  unfold iterations, read_errors, out_lines in *. simpl.
  rewrite O. fold (iterations rest). fold (read_errors rest).
  repeat split; eauto. intros a ->. exact H.
Qed.

Lemma measure_file_shape fuel v filename gp dvm1 dvm2 :
  wp (measure w fuel v filename gp dvm1 dvm2) file_shape.
Proof.
  unfold measure.
  wp_call' setup_instruments_shape. destruct H as [F1 _].
  assert (S1 : Forall silent evs).
  { eapply Forall_impl; [|exact F1]. intros [] [H|H]; simpl in *; try tauto;
      destruct m; simpl in *; tauto. }
  destruct r as [v'|c|u|]; try (apply file_shape_silent; exact S1).
  wp_call' write_header_shape. destruct H as [[t0 ->] [ts ->]].
  cbv beta iota.
  wp_call' acquire_counts. destruct H as [FR H]. cbv zeta in H.
  set (hd := Stdout (Summary (pad1 v') (pad2 v') filename (comment v')
                       (delay v') (do_flush v') (tstop v'))
               :: map Fprintf_outfile (header_block (comment v') ts)).
  assert (Oh : out_lines hd = header_block (comment v') ts) by reflexivity.
  assert (Ih : iterations hd = 0%nat) by reflexivity.
  assert (Eh : read_errors hd = 0%nat) by reflexivity.
  destruct r as [lk|c|u|].
  - eapply wp_mono; [apply shutdown_counts|].
    intros r e3 [[ts' O3] [I3 [E3 _]]].
    apply file_shape_prefix; [exact S1|]. right.
    exists (comment v'), ts, (out_lines evs0). split; [exact FR|].
    cbv zeta. left.
    rewrite !out_lines_app, !iterations_app, !read_errors_app.
    rewrite Oh, Ih, Eh, O3, I3, E3. destruct H as [E [I N]].
    repeat split; eauto; lia.
  - apply file_shape_prefix; [exact S1|]. right.
    exists (comment v'), ts, (out_lines evs0). split; [exact FR|].
    cbv zeta. right. left.
    rewrite !out_lines_app, !iterations_app, !read_errors_app.
    rewrite Oh, Ih, Eh. destruct H as [-> [E I]]. repeat split; auto.
  - apply file_shape_prefix; [exact S1|]. right.
    exists (comment v'), ts, (out_lines evs0). split; [exact FR|].
    cbv zeta.
    rewrite !out_lines_app, !iterations_app, !read_errors_app.
    rewrite Oh, Ih, Eh. destruct H as [[E I]|[E I]].
    + right. left. repeat split; eauto.
    + right. right. repeat split; eauto; lia.
  - apply file_shape_prefix; [exact S1|]. right.
    exists (comment v'), ts, (out_lines evs0). split; [exact FR|].
    cbv zeta. right. right.
    rewrite !out_lines_app, !iterations_app, !read_errors_app.
    rewrite Oh, Ih, Eh. destruct H as [E I]. repeat split; auto; lia.
Qed.

Lemma main_configured_file_shape argv fuel v :
  wp (main_configured w argv fuel v) file_shape.
Proof.
  unfold main_configured.
  wp_call' prepare_outfile_shape. destruct H as [F1 _].
  assert (S1 : Forall silent evs).
  { eapply Forall_impl; [|exact F1]. intros []; simpl; try tauto.
    destruct m; simpl; tauto. }
  destruct r as [filename|c|u|]; try (apply file_shape_silent; exact S1).
  wp_call' prepare_gnuplot_shape. cbv zeta in H. destruct H as [-> ->].
  cbv beta iota. unfold session. wp_run.
  wp_call' open_instruments_shape. destruct H as [F3 _].
  assert (S3 : Forall silent evs0).
  { eapply Forall_impl; [|exact F3]. intros [] [H|H]; simpl in *; try tauto;
      destruct m; simpl in *; tauto. }
  assert (S2 : Forall silent
                 (Popen (gnuplot v) (w_popen w (gnuplot v))
                  :: (if w_popen w (gnuplot v) then []
                      else [Stderr CannotLaunchGnuplot])
                  ++ (if do_graph (if w_popen w (gnuplot v) then v
                                   else set_do_graph false v)
                      then gnuplot_setup v filename else []))).
  { destruct (w_popen w (gnuplot v)); simpl; destruct (do_graph v);
      repeat constructor. }
  destruct r as [[dvm1 dvm2]|c|u|].
  - eapply wp_mono; [apply measure_file_shape|]. intros r e4 H.
    apply file_shape_prefix; [exact S1|].
    apply file_shape_prefix; [exact S2|].
    apply (file_shape_prefix [Init_keyboard]); [repeat constructor|].
    apply file_shape_prefix; [exact S3|]. exact H.
  - apply file_shape_silent. repeat (apply Forall_app; split); auto.
    repeat constructor.
  - apply file_shape_silent. repeat (apply Forall_app; split); auto.
    repeat constructor.
  - apply file_shape_silent. repeat (apply Forall_app; split); auto.
    repeat constructor.
Qed.

End FileShape.

(** ** The cadence of flushes and plots *)

Lemma unmarked_quiet (l : list event) :
  Forall unmarked l ->
  records l = 0%nat /\
  forall n, marks is_flush n l = [] /\ marks is_plot n l = [].
Proof.
  intros H. split; [|intros n; split].
  - apply records_none. eapply Forall_impl; [|exact H].
    intros [] He; try reflexivity; try contradiction.
    destruct l0; try reflexivity; contradiction.
  - apply marks_none. eapply Forall_impl; [|exact H].
    intros [] He; try reflexivity; contradiction.
  - apply marks_none. eapply Forall_impl; [|exact H].
    intros [] He; try reflexivity. destruct c; try reflexivity; contradiction.
Qed.

Lemma cadence_prefix N plotting plot r pre evs :
  Forall unmarked pre -> cadence N plotting plot r evs ->
  cadence N plotting plot r (pre ++ evs).
Proof.
  intros F [body [tail [-> [MF [MP T]]]]].
  destruct (unmarked_quiet pre F) as [R M].
  exists (pre ++ body), tail. rewrite app_assoc. split; [reflexivity|].
  rewrite records_app, !marks_app, R. destruct (M 0) as [-> ->]. simpl.
  auto.
Qed.

Lemma cadence_unmarked N plotting plot r evs :
  r <> Return 0 -> Forall unmarked evs -> cadence N plotting plot r evs.
Proof.
  intros Hr F. destruct (unmarked_quiet evs F) as [R M].
  exists evs, []. rewrite app_nil_r, R. destruct (M 0) as [-> ->]. simpl.
  destruct plotting; auto 6.
Qed.

Section Cadence.
Variable w : World.

Lemma measure_cadence fuel v filename gp dvm1 dvm2 :
  C.to_ulong (do_flush v) <> 0 -> Z.of_nat fuel < 2 ^ 64 ->
  wp (measure w fuel v filename gp dvm1 dvm2)
     (cadence (C.to_ulong (do_flush v)) (do_graph v)
              (plot_command v filename)).
Proof.
  intros HN Hf. unfold measure.
  wp_call' setup_instruments_shape. destruct H as [F1 H1].
  assert (U1 : Forall unmarked evs).
  { eapply Forall_impl; [|exact F1]. intros [] [H|H]; simpl in *; tauto. }
  destruct r as [v'|c|u|]; simpl in H1;
    try (apply cadence_unmarked; [subst; discriminate|exact U1]).
  subst v'.
  wp_call' write_header_shape. destruct H as [[t0 ->] [ts ->]].
  cbv beta iota.
  set (v' := set_delay (halve (delay v)) v).
  set (hd := Stdout (Summary (pad1 v') (pad2 v') filename (comment v')
                       (delay v') (do_flush v') (tstop v'))
               :: map Fprintf_outfile (header_block (comment v') ts)).
  assert (Uh : Forall unmarked hd) by (repeat constructor).
  assert (L := wp_conj _ _ _
                 (acquire_marks w fuel v' filename gp dvm1 dvm2 t0 HN 0 0
                    (buffer_at_entry w) (buffer_at_entry w)
                    ltac:(lia) ltac:(lia))
                 (acquire_counts w fuel v' filename gp dvm1 dvm2 t0 0 0
                    (buffer_at_entry w) (buffer_at_entry w))).
  wp_call' L. destruct H as [[_ [MF MP]] [_ HC]]. cbv zeta in HC.
  assert (B : forall tail r',
             (tail = [] /\ r' <> Return 0 \/
              exists ts' rest,
                tail = Fprintf_outfile (OutStop ts') :: Fclose_outfile :: rest /\
                (r' = Return 0 -> do_graph v = true ->
                 In (Fprintf_gp (plot_command v filename)) rest)) ->
             cadence (C.to_ulong (do_flush v)) (do_graph v)
               (plot_command v filename) r' (evs ++ hd ++ evs0 ++ tail)).
  { intros tail r' HT. apply cadence_prefix; [exact U1|].
    apply cadence_prefix; [exact Uh|].
    exists evs0, tail. split; [reflexivity|]. auto. }
  destruct r as [lk|c|u|].
  - eapply wp_mono; [apply shutdown_shape_holds|].
    intros r e3 [ts' [rest [-> [_ H3]]]]. apply B. right.
    exists ts', rest. split; [reflexivity|]. intros -> G.
    destruct H3 as [[_ H3]|[H3 _]]; [apply H3; exact G|discriminate].
  - rewrite <- (app_nil_r evs0). apply B. left. split; [reflexivity|].
    destruct HC as [-> _]. discriminate.
  - rewrite <- (app_nil_r evs0). apply B. left. split; [reflexivity|].
    discriminate.
  - rewrite <- (app_nil_r evs0). apply B. left. split; [reflexivity|].
    discriminate.
Qed.

Lemma main_configured_cadence argv fuel v :
  C.to_ulong (do_flush v) <> 0 -> Z.of_nat fuel < 2 ^ 64 ->
  wp (main_configured w argv fuel v)
     (fun r evs =>
        exists filename,
          cadence (C.to_ulong (do_flush v))
            (do_graph v && w_popen w (gnuplot v))
            (plot_command v filename) r evs).
Proof.
  intros HN Hf. unfold main_configured.
  wp_call' prepare_outfile_shape. destruct H as [F1 H1].
  assert (U1 : Forall unmarked evs).
  { eapply Forall_impl; [|exact F1]. intros []; simpl; tauto. }
  destruct r as [f|c|u|];
    try (exists EmptyString;
         apply cadence_unmarked; [subst; discriminate|exact U1]).
  wp_call' prepare_gnuplot_shape. cbv zeta in H. destruct H as [-> ->].
  cbv beta iota. unfold session. wp_run.
  wp_call' open_instruments_shape. destruct H as [F3 [d1 [d2 [_ H3]]]].
  assert (U3 : Forall unmarked evs0).
  { eapply Forall_impl; [|exact F3]. intros [] [H|H]; simpl in *; tauto. }
  set (gp := w_popen w (gnuplot v)).
  set (v' := if gp then v else set_do_graph false v).
  assert (U2 : Forall unmarked
                 (Popen (gnuplot v) gp
                  :: (if gp then [] else [Stderr CannotLaunchGnuplot])
                  ++ (if do_graph v' then gnuplot_setup v f else []))).
  { unfold v'. destruct gp; simpl; destruct (do_graph v);
      repeat constructor. }
  assert (Ev : do_graph v' = do_graph v && gp
               /\ do_flush v' = do_flush v
               /\ plot_command v' f = plot_command v f).
  { unfold v'. destruct gp; simpl; rewrite ?andb_true_r, ?andb_false_r; auto. }
  destruct Ev as [Eg [Ef Ep]].
  destruct r as [[dvm1 dvm2]|c|u|].
  - assert (HN' : C.to_ulong (do_flush v') <> 0) by (rewrite Ef; exact HN).
    eapply wp_mono; [apply (measure_cadence fuel v' f gp dvm1 dvm2 HN' Hf)|].
    intros r e4 H. exists f. rewrite Ef, Eg, Ep in H.
    apply cadence_prefix; [exact U1|].
    apply cadence_prefix; [exact U2|].
    apply (cadence_prefix _ _ _ _ [Init_keyboard]); [repeat constructor|].
    apply cadence_prefix; [exact U3|]. exact H.
  - exists f. apply cadence_unmarked.
    + destruct H3 as [-> _]. discriminate.
    + repeat (apply Forall_app; split); auto. repeat constructor.
  - exists f. apply cadence_unmarked; [discriminate|].
    repeat (apply Forall_app; split); auto. repeat constructor.
  - exists f. apply cadence_unmarked; [discriminate|].
    repeat (apply Forall_app; split); auto. repeat constructor.
Qed.

End Cadence.

(** ** Single reads, odd delays and a flush interval of zero *)

Lemma cstring_strip (data : list ascii) :
  forall (buf : list ascii) (n : nat),
    List.length data = S n ->
    C.cstring (C.store (C.overwrite data buf) n C.NUL)
    = C.cstring (removelast data).
Proof.
  induction data as [|d ds IH]; intros buf n H; [discriminate|].
  destruct ds as [|d' ds].
  - injection H as <-. destruct buf; reflexivity.
  - destruct n as [|n]; [discriminate|].
    assert (H' : List.length (d' :: ds) = S n) by (simpl in *; lia).
    change (removelast (d :: d' :: ds)) with (d :: removelast (d' :: ds)).
    assert (E : forall tl,
               C.cstring (C.store (d :: C.overwrite (d' :: ds) tl) (S n) C.NUL)
               = C.cstring (d :: removelast (d' :: ds))).
    { intros tl.
      change (C.cstring (C.store (d :: C.overwrite (d' :: ds) tl) (S n) C.NUL))
        with (if Ascii.eqb d C.NUL then EmptyString
              else String d (C.cstring
                               (C.store (C.overwrite (d' :: ds) tl) n C.NUL))).
      rewrite (IH tl n H'). reflexivity. }
    destruct buf as [|b buf]; [exact (E [])|exact (E buf)].
Qed.

Lemma cstring_no_nul (l : list ascii) :
  Forall (fun c => c <> C.NUL) l -> C.cstring l = string_of_list_ascii l.
Proof.
  induction 1 as [|c l Hc Hl IH]; simpl; [reflexivity|].
  destruct (Ascii.eqb_spec c C.NUL); [contradiction|]. rewrite IH. reflexivity.
Qed.

Lemma halve_odd_table :
  forallb (fun d => negb (Z.odd d)
                    || ((halve d =? (d - 1) / 2) && (2 * halve d =? d - 1)))
          delays = true.
Proof. vm_compute. reflexivity. Qed.

Lemma flush_due_defined (loop N : Z) :
  flush_due loop N = None <-> C.to_ulong N = 0.
Proof.
  unfold flush_due. destruct (C.to_ulong N =? 0) eqn:E.
  - apply Z.eqb_eq in E. tauto.
  - apply Z.eqb_neq in E. split; [discriminate|contradiction].
Qed.

Lemma acquire_body_flush_zero (w : World) v filename gp dvm1 dvm2 t0 l key b1 b2 :
  do_flush v = 0 ->
  wp (acquire_body w v filename gp dvm1 dvm2 t0 l key b1 b2) stops_at_modulo.
Proof.
  intros HN.
  unfold acquire_body, read_failed, pclose, stops_at_modulo, flush_due.
  rewrite HN. change (C.to_ulong 0 =? 0) with true. cbv iota.
  wp_call' s7150_read_counts. destruct H as [F1 [_ [_ H1]]].
  destruct (read_event_quiet _ _ F1) as [R1 _].
  destruct r as [[c1 b1']|c|u|]; simpl in H1; try contradiction.
  2: { right. split; [|exact R1].
       destruct H1 as [_ [-> | ->]]; discriminate. }
  destruct H1 as [[-> E1]|[-> E1]]; wp_body.
  1,2: rewrite ?records_app, ?read_errors_app, ?R1, ?E1; simpl; auto.
  1: right; split; [discriminate|reflexivity].
  wp_call' s7150_read_counts. destruct H as [F2 [_ [_ H2]]].
  destruct (read_event_quiet _ _ F2) as [R2 _].
  destruct r as [[c2 b2']|c|u|]; simpl in H2; try contradiction.
  2: { right. rewrite records_app, R1, R2. split; [|reflexivity].
       destruct H2 as [_ [-> | ->]]; discriminate. }
  destruct H2 as [[-> E2]|[-> E2]]; wp_body;
    rewrite ?records_app, ?read_errors_app, ?R1, ?R2, ?E1, ?E2; simpl; auto.
  right; split; [discriminate|reflexivity].
Qed.

(** ** The option loop in a run *)

Lemma options_event_silent (evs : list event) :
  Forall options_event evs -> Forall silent evs.
Proof.
  intros F. eapply Forall_impl; [|exact F].
  intros []; simpl; try tauto; destruct m; simpl; tauto.
Qed.

Lemma options_event_unmarked (evs : list event) :
  Forall options_event evs -> Forall unmarked evs.
Proof.
  intros F. eapply Forall_impl; [|exact F]. intros []; simpl; tauto.
Qed.

Lemma options_event_leaves_outfile (evs : list event) :
  Forall options_event evs -> Forall leaves_outfile evs.
Proof.
  intros F. eapply Forall_impl; [|exact F]. intros []; simpl; tauto.
Qed.

Lemma options_event_no_open (evs : list event) :
  Forall options_event evs -> opens evs = [].
Proof.
  intros F. apply flat_map_nil. eapply Forall_impl; [|exact F].
  intros []; simpl; tauto.
Qed.

Lemma options_event_no_gp (evs : list event) :
  Forall options_event evs -> Forall no_gp evs /\ Forall no_popen evs.
Proof.
  intros F. split; (eapply Forall_impl; [|exact F]); intros []; simpl; tauto.
Qed.

Lemma configured_cases (w : World) (argv : list string) (fuel : nat) :
  (exists v, configured w argv fuel = Val v) \/
  (forall v, configured w argv fuel <> Val v).
Proof.
  destruct (configured w argv fuel); eauto; right; intros v; discriminate.
Qed.

(** ** The reads of a run *)

Lemma read_calls_app (a b : list event) :
  read_calls (a ++ b) = read_calls a ++ read_calls b.
Proof. apply flat_map_app. Qed.

Lemma silent_reads (evs : list event) :
  Forall silent evs ->
  read_calls evs = [] /\ records evs = 0%nat /\ read_errors evs = 0%nat.
Proof.
  intros F. unfold read_calls, records, read_errors.
  rewrite !flat_map_nil; auto;
    (eapply Forall_impl; [|exact F]); intros []; simpl; try tauto;
    destruct m; simpl; tauto.
Qed.

Lemma reads_paired_prefix d (pre evs : list event) :
  Forall silent pre -> reads_paired d evs -> reads_paired d (pre ++ evs).
Proof.
  intros F H. destruct (silent_reads pre F) as [R [N _]].
  unfold reads_paired. rewrite read_calls_app, records_app, R, N. exact H.
Qed.

Lemma read_exit_prefix {A} gp (r : res A) (pre evs : list event) :
  Forall silent pre -> read_exit gp r evs -> read_exit gp r (pre ++ evs).
Proof.
  intros F H. destruct (silent_reads pre F) as [_ [_ E]].
  unfold read_exit. rewrite read_errors_app, E. exact H.
Qed.

Lemma reads_silent {A} d gp (r : res A) (evs : list event) :
  Forall silent evs -> reads_paired d evs /\ read_exit gp r evs.
Proof.
  intros F. destruct (silent_reads evs F) as [R [N E]]. split.
  - exists 0%nat, []. rewrite R, N. simpl. auto.
  - unfold read_exit. rewrite E. lia.
Qed.

Section Reads.
Variable w : World.

Lemma s7150_read_calls dvm d id b :
  wp (s7150_read w dvm d id b)
     (fun r evs => read_calls evs = [(d, id)] /\ records evs = 0%nat).
Proof.
  unfold s7150_read. repeat wp_step; simpl; auto.
Qed.

Lemma acquire_body_reads v filename gp dvm1 dvm2 t0 loop key b1 b2 :
  wp (acquire_body w v filename gp dvm1 dvm2 t0 loop key b1 b2)
     (body_reads (delay v) gp).
Proof.
  unfold acquire_body, read_failed, pclose, body_reads, read_exit.
  wp_call' (wp_conj _ _ _ (s7150_read_counts w dvm1 (delay v) Buffer1 b1)
              (s7150_read_calls dvm1 (delay v) Buffer1 b1)).
  destruct H as [[_ [_ [_ H1]]] [C1 N1]].
  destruct r as [[c1 b1']|c|u|]; simpl in H1; try contradiction.
  2: { destruct H1 as [H1 _]. rewrite H1. split; [auto|lia]. }
  destruct H1 as [[-> E1]|[-> E1]]; wp_body.
  1,2: rewrite ?read_calls_app, ?records_app, ?read_errors_app, C1, N1, E1;
    simpl; auto.
  wp_call' (wp_conj _ _ _ (s7150_read_counts w dvm2 (delay v) Buffer2 b2)
              (s7150_read_calls dvm2 (delay v) Buffer2 b2)).
  destruct H as [[_ [_ [_ H2]]] [C2 N2]].
  destruct r as [[c2 b2']|c|u|]; simpl in H2; try contradiction.
  2: { destruct H2 as [H2 _].
       rewrite ?read_calls_app, ?records_app, ?read_errors_app,
         C1, N1, E1, C2, N2, H2. simpl. split; [auto|lia]. }
  destruct H2 as [[-> E2]|[-> E2]]; wp_body;
    rewrite ?read_calls_app, ?records_app, ?read_errors_app,
      C1, N1, E1, C2, N2, E2; simpl; try (split; [auto|try lia; auto]); auto;
    unfold read_errors; simpl; lia.
Qed.


Lemma acquire_reads fuel v filename gp dvm1 dvm2 t0 :
  forall loop key b1 b2,
    wp (acquire w fuel v filename gp dvm1 dvm2 t0 loop key b1 b2)
       (fun r evs => reads_paired (delay v) evs /\ read_exit gp r evs).
Proof.
  induction fuel as [|fuel IH]; intros; simpl.
  - apply wp_out_of_fuel. split.
    + exists 0%nat, []. simpl. auto.
    + unfold read_exit, read_errors. simpl. lia.
  - wp_call' acquire_body_reads. unfold body_reads in H.
    destruct r as [[[[l k] c1] c2]|c|u|].
    + destruct H as [C [N E]]. destruct (quit_key k).
      * apply wp_ret. rewrite app_nil_r. split.
        -- exists 1%nat, []. rewrite C, N. simpl. auto.
        -- unfold read_exit. rewrite E. lia.
      * eapply wp_mono; [apply IH|]. intros r e2 [[n [tail [C2 [T2 N2]]]] X2].
        split.
        -- exists (S n), tail. rewrite read_calls_app, records_app, C, C2, N.
           simpl. repeat split; auto. lia.
        -- unfold read_exit in *. rewrite read_errors_app, E. exact X2.
    + destruct H as [[[C N]|[C N]] X]; (split; [|exact X]).
      * exists 0%nat, [(delay v, Buffer1)]. rewrite C, N. simpl. auto.
      * exists 1%nat, []. rewrite C. simpl. auto.
    + destruct H as [[[C N]|[C N]] X]; (split; [|exact X]).
      * exists 0%nat, [(delay v, Buffer1)]. rewrite C, N. simpl. auto.
      * exists 1%nat, []. rewrite C. simpl. auto.
    + destruct H as [[[C N]|[C N]] X]; (split; [|exact X]).
      * exists 0%nat, [(delay v, Buffer1)]. rewrite C, N. simpl. auto.
      * exists 1%nat, []. rewrite C. simpl. auto.
Qed.

Lemma shutdown_reads fuel v filename gp dvm1 dvm2 :
  wp (shutdown w fuel v filename gp dvm1 dvm2)
     (fun r evs =>
        read_calls evs = [] /\ records evs = 0%nat /\ read_errors evs = 0%nat).
Proof.
  eapply wp_mono; [apply shutdown_shape_holds|].
  intros r evs [ts [rest [-> [F H]]]].
  assert (S : Forall silent rest).
  { eapply Forall_impl; [|exact F]. intros []; simpl; try tauto.
    destruct m; simpl; tauto. }
  destruct (silent_reads rest S) as [R [N E]].
  unfold read_calls, records, read_errors in *. simpl. auto.
Qed.

Lemma measure_reads fuel v filename gp dvm1 dvm2 :
  wp (measure w fuel v filename gp dvm1 dvm2)
     (fun r evs => reads_paired (halve (delay v)) evs /\ read_exit gp r evs).
Proof.
  unfold measure.
  wp_call' setup_instruments_shape. destruct H as [F1 H1].
  assert (S1 : Forall silent evs).
  { eapply Forall_impl; [|exact F1]. intros [] [H|H]; simpl in *; try tauto;
      destruct m; simpl in *; tauto. }
  destruct r as [v'|c|u|]; try (apply reads_silent; exact S1).
  simpl in H1. subst v'.
  wp_call' write_header_shape. destruct H as [[t0 ->] [ts ->]].
  cbv beta iota.
  set (v' := set_delay (halve (delay v)) v).
  set (hd := Stdout (Summary (pad1 v') (pad2 v') filename (comment v')
                       (delay v') (do_flush v') (tstop v'))
               :: map Fprintf_outfile (header_block (comment v') ts)).
  assert (Rh : read_calls hd = []) by reflexivity.
  assert (Nh : records hd = 0%nat) by reflexivity.
  assert (Eh : read_errors hd = 0%nat) by reflexivity.
  assert (B : forall (r' : res unit) e,
             reads_paired (halve (delay v)) e /\ read_exit gp r' e ->
             reads_paired (halve (delay v)) (evs ++ hd ++ e) /\
             read_exit gp r' (evs ++ hd ++ e)).
  { intros r' e [P X]. split.
    - apply reads_paired_prefix; [exact S1|]. unfold reads_paired.
      rewrite read_calls_app, records_app, Rh, Nh. exact P.
    - apply read_exit_prefix; [exact S1|]. unfold read_exit.
      rewrite read_errors_app, Eh. exact X. }
  wp_call' (acquire_reads fuel v' filename gp dvm1 dvm2 t0 0 0
              (buffer_at_entry w) (buffer_at_entry w)).
  change (delay v') with (halve (delay v)) in H. destruct H as [P X].
  destruct r as [lk|c|u|].
  - eapply wp_mono; [apply shutdown_reads|]. intros r e3 [R3 [N3 E3]].
    apply B. destruct P as [n [tail [C [T N]]]]. split.
    + exists n, tail. rewrite read_calls_app, records_app, R3, N3, app_nil_r.
      split; [exact C|]. split; [exact T|]. lia.
    + unfold read_exit in *. rewrite read_errors_app, E3, Nat.add_0_r.
      intros G. destruct (X G).
  - rewrite <- (app_nil_r evs0). apply B. rewrite app_nil_r. auto.
  - rewrite <- (app_nil_r evs0). apply B. rewrite app_nil_r. auto.
  - rewrite <- (app_nil_r evs0). apply B. rewrite app_nil_r. auto.
Qed.

Lemma main_configured_reads argv fuel v :
  wp (main_configured w argv fuel v)
     (fun r evs =>
        reads_paired (halve (delay v)) evs /\
        read_exit (w_popen w (gnuplot v)) r evs).
Proof.
  unfold main_configured.
  wp_call' prepare_outfile_shape. destruct H as [F1 _].
  assert (S1 : Forall silent evs).
  { eapply Forall_impl; [|exact F1]. intros []; simpl; try tauto.
    destruct m; simpl; tauto. }
  destruct r as [filename|c|u|]; try (apply reads_silent; exact S1).
  wp_call' prepare_gnuplot_shape. cbv zeta in H. destruct H as [-> ->].
  cbv beta iota. unfold session. wp_run.
  wp_call' open_instruments_shape. destruct H as [F3 _].
  assert (S3 : Forall silent evs0).
  { eapply Forall_impl; [|exact F3]. intros [] [H|H]; simpl in *; try tauto;
      destruct m; simpl in *; tauto. }
  set (gp := w_popen w (gnuplot v)).
  set (v' := if gp then v else set_do_graph false v).
  assert (S2 : Forall silent
                 (Popen (gnuplot v) gp
                  :: (if gp then [] else [Stderr CannotLaunchGnuplot])
                  ++ (if do_graph v' then gnuplot_setup v filename else []))).
  { unfold v'. destruct gp; simpl; destruct (do_graph v);
      repeat constructor. }
  assert (Ed : delay v' = delay v) by (unfold v'; destruct gp; reflexivity).
  destruct r as [[dvm1 dvm2]|c|u|].
  - eapply wp_mono; [apply (measure_reads fuel v' filename gp dvm1 dvm2)|].
    intros r e4 [P X]. rewrite Ed in P. split.
    + apply reads_paired_prefix; [exact S1|].
      apply reads_paired_prefix; [exact S2|].
      apply (reads_paired_prefix _ [Init_keyboard]); [repeat constructor|].
      apply reads_paired_prefix; [exact S3|]. exact P.
    + apply read_exit_prefix; [exact S1|].
      apply read_exit_prefix; [exact S2|].
      apply (read_exit_prefix _ _ [Init_keyboard]); [repeat constructor|].
      apply read_exit_prefix; [exact S3|]. exact X.
  - apply reads_silent. repeat (apply Forall_app; split); auto.
    repeat constructor.
  - apply reads_silent. repeat (apply Forall_app; split); auto.
    repeat constructor.
  - apply reads_silent. repeat (apply Forall_app; split); auto.
    repeat constructor.
Qed.

End Reads.

Lemma run_reads (w : World) (argv : list string) (fuel : nat) (v : locals) :
  configured w argv fuel = Val v ->
  reads_paired (halve (delay v)) (trace (snd (run w argv fuel))) /\
  read_exit (w_popen w (gnuplot v)) (fst (run w argv fuel))
    (trace (snd (run w argv fuel))).
Proof.
  intros C.
  destruct (run_wp w argv fuel v _ C (main_configured_reads w argv fuel v))
    as [_ [evs0 [evs [T [F0 [P X]]]]]].
  assert (S0 : Forall silent (Stderr Disclaimer :: evs0)).
  { constructor; [exact I|]. apply options_event_silent. exact F0. }
  rewrite T. split.
  - apply (reads_paired_prefix _ (Stderr Disclaimer :: evs0)); assumption.
  - apply (read_exit_prefix _ _ (Stderr Disclaimer :: evs0)); assumption.
Qed.

(** ** A launch of gnuplot that [popen] does not see fail *)

Section Undetected.
Variable w : World.

Lemma session_starts fuel v filename gp :
  wp (session w fuel v filename gp)
     (fun _ evs => Forall no_launch_report evs /\
                   exists post, evs = Init_keyboard :: post).
Proof.
  apply wp_conj.
  - eapply wp_mono; [apply session_events|]. intros r evs [F _].
    eapply Forall_impl; [|exact F].
    intros e [->|[H|[H|H]]]; [exact I| | |]; destruct e; simpl in *;
      try tauto; destruct m; simpl in *; tauto.
  - unfold session. wp_run.
    wp_call' open_instruments_shape.
    destruct r as [[a b]|c|u|]; try (eexists; reflexivity).
    eapply wp_mono; [apply measure_events|]. intros r e2 _.
    eexists. reflexivity.
Qed.

Lemma main_configured_undetected argv fuel v :
  w_popen w (gnuplot v) = true -> do_graph v = true ->
  wp (main_configured w argv fuel v) (fun _ evs => undetected v evs).
Proof.
  intros G D. unfold main_configured, undetected.
  wp_call' prepare_outfile_shape. destruct H as [F1 _].
  assert (G1 : Forall no_launch_report evs /\ Forall no_popen evs).
  { split; (eapply Forall_impl; [|exact F1]); intros []; simpl; try tauto;
      destruct m; simpl; tauto. }
  destruct G1 as [G1 P1].
  destruct r as [filename|c|u|]; [|auto..].
  wp_call' prepare_gnuplot_shape. cbv zeta in H.
  rewrite G in H. rewrite D in H. destruct H as [-> ->]. simpl.
  eapply wp_mono; [apply session_starts|].
  intros r e3 [G3 [post ->]]. split.
  - apply Forall_app. split; [exact G1|]. repeat (constructor; [exact I|]).
    apply Forall_inv_tail in G3. exact G3.
  - right. exists filename, evs, post. reflexivity.
Qed.

End Undetected.

(** * The claims of the specification *)

(** ** C1: the delay is halved once and handed to every read *)



(** On the bench, with a delay of 7 tenths of a second on the command line,
    the three passes of the run read both instruments with a delay of 3. *)
Example reads_of_the_bench :
  read_calls (trace (snd (run bench argv_delay7 10)))
  = read_pairs 3 3 /\
  records (trace (snd (run bench argv_delay7 10))) = 3%nat.
Proof. vm_compute. split; reflexivity. Qed.

(** ** C2: the thresholds of the integration time *)

(** Claim C2.  For every sampling frequency [freq] the integration-time
    code chosen by [s7150_setup] is 0 when [freq > 10], 1 when
    [1.5 < freq <= 10], 4 when [freq < 0.25] and 3 when
    [0.25 <= freq <= 1.5]; it is the code the cascade of comparisons of the
    source computes (3 also for a frequency that is not a number), and it
    is the code after [I] in every command [s7150_setup] writes to the
    instrument. *)
Theorem integration_thresholds (freq : float) :
  ((10 <? freq)%float = true -> integration freq = 0) /\
  ((1.5 <? freq)%float = true -> (freq <=? 10)%float = true ->
   integration freq = 1) /\
  ((freq <? 0.25)%float = true -> integration freq = 4) /\
  ((0.25 <=? freq)%float = true -> (freq <=? 1.5)%float = true ->
   integration freq = 3) /\
  integration freq
  = (if (10 <? freq)%float then 0
     else if (1.5 <? freq)%float then 1
     else if (freq <? 0.25)%float then 4
     else 3) /\
  forall (w : World) (dvm display func range : Z),
    only (fun e =>
            forall d c err, e = Ibwrt d c err ->
              c = setup_command (if display =? 0 then 1 else 0) func range
                    (integration freq))
         any (s7150_setup w dvm display func range freq).
Proof.
  assert (G : integration freq
              = (if (10 <? freq)%float then 0
                 else if (1.5 <? freq)%float then 1
                 else if (freq <? 0.25)%float then 4
                 else 3)) by reflexivity.
  split; [|split; [|split; [|split; [|split]]]].
  - intros H. rewrite G, H. reflexivity.
  - intros H1 H2. rewrite G, (leb_not_ltb _ _ H2), H1. reflexivity.
  - intros H. destruct (below_quarter _ H) as [H1 H2].
    rewrite G, H1, H2, H. reflexivity.
  - intros H1 H2.
    rewrite G, (leb_not_ltb _ _ H1), (leb_not_ltb _ _ H2).
    destruct (10 <? freq)%float eqn:E; [|reflexivity].
    apply above_ten in E. rewrite (leb_not_ltb _ _ H2) in E. discriminate.
  - exact G.
  - intros w dvm display func range. unfold s7150_setup, ibwrt.
    repeat only_step; intros; congruence.
Qed.

(** ** C3: header, records and footer of the output file *)

(** Claim C3 does not hold as stated: a run in which the first read of the
    first iteration fails ends with [ERR_INST] after one iteration; the
    output file then holds the header block and nothing else, neither a
    Sample Record for the iteration nor a footer. *)
Lemma no_footer_after_read_error :
  let r := run bench_read_error argv_default 10 in
  fst r = Return ERR_INST /\
  iterations (trace (snd r)) = 1%nat /\
  read_errors (trace (snd r)) = 1%nat /\
  records (trace (snd r)) = 0%nat /\
  out_lines (trace (snd r))
  = header_block EmptyString "Thu Jan  1 00:00:00 1970"%string /\
  forall ts, ~ In (OutStop ts) (out_lines (trace (snd r))).
Proof.
  vm_compute. repeat (split; [reflexivity|]).
  intros ts H. repeat (destruct H as [H|H]; [discriminate H|]). exact H.
Qed.

(** Claim C3, amended.  In every run, either nothing is written to the
    output file and no iteration starts, or the file begins with the header
    block, written once and before every Sample Record, and continues with
    Sample Records only, and one of three cases holds.  When the loop ends
    on a stop request, every iteration has appended exactly one Sample
    Record, there is at least one, and the footer follows them, once.
    When the loop ends on a read error, every iteration but the interrupted
    one has appended one Sample Record, and no footer is written: the
    program leaves at once, with [ERR_INST] or in undefined behaviour.
    Otherwise the run has not ended in a defined way (out of fuel or
    undefined behaviour), and the records are those of the iterations so
    far.  In a session for which gnuplot had been launched, a run in which
    a read error is reported ends with [ERR_INST], and in no other way. *)
Theorem output_file_shape (w : World) (argv : list string) (fuel : nat) :
  file_shape (fst (run w argv fuel)) (trace (snd (run w argv fuel))) /\
  (forall v,
      configured w argv fuel = Val v ->
      w_popen w (gnuplot v) = true ->
      (1 <= read_errors (trace (snd (run w argv fuel))))%nat ->
      fst (run w argv fuel) = Return ERR_INST).
Proof.
  split.
  - destruct (configured_cases w argv fuel) as [[v C]|C].
    + destruct (run_wp w argv fuel v _ C
                  (main_configured_file_shape w argv fuel v))
        as [_ [evs0 [evs [T [F0 H]]]]].
      rewrite T.
      apply (file_shape_prefix (Stderr Disclaimer :: evs0)); [|exact H].
      constructor; [exact I|]. apply options_event_silent. exact F0.
    + destruct (run_not_configured w argv fuel C) as [F _].
      apply file_shape_silent. apply options_event_silent. exact F.
  - intros v C G E. destruct (run_reads w argv fuel v C) as [_ X].
    specialize (X E). rewrite G in X.
    destruct (fst (run w argv fuel)) as [a|c|u|]; try contradiction.
    + destruct X as [_ ->]. reflexivity.
    + destruct X as [X _]. discriminate X.
Qed.

Lemma output_file_shape_witness :
  configured bench_read_error argv_default 10 = Val defaults /\
  w_popen bench_read_error (gnuplot defaults) = true /\
  (1 <= read_errors (trace (snd (run bench_read_error argv_default 10))))%nat /\
  fst (run bench_read_error argv_default 10) = Return ERR_INST.
Proof.
  assert (C : configured bench_read_error argv_default 10 = Val defaults)
    by (vm_compute; reflexivity).
  assert (G : w_popen bench_read_error (gnuplot defaults) = true)
    by reflexivity.
  assert (E : (1 <= read_errors
                       (trace (snd (run bench_read_error argv_default 10))))%nat)
    by (vm_compute; lia).
  split; [exact C|]. split; [exact G|]. split; [exact E|].
  exact (proj2 (output_file_shape bench_read_error argv_default 10)
           defaults C G E).
Defined.

(** ** C4: no timed stop without a stop time *)

(** Claim C4.  When the stop time is 0 the test of the timed stop,
    [(t1 > tstop) && (tstop > 0.0)], is false at every time [t1]; and the
    acquisition loop, entered as [main] enters it with [key = 0], can end
    in two ways only: with a key [q] or ESC that was read from the keyboard
    in its last step, or with [ERR_INST] after a read error was reported.
    (Nothing is said of a loop that does not end within the fuel or that
    runs into undefined behaviour.) *)
Theorem no_timed_stop_without_stop_time (w : World) (fuel : nat) (v : locals)
    (filename : string) (gp : bool) (dvm1 dvm2 : Z) (t0 : float)
    (loop : Z) (b1 b2 : list ascii) :
  tstop v = 0%float ->
  (forall t1, timed_out t1 (tstop v) = false) /\
  wp (acquire w fuel v filename gp dvm1 dvm2 t0 loop 0 b1 b2) loop_stop.
Proof.
  intros H. split.
  - intros t1. rewrite H. apply timed_out_zero.
  - apply acquire_stop; [exact H|reflexivity].
Qed.

Lemma no_timed_stop_witness :
  tstop defaults = 0%float /\
  ((forall t1, timed_out t1 (tstop defaults) = false) /\
   wp (acquire bench 10 defaults "out.dat"%string true 16 17 0%float 0 0 [] [])
      loop_stop).
Proof.
  split; [reflexivity|].
  apply (no_timed_stop_without_stop_time bench 10 defaults "out.dat"%string
           true 16 17 0%float 0 [] []).
  reflexivity.
Defined.

(** ** C5: the cadence of flushes and plots *)

(** Claim C5 does not hold as stated: in a run with plotting enabled in
    which the reset of the first instrument fails after the loop, the
    footer is written and the program ends with [ERR_INST]; no plot command
    is sent after the loop (here none at all, the run having three
    iterations and the default interval of 100). *)
Lemma no_redraw_after_reset_error :
  let r := run bench_reset_error argv_default 10 in
  let tr := trace (snd r) in
  configured bench_reset_error argv_default 10 = Val defaults /\
  do_flush defaults = 100 /\ do_graph defaults = true /\
  fst r = Return ERR_INST /\
  records tr = 3%nat /\
  existsb (fun e => match e with
                    | Fprintf_gp (GpStyle _) => true
                    | _ => false
                    end) tr = true /\
  existsb (fun e => match e with
                    | Fprintf_outfile (OutStop _) => true
                    | _ => false
                    end) tr = true /\
  existsb is_plot tr = false.
Proof. vm_compute. auto 10. Qed.

(** Claim C5, amended.  In a session with a flush interval [N],
    [0 < N < 2^64], and fewer than [2^64] iterations, the events of the run
    split into those up to the end of the loop and those after it.  Up to
    the end of the loop, [fflush] of the output file is called exactly
    after the Sample Records number [k] with [1 <= k] and [k mod N = 0],
    once each, and when plotting is on (asked for, and gnuplot launched)
    the plot command is sent after exactly the same records; when it is
    off, never.  A run that ends with code 0 goes on after the loop with
    the footer and the [fclose] of the output file, which flushes it, and,
    when plotting is on, with one more plot command.  A run that ends
    otherwise either has nothing after the loop or has the footer and the
    [fclose]; a last plot command is not promised for it. *)
Theorem flush_cadence (w : World) (argv : list string) (fuel : nat)
    (v : locals) :
  configured w argv fuel = Val v ->
  0 < do_flush v < 2 ^ 64 ->
  Z.of_nat fuel < 2 ^ 64 ->
  (forall k n, In k (due_list (do_flush v) 0 n)
               <-> 1 <= k <= Z.of_nat n /\ k mod do_flush v = 0) /\
  exists filename,
    cadence (do_flush v) (do_graph v && w_popen w (gnuplot v))
      (plot_command v filename)
      (fst (run w argv fuel)) (trace (snd (run w argv fuel))).
Proof.
  intros C HN Hf.
  assert (U : C.to_ulong (do_flush v) = do_flush v).
  { unfold C.to_ulong, C.ULONG_WIDTH. apply Z.mod_small. lia. }
  split.
  - intros k n. rewrite in_due_list. lia.
  - assert (HN' : C.to_ulong (do_flush v) <> 0) by lia.
    destruct (run_wp w argv fuel v _ C
                (main_configured_cadence w argv fuel v HN' Hf))
      as [_ [evs0 [evs [T [F0 [filename H]]]]]].
    exists filename. rewrite T. rewrite U in H.
    apply (cadence_prefix _ _ _ _ (Stderr Disclaimer :: evs0)); [|exact H].
    constructor; [exact I|]. apply options_event_unmarked. exact F0.
Qed.

Lemma flush_cadence_witness :
  configured bench argv_flush2 10 = Val (set_do_flush 2 defaults) /\
  0 < do_flush (set_do_flush 2 defaults) < 2 ^ 64 /\
  Z.of_nat 10 < 2 ^ 64 /\
  ((forall k n, In k (due_list (do_flush (set_do_flush 2 defaults)) 0 n)
                <-> 1 <= k <= Z.of_nat n
                    /\ k mod do_flush (set_do_flush 2 defaults) = 0) /\
   exists filename,
     cadence (do_flush (set_do_flush 2 defaults))
       (do_graph (set_do_flush 2 defaults)
        && w_popen bench (gnuplot (set_do_flush 2 defaults)))
       (plot_command (set_do_flush 2 defaults) filename)
       (fst (run bench argv_flush2 10)) (trace (snd (run bench argv_flush2 10)))).
Proof.
  split; [vm_compute; reflexivity|].
  split; [simpl; lia|]. split; [lia|].
  apply (flush_cadence bench argv_flush2 10 (set_do_flush 2 defaults)).
  - vm_compute. reflexivity.
  - simpl. lia.
  - lia.
Defined.

(** The run of the witness: three iterations with a flush interval of 2;
    one flush and one plot in the loop, after the second record, and one
    more plot after the loop. *)
Example flush_cadence_run :
  let tr := trace (snd (run bench argv_flush2 10)) in
  fst (run bench argv_flush2 10) = Return 0 /\
  records tr = 3%nat /\
  marks is_flush 0 tr = [2] /\
  marks is_plot 0 tr = [2; 3].
Proof. vm_compute. auto. Qed.

(** ** C6: one read of an instrument *)

Section ReadBehaviour.

Local Arguments firstn : simpl never.
Local Arguments C.overwrite : simpl never.
Local Arguments C.store : simpl never.
Local Arguments Z.mul : simpl never.

(** Claim C6.  A call of [s7150_read] with a delay [delay >= 0] (tenths of
    a second; [delay * 100000] microseconds fit an [int]) sleeps for that
    time when the delay is not zero and does not sleep when it is zero;
    then it asks the bus for 16 bytes.  It returns 0, after a message on
    stderr, exactly when the bus read reports an error, and 1 otherwise.
    On success (the bus having delivered at least one byte) the result
    buffer holds, as a C string, the bytes delivered without the last one,
    the terminator: the text of the instrument as it came, which is that
    very text whenever it holds no NUL.  Nothing else is done: the trace of
    the call is [read_trace]. *)
Theorem s7150_read_behaviour (w : World) (dvm delay : Z) (id : bufid)
    (buf : list ascii) (s : State) :
  0 <= delay -> delay * 100000 <= INT_MAX ->
  let err := fst (w_ibrd w (n_ibrd s)) in
  let data := firstn 16 (snd (w_ibrd w (n_ibrd s))) in
  (err = false -> data <> []) ->
  exists buf',
    fst (s7150_read w dvm delay id buf s) = Val (if err then 0 else 1, buf') /\
    trace (snd (s7150_read w dvm delay id buf s))
    = trace s ++ read_trace dvm delay id err data /\
    (err = false ->
     C.cstring buf' = C.cstring (removelast data) /\
     (Forall (fun c => c <> C.NUL) (removelast data) ->
      C.cstring buf' = string_of_list_ascii (removelast data))).
Proof.
  intros H0 Hmax err data Hdata. subst err data.
  unfold s7150_read, read_trace, bind, emit, gets, modify, ret, undefined_.
  assert (E : (delay * 100000 >? INT_MAX) = false).
  { rewrite Z.gtb_ltb. apply Z.ltb_ge. exact Hmax. }
  destruct (w_ibrd w (n_ibrd s)) as [err bytes] eqn:W. simpl in Hdata.
  destruct (Z.eq_dec delay 0) as [->|Hd].
  - simpl. rewrite W. destruct err; simpl.
    + eexists. rewrite <- !app_assoc. repeat split; congruence.
    + specialize (Hdata eq_refl).
      destruct (List.length (firstn 16 bytes)) eqn:L.
      { apply length_zero_iff_nil in L. contradiction. }
      simpl. eexists. rewrite <- !app_assoc. split; [reflexivity|].
      split; [reflexivity|]. intros _.
      assert (C : C.cstring (C.store (C.overwrite (firstn 16 bytes) buf) n C.NUL)
                  = C.cstring (removelast (firstn 16 bytes))).
      { apply cstring_strip. exact L. }
      split; [exact C|]. intros F. rewrite C. apply cstring_no_nul. exact F.
  - assert (G : (delay >? 0) = true) by (rewrite Z.gtb_ltb; apply Z.ltb_lt; lia).
    assert (Z : (delay =? 0) = false) by (apply Z.eqb_neq; exact Hd).
    rewrite G, E, Z. simpl. rewrite W. destruct err; simpl.
    + eexists. rewrite <- !app_assoc. repeat split; congruence.
    + specialize (Hdata eq_refl).
      destruct (List.length (firstn 16 bytes)) eqn:L.
      { apply length_zero_iff_nil in L. contradiction. }
      simpl. eexists. rewrite <- !app_assoc. split; [reflexivity|].
      split; [reflexivity|]. intros _.
      assert (C : C.cstring (C.store (C.overwrite (firstn 16 bytes) buf) n C.NUL)
                  = C.cstring (removelast (firstn 16 bytes))).
      { apply cstring_strip. exact L. }
      split; [exact C|]. intros F. rewrite C. apply cstring_no_nul. exact F.
Qed.

End ReadBehaviour.

Lemma s7150_read_behaviour_witness :
  0 <= 5 /\
  5 * 100000 <= INT_MAX /\
  (fst (w_ibrd bench (n_ibrd initial_state)) = false ->
   firstn 16 (snd (w_ibrd bench (n_ibrd initial_state))) <> []) /\
  exists buf',
    fst (s7150_read bench 16 5 Buffer1 [] initial_state) = Val (1, buf') /\
    trace (snd (s7150_read bench 16 5 Buffer1 [] initial_state))
    = trace initial_state ++ read_trace 16 5 Buffer1 false reading /\
    (false = false ->
     C.cstring buf' = C.cstring (removelast reading) /\
     (Forall (fun c => c <> C.NUL) (removelast reading) ->
      C.cstring buf' = string_of_list_ascii (removelast reading))).
Proof.
  split; [lia|]. split; [vm_compute; discriminate|].
  split; [intros _; vm_compute; discriminate|].
  apply (s7150_read_behaviour bench 16 5 Buffer1 [] initial_state).
  - lia.
  - vm_compute. discriminate.
  - intros _. vm_compute. discriminate.
Defined.

(** The call of the witness: half a second of sleep, one read of 16 bytes,
    and the reading without its carriage return in the buffer. *)
Example s7150_read_run :
  let r := s7150_read bench 16 5 Buffer1 [] initial_state in
  trace (snd r) = [Call_s7150_read 16 5 Buffer1; Usleep 500000;
                   Ibrd 16 16 false reading] /\
  match fst r with
  | Val (c, b) => c = 1 /\ C.cstring b = "+1.23456E+0 VDC"%string
  | _ => False
  end.
Proof. vm_compute. auto. Qed.

(** ** C7: the second instrument cannot be opened *)

(** Claim C7 does not hold as stated: in a run in which the second call of
    [s7150_open] fails, the output file was opened and [fclose] is never
    called on it; the file is still open when [main] returns. *)
Lemma outfile_left_open_after_open_failure :
  let tr := trace (snd (run bench_bad_second_address argv_default 10)) in
  second_open_failed tr /\ outfile_left_open tr.
Proof.
  split; [|split].
  - exists 16, 16, 12. vm_compute. reflexivity.
  - exists "out.dat"%string. vm_compute. auto.
  - intros H. vm_compute in H.
    repeat (destruct H as [H|H]; [discriminate H|]). exact H.
Qed.

(** Claim C7, amended.  In a run in which gnuplot was launched and the
    second call of [s7150_open] returns 0, the program returns [ERR_INST],
    which is 5 and differs from the code 1 of a usage error and from
    [ERR_FILE]; the last things it does are the message [Quit.] on stderr
    and the [pclose] of gnuplot; it writes no line at all to the output
    file, so no Sample Record; and it does not close the output file: the
    file was opened and [fclose] is not called, so the file is released
    only when the process ends. *)
Theorem second_open_failure_exit (w : World) (argv : list string)
    (fuel : nat) :
  (forall cmd, w_popen w cmd = true) ->
  second_open_failed (trace (snd (run w argv fuel))) ->
  fst (run w argv fuel) = Return ERR_INST /\
  ERR_INST <> 1 /\ ERR_INST <> ERR_FILE /\
  (exists pre, trace (snd (run w argv fuel)) = pre ++ [Stderr Quit; Pclose]) /\
  out_lines (trace (snd (run w argv fuel))) = [] /\
  outfile_left_open (trace (snd (run w argv fuel))).
Proof.
  intros G S.
  destruct (configured_cases w argv fuel) as [[v C]|C].
  - destruct (run_wp w argv fuel v _ C
                (main_configured_open_failure w G argv fuel v))
      as [_ [evs0 [evs [T [F0 H]]]]].
    rewrite T in *.
    assert (O0 : opens (Stderr Disclaimer :: evs0) = []).
    { apply (options_event_no_open (Stderr Disclaimer :: evs0)).
      constructor; [exact I|exact F0]. }
    assert (L0 : Forall leaves_outfile (Stderr Disclaimer :: evs0)).
    { apply options_event_leaves_outfile. constructor; [exact I|exact F0]. }
    destruct (leaves_outfile_quiet _ L0) as [Q0 N0].
    assert (S' : second_open_failed evs).
    { destruct S as [p1 [d1 [p2 E]]]. exists p1, d1, p2.
      change (Stderr Disclaimer :: evs0 ++ evs)
        with ((Stderr Disclaimer :: evs0) ++ evs) in E.
      rewrite opens_app, O0 in E. exact E. }
    destruct (H S') as [R [[pre E] [O [[f I] N]]]].
    split; [exact R|]. split; [discriminate|]. split; [discriminate|].
    split; [exists (Stderr Disclaimer :: evs0 ++ pre); rewrite E;
            simpl; rewrite app_assoc; reflexivity|].
    change (Stderr Disclaimer :: evs0 ++ evs)
      with ((Stderr Disclaimer :: evs0) ++ evs).
    split; [rewrite out_lines_app, Q0, O; reflexivity|].
    split.
    + exists f. apply in_or_app. right. exact I.
    + intros HI. apply in_app_or in HI. destruct HI as [HI|HI].
      * rewrite Forall_forall in N0. exact (N0 _ HI eq_refl).
      * rewrite Forall_forall in N. exact (N _ HI eq_refl).
  - destruct (run_not_configured w argv fuel C) as [F _].
    destruct S as [p1 [d1 [p2 E]]].
    rewrite (options_event_no_open _ F) in E. discriminate.
Qed.

Lemma second_open_failure_exit_witness :
  (forall cmd, w_popen bench_bad_second_address cmd = true) /\
  second_open_failed
    (trace (snd (run bench_bad_second_address argv_default 10))) /\
  (fst (run bench_bad_second_address argv_default 10) = Return ERR_INST /\
   ERR_INST <> 1 /\ ERR_INST <> ERR_FILE /\
   (exists pre, trace (snd (run bench_bad_second_address argv_default 10))
                = pre ++ [Stderr Quit; Pclose]) /\
   out_lines (trace (snd (run bench_bad_second_address argv_default 10))) = [] /\
   outfile_left_open
     (trace (snd (run bench_bad_second_address argv_default 10)))).
Proof.
  assert (S : second_open_failed
                (trace (snd (run bench_bad_second_address argv_default 10)))).
  { exists 16, 16, 12. vm_compute. reflexivity. }
  split; [reflexivity|]. split; [exact S|].
  apply (second_open_failure_exit bench_bad_second_address argv_default 10).
  - reflexivity.
  - exact S.
Defined.

(** The run of the witness, and the same run without gnuplot: there the
    error exit calls [pclose] on a null pointer. *)
Example second_open_failure_run :
  trace (snd (run bench_bad_second_address argv_default 10))
  = [Stderr Disclaimer; Access "out.dat"%string false;
     Fopen "out.dat"%string true; Popen GNUPLOT true;
     Fprintf_gp (GpStyle "out.dat"%string); Fprintf_gp (GpLabels "V"%string);
     Fprintf_gp (GpY2 "mA"%string); Fflush_gp; Init_keyboard;
     Call_s7150_open 16; Ibdev 16 16; Ibwrt 16 ("A" ++ nl)%string false;
     Sleep 2; Ibwrt 16 ("U7N0T1" ++ nl)%string false; Ret_s7150_open 16 16;
     Call_s7150_open 12; Ibdev 12 (-1); Stderr (ErrOpen 12);
     Ret_s7150_open 12 0; Stderr Quit; Pclose] /\
  fst (run (with_popen (fun _ => false) bench_bad_second_address)
         argv_default 10)
  = Undefined PcloseNull.
Proof. vm_compute. auto. Qed.

(** ** C8: gnuplot cannot be launched *)

(** Claim C8, the code where it falls short of it.  [popen] starts a shell
    and hands back a stream whenever the pipe and the shell process could be
    made, also when the command the shell is to run does not exist: [gp] is
    [NULL] only if that much fails.  [main] tests [gp] against [NULL] and
    nothing else.  So in every session that wants plots and whose [popen]
    answers with a stream, as it does when gnuplot is missing from the
    machine, no failure to launch gnuplot is ever reported, and if the run
    gets as far as the launch, the launch is followed at once by the
    directives that set up the display, written to the pipe and flushed,
    and then by the session with plotting still switched on.  What a
    flushed write to a pipe without a reader does to the process, the
    signal SIGPIPE, is the operating system's and is not part of this
    embedding, in which every write to the pipe succeeds. *)
Theorem missing_gnuplot_is_not_detected (w : World) (argv : list string)
    (fuel : nat) (v : locals) :
  configured w argv fuel = Val v ->
  w_popen w (gnuplot v) = true ->
  do_graph v = true ->
  let tr := trace (snd (run w argv fuel)) in
  ~ In (Stderr CannotLaunchGnuplot) tr /\
  ((forall cmd gp, ~ In (Popen cmd gp) tr) \/
   exists filename pre post,
     tr = pre ++ Popen (gnuplot v) true
            :: gnuplot_setup v filename ++ Init_keyboard :: post).
Proof.
  intros C G D tr. subst tr.
  destruct (run_wp w argv fuel v _ C
              (main_configured_undetected w argv fuel v G D))
    as [_ [evs0 [evs [T [F0 [N H]]]]]].
  assert (N0 : Forall no_launch_report (Stderr Disclaimer :: evs0)
               /\ Forall no_popen (Stderr Disclaimer :: evs0)).
  { split; (constructor; [exact I|]); (eapply Forall_impl; [|exact F0]);
      intros []; simpl; try tauto; destruct m; simpl; tauto. }
  destruct N0 as [N0 P0].
  change (Stderr Disclaimer :: evs0 ++ evs)
    with ((Stderr Disclaimer :: evs0) ++ evs) in T.
  rewrite T. split.
  - intros HI. apply in_app_or in HI.
    rewrite Forall_forall in N0, N.
    destruct HI as [HI|HI]; [apply N0 in HI|apply N in HI]; exact HI.
  - destruct H as [H|[filename [pre [post ->]]]].
    + left. intros cmd gp HI. apply in_app_or in HI.
      rewrite Forall_forall in P0, H.
      destruct HI as [HI|HI]; [apply P0 in HI|apply H in HI]; exact HI.
    + right. exists filename, ((Stderr Disclaimer :: evs0) ++ pre), post.
      rewrite <- app_assoc. reflexivity.
Qed.

Lemma missing_gnuplot_is_not_detected_witness :
  configured bench argv_default 10 = Val defaults /\
  w_popen bench (gnuplot defaults) = true /\
  do_graph defaults = true /\
  ~ In (Stderr CannotLaunchGnuplot) (trace (snd (run bench argv_default 10))) /\
  ((forall cmd gp,
       ~ In (Popen cmd gp) (trace (snd (run bench argv_default 10)))) \/
   exists filename pre post,
     trace (snd (run bench argv_default 10))
     = pre ++ Popen (gnuplot defaults) true
         :: gnuplot_setup defaults filename ++ Init_keyboard :: post).
Proof.
  split; [vm_compute; reflexivity|]. split; [reflexivity|].
  split; [reflexivity|].
  apply (missing_gnuplot_is_not_detected bench argv_default 10 defaults);
    [vm_compute; reflexivity|reflexivity|reflexivity].
Defined.

(** The run on the bench, where [popen] answers with a stream: the launch
    is reached, and the display is set up through the pipe before the
    keyboard is touched. *)
Example launch_on_the_bench :
  exists pre post,
    trace (snd (run bench argv_default 10))
    = pre ++ Popen "gnuplot" true :: gnuplot_setup defaults "out.dat"
        ++ Init_keyboard :: post.
Proof. vm_compute. eexists [_; _; _], _. reflexivity. Qed.

(** ** C9: a flush interval of zero *)

(** Claim C9.  The flush test [loop % do_flush] is defined exactly when the
    flush interval, as an [unsigned long], is not zero.  The command line
    [-w 0] is accepted, whatever the world: the settings are the defaults
    with [do_flush = 0].  With these settings the body of the loop cannot
    complete an iteration: if both reads succeed it writes its Sample
    Record and then evaluates the modulo with divisor 0, with nothing that
    tests the divisor before; otherwise it has ended before on a read
    error or on the undefined behaviour of a read.  On the bench the run
    with [-w 0] ends in this modulo in its first iteration, after one
    Sample Record. *)
Theorem flush_interval_zero_is_unguarded :
  (forall loop N, flush_due loop N = None <-> C.to_ulong N = 0) /\
  (forall (w : World) (fuel : nat),
      configured w argv_flush0 (2 + fuel) = Val (set_do_flush 0 defaults)) /\
  (forall (w : World) v filename gp dvm1 dvm2 t0 l key b1 b2,
      do_flush v = 0 ->
      wp (acquire_body w v filename gp dvm1 dvm2 t0 l key b1 b2)
         stops_at_modulo) /\
  fst (run bench argv_flush0 10) = Undefined ModuloByZero /\
  iterations (trace (snd (run bench argv_flush0 10))) = 1%nat /\
  records (trace (snd (run bench argv_flush0 10))) = 1%nat.
Proof.
  split; [|split; [|split; [|split; [|split]]]].
  - apply flush_due_defined.
  - intros w fuel. vm_compute. reflexivity.
  - intros. apply acquire_body_flush_zero. assumption.
  - vm_compute. reflexivity.
  - vm_compute. reflexivity.
  - vm_compute. reflexivity.
Qed.

(** ** C10: the halving truncates *)

(** Claim C10.  The halving of the delay truncates: for every odd delay [d]
    of the accepted range 0..600 the halved delay is [(d - 1) / 2], and
    twice the halved delay is [d - 1], not [d].  In particular a delay of 1
    is halved to 0.  In a session with a delay of 1 every call of
    [s7150_read] is handed the delay 0 and every call of [s7150_setup] the
    sampling frequency [10.0 / 0], which is infinity and selects the
    integration code 0; a read with the delay 0 never sleeps.  The command
    line [-t 1] gives such a session. *)
Theorem delay_halving_truncates :
  (forall d, 0 <= d <= 600 -> Z.odd d = true ->
             halve d = (d - 1) / 2 /\ 2 * halve d = d - 1) /\
  halve 1 = 0 /\
  (forall (w : World) (dvm : Z) (id : bufid) (buf : list ascii),
      only no_sleep any (s7150_read w dvm (halve 1) id buf)) /\
  (10 / C.double_of_Z (halve 1))%float = infinity /\
  sampling_freq (halve 1) = infinity /\
  integration (sampling_freq (halve 1)) = 0 /\
  (forall (w : World) (argv : list string) (fuel : nat) (v : locals),
      configured w argv fuel = Val v -> delay v = 1 ->
      Forall free_running (trace (snd (run w argv fuel)))) /\
  (forall (w : World) (fuel : nat),
      configured w argv_delay1 (2 + fuel) = Val (set_delay 1 defaults)).
Proof.
  split; [|split; [|split; [|split; [|split; [|split; [|split]]]]]].
  - intros d Hd Ho.
    assert (H := proj1 (forallb_forall _ _) halve_odd_table d (in_delays d Hd)).
    cbv beta in H. rewrite Ho in H. simpl in H.
    apply andb_true_iff in H. destruct H as [H1 H2].
    apply Z.eqb_eq in H1, H2. auto.
  - vm_compute. reflexivity.
  - intros w dvm id buf. change (halve 1) with 0.
    unfold s7150_read. change (0 >? 0) with false. cbv iota.
    repeat only_step.
  - vm_compute. reflexivity.
  - vm_compute. reflexivity.
  - vm_compute. reflexivity.
  - intros w argv fuel v C D.
    destruct (run_uses_halved w argv fuel v C) as [_ F].
    eapply Forall_impl; [|exact F]. rewrite D.
    intros [] H; simpl in *; try exact I; rewrite H; vm_compute; reflexivity.
  - intros w fuel. vm_compute. reflexivity.
Qed.

(** A run with [-t 1] on the bench: the frequency handed to the setup is
    infinity, the reads are handed the delay 0, and the only sleeps are
    those of the last wait for a key. *)
Example delay_one_run :
  let tr := trace (snd (run bench argv_delay1 10)) in
  In (Call_s7150_setup 16 1 0 0 infinity) tr /\
  In (Call_s7150_read 16 0 Buffer1) tr /\
  existsb (fun e => match e with
                    | Usleep 100000 => false
                    | Usleep _ => true
                    | _ => false
                    end) tr = false.
Proof.
  vm_compute. repeat split; repeat (first [left; reflexivity | right]).
Qed.

(** * Further properties of the program *)

(** ** Pure functions *)

(** X1.  [strclean] cuts its buffer at the first line feed or carriage
    return: the buffer is what is kept followed by a rest that is empty or
    starts with one of the two; what is kept holds neither; a buffer that
    holds neither is kept whole; cleaning twice is cleaning once; and the
    length it reports is never more than the length it was given. *)
Theorem strclean_cuts_at_first_eol (buf : string) :
  (exists rest,
      buf = (strclean buf ++ rest)%string /\
      (rest = EmptyString \/ is_eol (C.deref rest) = true)) /\
  forallb (fun c => negb (is_eol c)) (list_ascii_of_string (strclean buf))
  = true /\
  (forallb (fun c => negb (is_eol c)) (list_ascii_of_string buf) = true ->
   strclean buf = buf) /\
  strclean (strclean buf) = strclean buf /\
  C.strlen (strclean buf) <= C.strlen buf.
Proof.
  unfold C.strlen.
  induction buf as [|c r [[rest [E R]] [N [K [I L]]]]]; simpl.
  - repeat split; try reflexivity; try lia. exists EmptyString. auto.
  - fold (is_eol c). destruct (is_eol c) eqn:Hc; simpl.
    + repeat split; try reflexivity; try lia; try discriminate.
      exists (String c r). split; [reflexivity|]. right. exact Hc.
    + fold (is_eol c). rewrite Hc. simpl. repeat split.
      * exists rest. split; [congruence|exact R].
      * exact N.
      * intros H. rewrite (K H). reflexivity.
      * rewrite I. reflexivity.
      * lia.
Qed.

Lemma integration_table :
  forallb (fun d => integration (sampling_freq (halve d))
                    =? integration_of_delay d) delays = true.
Proof. vm_compute. reflexivity. Qed.

(** X13.  For a delay [d] of the accepted range the integration code sent
    to the instruments is 0 for [d < 2], 1 for [2 <= d < 14], 3 for
    [14 <= d < 82] and 4 from 82 on. *)
Theorem integration_code_of_delay (d : Z) :
  0 <= d <= 600 ->
  integration (sampling_freq (halve d)) = integration_of_delay d.
Proof.
  intros H. apply Z.eqb_eq.
  exact (proj1 (forallb_forall _ _) integration_table d (in_delays d H)).
Qed.

Lemma integration_code_of_delay_witness :
  0 <= 10 <= 600 /\
  integration (sampling_freq (halve 10)) = integration_of_delay 10.
Proof.
  split; [lia|]. apply (integration_code_of_delay 10). lia.
Defined.

Lemma negative_flush_interval_never_due (N l : Z) :
  - 2 ^ 63 <= N < 0 -> 0 < l < 2 ^ 64 + N ->
  C.to_ulong N = 2 ^ 64 + N /\ flush_due l N = Some false.
Proof.
  intros HN Hl.
  assert (U : C.to_ulong N = 2 ^ 64 + N).
  { unfold C.to_ulong, C.ULONG_WIDTH.
    rewrite <- (Z.mod_add N 1 (2 ^ 64)) by lia.
    rewrite Z.mod_small; lia. }
  split; [exact U|]. unfold flush_due. rewrite U.
  destruct (2 ^ 64 + N =? 0) eqn:E; [apply Z.eqb_eq in E; lia|].
  rewrite Z.mod_small by lia.
  destruct (l =? 0) eqn:E'; [apply Z.eqb_eq in E'; lia|reflexivity].
Qed.

(** ** The command line scanner *)

Lemma set_getopt_same (s : State) :
  letP s = None -> set_getopt (optind s) None s = s.
Proof. destruct s; simpl; intros ->; reflexivity. Qed.

Lemma nth_error_lt {A} (l : list A) (n : nat) (a : A) :
  nth_error l n = Some a -> (n <? List.length l)%nat = true.
Proof.
  intros H. apply Nat.ltb_lt. apply nth_error_Some. congruence.
Qed.

Lemma GetOpt_pending (argv : list string) (optionS : string) (s : State)
    (q : string) :
  pending argv s = Some q ->
  GetOpt argv optionS s = GetOpt_letter argv optionS (optind s) q s.
Proof.
  unfold pending, GetOpt, bind, gets.
  destruct (optind s <? List.length argv)%nat; [|discriminate].
  destruct (letP s) as [p|]; [intros [= ->]; reflexivity|].
  destruct (nth_error argv (optind s)) as [[|c a]|]; try discriminate.
  cbn [C.next]. change (C.deref (String c a)) with c.
  destruct (Ascii.eqb c SW); cbn [negb andb]; [|discriminate].
  destruct (Ascii.eqb (C.deref a) SW); cbn [negb]; [discriminate|].
  intros [= ->]. reflexivity.
Qed.

(** X2.  Outside a cluster [GetOpt] ends the options with [EOF] in four
    cases.  When no argument is left, or the next argument does not start
    with the switch character (an empty argument included), nothing
    changes: [optind] stays on that argument.  When the next argument
    starts with two switch characters, or is the switch character alone,
    [optind] steps over it; the lone switch character is no error. *)
Theorem GetOpt_end_of_options (argv : list string) (optionS : string)
    (s : State) :
  letP s = None ->
  ((List.length argv <= optind s)%nat ->
   GetOpt argv optionS s = (Val (EOF, None), s)) /\
  (forall a, nth_error argv (optind s) = Some a -> C.deref a <> SW ->
             GetOpt argv optionS s = (Val (EOF, None), s)) /\
  (forall r, nth_error argv (optind s) = Some (String SW (String SW r)) ->
             GetOpt argv optionS s
             = (Val (EOF, None), set_getopt (S (optind s)) None s)) /\
  (nth_error argv (optind s) = Some (String SW EmptyString) ->
   GetOpt argv optionS s
   = (Val (EOF, None), set_getopt (S (optind s)) None s)).
Proof.
  intros L. unfold GetOpt, gopEOF, bind, gets, modify, ret. rewrite L.
  split; [|split; [|split]].
  - intros H. apply Nat.ltb_ge in H. rewrite H.
    rewrite (set_getopt_same s L). reflexivity.
  - intros a Ha Hs. rewrite (nth_error_lt _ _ _ Ha), Ha.
    destruct (Ascii.eqb_spec (C.deref a) SW); [contradiction|]. simpl.
    rewrite (set_getopt_same s L). reflexivity.
  - intros r Ha. rewrite (nth_error_lt _ _ _ Ha), Ha. reflexivity.
  - intros Ha. rewrite (nth_error_lt _ _ _ Ha), Ha. reflexivity.
Qed.

Lemma GetOpt_end_of_options_witness :
  letP initial_state = None /\
  (((List.length argv_default <= optind initial_state)%nat ->
    GetOpt argv_default optionS initial_state
    = (Val (EOF, None), initial_state)) /\
   (forall a, nth_error argv_default (optind initial_state) = Some a ->
              C.deref a <> SW ->
              GetOpt argv_default optionS initial_state
              = (Val (EOF, None), initial_state)) /\
   (forall r, nth_error argv_default (optind initial_state)
              = Some (String SW (String SW r)) ->
              GetOpt argv_default optionS initial_state
              = (Val (EOF, None),
                 set_getopt (S (optind initial_state)) None initial_state)) /\
   (nth_error argv_default (optind initial_state)
    = Some (String SW EmptyString) ->
    GetOpt argv_default optionS initial_state
    = (Val (EOF, None),
       set_getopt (S (optind initial_state)) None initial_state))).
Proof.
  split; [reflexivity|].
  apply (GetOpt_end_of_options argv_default optionS initial_state).
  reflexivity.
Defined.

Example GetOpt_end_of_options_runs :
  GetOpt argv_default optionS initial_state = (Val (EOF, None), initial_state)
  /\ GetOpt argv_dashes optionS initial_state
     = (Val (EOF, None), set_getopt 2 None initial_state)
  /\ GetOpt ["s7150duo"; "-"]%string optionS initial_state
     = (Val (EOF, None), set_getopt 2 None initial_state)
  /\ GetOpt ["s7150duo"]%string optionS initial_state
     = (Val (EOF, None), initial_state).
Proof. repeat split; reflexivity. Qed.

(** X3.  A letter that [optionS] gives with a colon takes an argument.
    When characters follow the letter in its cluster they are the argument
    and [optind] steps to the next argument of the command line; when none
    follow, the next argument of the command line is taken and [optind]
    steps over both; when there is none, [GetOpt] reports an error and
    yields [~]. *)
Theorem GetOpt_argument_letter (argv : list string) (optionS : string)
    (s : State) (c : ascii) (rest p : string) :
  pending argv s = Some (String c rest) ->
  c <> C.NUL -> c <> ":"%char ->
  C.strchr optionS c = Some p -> C.deref (C.next p) = ":"%char ->
  (forall r0 rest', rest = String r0 rest' -> r0 <> C.NUL ->
     GetOpt argv optionS s
     = (Val (C.code c, Some rest), set_getopt (S (optind s)) None s)) /\
  (rest = EmptyString ->
   forall a, nth_error argv (S (optind s)) = Some a ->
     GetOpt argv optionS s
     = (Val (C.code c, Some a), set_getopt (S (S (optind s))) None s)) /\
  (rest = EmptyString -> nth_error argv (S (optind s)) = None ->
   GetOpt argv optionS s
   = (Val (C.code "~", None), perror_state (S (optind s)) EmptyString s)).
Proof.
  intros P Hc Hcolon Hs Hp. rewrite (GetOpt_pending _ _ _ _ P).
  unfold GetOpt_letter, gopError, perror_state.
  cbv zeta. change (C.deref (String c rest)) with c.
  change (C.next (String c rest)) with rest.
  destruct (Ascii.eqb_spec c C.NUL); [contradiction|].
  destruct (Ascii.eqb_spec c ":"); [contradiction|].
  rewrite Hs, Hp. change (Ascii.eqb ":" ":") with true. cbv iota.
  split; [|split].
  - intros r0 rest' -> H0. unfold C.deref.
    destruct (Ascii.eqb_spec r0 C.NUL); [contradiction|]. reflexivity.
  - intros -> a Ha. change (Ascii.eqb (C.deref EmptyString) C.NUL) with true.
    cbv iota. rewrite Ha. reflexivity.
  - intros -> Ha. change (Ascii.eqb (C.deref EmptyString) C.NUL) with true.
    cbv iota. rewrite Ha. reflexivity.
Qed.

Lemma GetOpt_argument_letter_witness :
  pending argv_delay7 initial_state = Some "t"%string /\
  "t"%char <> C.NUL /\ "t"%char <> ":"%char /\
  C.strchr optionS "t" = Some "t:T:m:c:M:g:"%string /\
  C.deref (C.next "t:T:m:c:M:g:"%string) = ":"%char /\
  ((forall r0 rest', EmptyString = String r0 rest' -> r0 <> C.NUL ->
      GetOpt argv_delay7 optionS initial_state
      = (Val (C.code "t", Some EmptyString),
         set_getopt (S (optind initial_state)) None initial_state)) /\
   (EmptyString = EmptyString ->
    forall a, nth_error argv_delay7 (S (optind initial_state)) = Some a ->
      GetOpt argv_delay7 optionS initial_state
      = (Val (C.code "t", Some a),
         set_getopt (S (S (optind initial_state))) None initial_state)) /\
   (EmptyString = EmptyString ->
    nth_error argv_delay7 (S (optind initial_state)) = None ->
    GetOpt argv_delay7 optionS initial_state
    = (Val (C.code "~", None),
       perror_state (S (optind initial_state)) EmptyString initial_state))).
Proof.
  split; [reflexivity|]. split; [discriminate|]. split; [discriminate|].
  split; [reflexivity|]. split; [reflexivity|].
  apply (GetOpt_argument_letter argv_delay7 optionS initial_state "t"
           EmptyString "t:T:m:c:M:g:").
  - reflexivity.
  - discriminate.
  - discriminate.
  - reflexivity.
  - reflexivity.
Defined.

Example GetOpt_argument_letter_runs :
  fst (GetOpt argv_delay7 optionS initial_state)
  = Val (C.code "t", Some "7"%string)
  /\ optind (snd (GetOpt argv_delay7 optionS initial_state)) = 3%nat
  /\ fst (GetOpt ["s7150duo"; "-t7"; "out.dat"]%string optionS initial_state)
     = Val (C.code "t", Some "7"%string)
  /\ optind (snd (GetOpt ["s7150duo"; "-t7"; "out.dat"]%string optionS
                    initial_state)) = 2%nat
  /\ fst (GetOpt ["s7150duo"; "-t"]%string optionS initial_state)
     = Val (C.code "~", None).
Proof. repeat split; reflexivity. Qed.

(** X4.  A letter that [optionS] gives without a colon is yielded without
    argument.  When it is the last of its cluster [optind] steps to the
    next argument; otherwise [optind] stays and the letters that follow
    are what [GetOpt] looks at next, so that a cluster of flags is yielded
    letter by letter. *)
Theorem GetOpt_flag_letter (argv : list string) (optionS : string)
    (s : State) (c : ascii) (rest p : string) :
  pending argv s = Some (String c rest) ->
  c <> C.NUL -> c <> ":"%char ->
  C.strchr optionS c = Some p -> C.deref (C.next p) <> ":"%char ->
  (rest = EmptyString ->
   GetOpt argv optionS s
   = (Val (C.code c, None), set_getopt (S (optind s)) None s)) /\
  (forall r0 rest', rest = String r0 rest' -> r0 <> C.NUL ->
     GetOpt argv optionS s
     = (Val (C.code c, None), set_getopt (optind s) (Some rest) s) /\
     pending argv (set_getopt (optind s) (Some rest) s) = Some rest).
Proof.
  intros P Hc Hcolon Hs Hp. rewrite (GetOpt_pending _ _ _ _ P).
  unfold GetOpt_letter.
  cbv zeta. change (C.deref (String c rest)) with c.
  change (C.next (String c rest)) with rest.
  destruct (Ascii.eqb_spec c C.NUL); [contradiction|].
  destruct (Ascii.eqb_spec c ":"); [contradiction|].
  rewrite Hs.
  destruct (Ascii.eqb_spec (C.deref (C.next p)) ":"); [contradiction|].
  split.
  - intros ->. reflexivity.
  - intros r0 rest' -> H0. unfold C.deref.
    destruct (Ascii.eqb_spec r0 C.NUL); [contradiction|].
    split; [reflexivity|].
    unfold pending in *. simpl.
    destruct (optind s <? List.length argv)%nat; [reflexivity|discriminate].
Qed.

Lemma GetOpt_flag_letter_witness :
  pending argv_flags initial_state = Some "fn"%string /\
  "f"%char <> C.NUL /\ "f"%char <> ":"%char /\
  C.strchr optionS "f" = Some "fnda:A:w:t:T:m:c:M:g:"%string /\
  C.deref (C.next "fnda:A:w:t:T:m:c:M:g:"%string) <> ":"%char /\
  (("n"%string = EmptyString ->
    GetOpt argv_flags optionS initial_state
    = (Val (C.code "f", None),
       set_getopt (S (optind initial_state)) None initial_state)) /\
   (forall r0 rest', "n"%string = String r0 rest' -> r0 <> C.NUL ->
      GetOpt argv_flags optionS initial_state
      = (Val (C.code "f", None),
         set_getopt (optind initial_state) (Some "n"%string) initial_state) /\
      pending argv_flags
        (set_getopt (optind initial_state) (Some "n"%string) initial_state)
      = Some "n"%string)).
Proof.
  split; [reflexivity|]. split; [discriminate|]. split; [discriminate|].
  split; [reflexivity|]. split; [discriminate|].
  apply (GetOpt_flag_letter argv_flags optionS initial_state "f" "n"
           "fnda:A:w:t:T:m:c:M:g:").
  - reflexivity.
  - discriminate.
  - discriminate.
  - reflexivity.
  - discriminate.
Defined.

Example GetOpt_cluster_runs :
  configured bench argv_flags 10
  = Val (set_do_graph false (set_do_overwrite true defaults)).
Proof. reflexivity. Qed.

(** X5.  A letter that is a colon or is not in [optionS] makes [GetOpt]
    report an error on stderr and yield [~]; [optind] stays and the rest
    of the cluster is kept. *)
Theorem GetOpt_unknown_letter (argv : list string) (optionS : string)
    (s : State) (c : ascii) (rest : string) :
  pending argv s = Some (String c rest) ->
  c <> C.NUL ->
  c = ":"%char \/ C.strchr optionS c = None ->
  GetOpt argv optionS s
  = (Val (C.code "~", None), perror_state (optind s) rest s).
Proof.
  intros P Hc H. rewrite (GetOpt_pending _ _ _ _ P).
  unfold GetOpt_letter, gopError, perror_state.
  cbv zeta. change (C.deref (String c rest)) with c.
  change (C.next (String c rest)) with rest.
  destruct (Ascii.eqb_spec c C.NUL); [contradiction|].
  destruct (Ascii.eqb_spec c ":") as [E|E].
  - reflexivity.
  - destruct H as [H|H]; [contradiction|]. rewrite H. reflexivity.
Qed.

Lemma GetOpt_unknown_letter_witness :
  pending argv_unknown initial_state = Some "x"%string /\
  "x"%char <> C.NUL /\
  ("x"%char = ":"%char \/ C.strchr optionS "x" = None) /\
  GetOpt argv_unknown optionS initial_state
  = (Val (C.code "~", None),
     perror_state (optind initial_state) EmptyString initial_state).
Proof.
  split; [reflexivity|]. split; [discriminate|].
  split; [right; reflexivity|].
  apply (GetOpt_unknown_letter argv_unknown optionS initial_state "x"
           EmptyString).
  - reflexivity.
  - discriminate.
  - right. reflexivity.
Defined.

Example unknown_option_run :
  fst (run bench argv_unknown 10) = Return 1 /\
  trace (snd (run bench argv_unknown 10))
  = [Stderr Disclaimer; Stderr PerrorCommandLine;
     Stderr (HelpHint "s7150duo")].
Proof. split; reflexivity. Qed.

(** ** The option loop ends *)

Lemma weight_skipn (argv : list string) (n : nat) (a : string) :
  nth_error argv n = Some a ->
  weight (skipn n argv)
  = (1 + String.length a + weight (skipn (S n) argv))%nat.
Proof.
  revert n. induction argv as [|x r IH]; intros [|n] H; simpl in *;
    try discriminate.
  - injection H as ->. reflexivity.
  - apply IH. exact H.
Qed.

Lemma weight_skipn_le (argv : list string) (n : nat) :
  (weight (skipn (S n) argv) <= weight (skipn n argv))%nat.
Proof.
  destruct (nth_error argv n) as [a|] eqn:E.
  - rewrite (weight_skipn _ _ _ E). lia.
  - apply nth_error_None in E. rewrite !skipn_all2 by lia. lia.
Qed.

Lemma GetOpt_letter_uses_up (argv : list string) (optionS : string)
    (s : State) (oi : nat) (p : string) :
  match fst (GetOpt_letter argv optionS oi p s) with
  | Val (key, _) =>
      key = EOF \/ key = C.code "~"
      \/ (left_over argv (snd (GetOpt_letter argv optionS oi p s))
          < String.length p + weight (skipn (S oi) argv))%nat
  | _ => False
  end.
Proof.
  unfold GetOpt_letter, gopEOF, gopError, bind, modify, emit, ret.
  cbv zeta. destruct p as [|ch p']; [left; reflexivity|].
  change (C.deref (String ch p')) with ch.
  change (C.next (String ch p')) with p'.
  destruct (Ascii.eqb ch C.NUL); [left; reflexivity|].
  destruct (if Ascii.eqb ch ":" then None else C.strchr optionS ch)
    as [optP|]; [|right; left; reflexivity].
  destruct (Ascii.eqb (C.deref (C.next optP)) ":").
  - destruct (Ascii.eqb (C.deref p') C.NUL).
    + destruct (nth_error argv (S oi)) as [a|] eqn:E;
        [|right; left; reflexivity].
      right. right. unfold left_over, set_getopt. cbn [snd letP optind].
      rewrite (weight_skipn _ _ _ E). cbn [String.length]. lia.
    + right. right. unfold left_over, set_getopt.
      cbn [snd letP optind String.length]. lia.
  - destruct (Ascii.eqb (C.deref p') C.NUL).
    + right. right. unfold left_over, set_getopt.
      cbn [snd letP optind String.length]. lia.
    + right. right. unfold left_over, set_getopt.
      cbn [snd letP optind String.length]. lia.
Qed.

Lemma pending_none (argv : list string) (optionS : string) (s : State) :
  pending argv s = None ->
  fst (GetOpt argv optionS s) = Val (EOF, None).
Proof.
  unfold pending, GetOpt, gopEOF, bind, gets, modify, ret.
  destruct (optind s <? List.length argv)%nat; [|reflexivity].
  destruct (letP s); [discriminate|].
  destruct (nth_error argv (optind s)) as [[|c a]|]; try reflexivity.
  cbn [C.next]. change (C.deref (String c a)) with c.
  destruct (Ascii.eqb c SW); cbn [negb andb]; [|reflexivity].
  destruct (Ascii.eqb (C.deref a) SW); cbn [negb]; [reflexivity|discriminate].
Qed.

Lemma pending_left_over (argv : list string) (s : State) (q : string) :
  pending argv s = Some q ->
  (String.length q + weight (skipn (S (optind s)) argv)
   <= left_over argv s)%nat.
Proof.
  unfold pending, left_over.
  destruct (optind s <? List.length argv)%nat; [|discriminate].
  destruct (letP s) as [p|]; [intros [= ->]; lia|].
  destruct (nth_error argv (optind s)) as [[|c a]|] eqn:E; try discriminate.
  destruct (Ascii.eqb c SW && negb (Ascii.eqb (C.deref a) SW));
    [|discriminate].
  intros [= ->]. rewrite (weight_skipn _ _ _ E). simpl. lia.
Qed.

Lemma GetOpt_uses_up (argv : list string) (optionS : string) (s : State) :
  uses_up argv s (GetOpt argv optionS s).
Proof.
  unfold uses_up. destruct (pending argv s) as [q|] eqn:P.
  - rewrite (GetOpt_pending _ _ _ _ P).
    assert (H := GetOpt_letter_uses_up argv optionS s (optind s) q).
    assert (L := pending_left_over _ _ _ P).
    destruct (fst (GetOpt_letter argv optionS (optind s) q s))
      as [[key oa]| | |]; try contradiction.
    destruct H as [H|[H|H]]; auto. right. right. lia.
  - rewrite (pending_none _ optionS _ P). left. reflexivity.
Qed.

Ltac options_branch R :=
  repeat lazymatch goal with
  | |- fst (options _ _ _ _ _) <> _ =>
      apply R;
      match goal with
      | H : is_key _ _ = true |- _ =>
          unfold is_key in H; apply Z.eqb_eq in H; rewrite H;
          vm_compute; discriminate
      end
  | |- fst ((if ?b then _ else _) _) <> _ => destruct b eqn:?
  | |- fst ((match ?x with _ => _ end) _) <> _ => destruct x eqn:?
  | |- fst (bind _ _ _) <> _ =>
      unfold bind at 1, emit, return_, undefined_, ret, strcpy; cbn [fst snd]
  | |- fst (let (_, _) := (if ?b then _ else _) _ in _) <> _ =>
      destruct b eqn:?; unfold ret, undefined_
  | |- _ => cbv beta iota; cbn [fst]; discriminate
  end.

Lemma options_terminates (w : World) (argv : list string) :
  forall (fuel : nat) (v : locals) (s : State),
    (left_over argv s < fuel)%nat ->
    fst (options w fuel argv v s) <> OutOfFuel.
Proof.
  induction fuel as [|fuel IH]; intros v s Hf; [lia|].
  cbn [options]. unfold bind at 1.
  assert (U := GetOpt_uses_up argv optionS s). unfold uses_up in U.
  destruct (GetOpt argv optionS s) as [r s'].
  cbn [fst snd] in U. destruct r as [[key optarg]| | |]; try contradiction.
  destruct (key =? EOF) eqn:K; [discriminate|]. apply Z.eqb_neq in K.
  assert (R : forall v', key <> C.code "~" ->
                fst (options w fuel argv v' s') <> OutOfFuel).
  { intros v' K2. apply IH.
    destruct U as [U|[U|U]]; [contradiction|contradiction|lia]. }
  clear IH U Hf. cbv zeta.
  options_branch R.
Qed.

(** X6.  The option loop of [main] ends: with more fuel than there are
    arguments after the program name and characters in them, it does not
    run out of fuel (each call of [GetOpt] that yields an option uses up
    some of the command line). *)
Theorem option_loop_terminates (w : World) (argv : list string)
    (fuel : nat) :
  (weight (skipn 1 argv) < fuel)%nat ->
  configured w argv fuel <> OutOfFuel.
Proof.
  intros H. unfold configured, bind at 1, emit. cbn [fst snd].
  apply options_terminates. exact H.
Qed.

Lemma option_loop_terminates_witness :
  (weight (skipn 1 argv_delay7) < 20)%nat /\
  configured bench argv_delay7 20 <> OutOfFuel.
Proof.
  split; [simpl; lia|].
  apply (option_loop_terminates bench argv_delay7 20). simpl. lia.
Defined.

(** ** What the option loop has checked *)

Lemma isdigit_range (c : ascii) :
  C.isdigit c = true -> 0 <= C.code c - 48 <= 9.
Proof.
  unfold C.isdigit. intros H. apply andb_true_iff in H.
  destruct H as [H1 H2]. apply Z.leb_le in H1, H2. lia.
Qed.

Lemma scan_digits_bound (w : nat) :
  forall (s : string) (acc : option Z) (b x : Z),
    0 < b ->
    match acc with Some a => 0 <= a < b | None => True end ->
    C.scan_digits w s acc = Some x ->
    0 <= x < b * 10 ^ Z.of_nat w.
Proof.
  induction w as [|w IH]; intros s acc b x Hb Ha H.
  - simpl in H. subst acc. cbv beta iota in Ha.
    change (Z.of_nat 0) with 0. rewrite Z.pow_0_r. lia.
  - destruct s as [|c r].
    + simpl in H. subst acc. cbv beta iota in Ha.
      assert (0 < 10 ^ Z.of_nat (S w)) by (apply Z.pow_pos_nonneg; lia). nia.
    + cbn [C.scan_digits] in H. destruct (C.isdigit c) eqn:D.
      * apply isdigit_range in D.
        rewrite Nat2Z.inj_succ, Z.pow_succ_r by lia.
        apply (IH r _ (b * 10)) in H; [lia|lia|].
        destruct acc as [a|]; cbv beta iota in *; lia.
      * subst acc. cbv beta iota in Ha.
        assert (0 < 10 ^ Z.of_nat (S w)) by (apply Z.pow_pos_nonneg; lia).
        nia.
Qed.

Lemma sscanf_5d_range (s : string) (x : Z) :
  C.sscanf_5d s = Some x -> -9999 <= x <= 99999.
Proof.
  unfold C.sscanf_5d.
  assert (D : forall w t y, C.scan_digits w t None = Some y ->
                            0 <= y < 10 ^ Z.of_nat w).
  { intros w t y H.
    assert (G := scan_digits_bound w t None 1 y ltac:(lia) I H). lia. }
  destruct (C.skip_space s) as [|c r] eqn:E.
  - intros H. apply D in H. simpl in H. lia.
  - destruct (Ascii.ascii_dec c "-") as [->|N1].
    + destruct (C.scan_digits 4 r None) as [y|] eqn:S; [|discriminate].
      intros [= <-]. apply D in S. simpl in S. lia.
    + destruct (Ascii.ascii_dec c "+") as [->|N2].
      * intros H. apply D in H. simpl in H. lia.
      * intros H.
        assert (H' : C.scan_digits 5 (String c r) None = Some x).
        { destruct c as [[] [] [] [] [] [] [] []]; try exact H;
            contradiction. }
        apply D in H'. simpl in H'. lia.
Qed.

Lemma scan_int_range (optarg : option string) (old lo hi : Z) :
  lo <= -9999 -> 99999 <= hi -> lo <= old <= hi ->
  lo <= scan_int optarg old <= hi.
Proof.
  intros Hl Hh Ho. unfold scan_int.
  destruct (C.sscanf_5d (arg_of optarg)) as [x|] eqn:E; [|exact Ho].
  apply sscanf_5d_range in E. lia.
Qed.

Lemma scan_word_length (w : nat) :
  forall s, (String.length (C.scan_word w s) <= w)%nat.
Proof.
  induction w as [|w IH]; intros [|c r]; simpl; try lia.
  destruct (C.isspace c || Ascii.eqb c C.NUL); simpl; [lia|].
  specialize (IH r). lia.
Qed.

Lemma sscanf_80s_length (s g : string) :
  C.sscanf_80s s = Some g -> C.strlen g <= 80.
Proof.
  unfold C.sscanf_80s, C.strlen.
  assert (H := scan_word_length 80 (C.skip_space s)).
  destruct (C.scan_word 80 (C.skip_space s)); [discriminate|].
  intros [= <-]. lia.
Qed.

Lemma accepted_defaults : accepted defaults.
Proof. unfold accepted. simpl. repeat split; try lia; vm_compute; congruence. Qed.

Lemma options_accepted (w : World) (fuel : nat) (argv : list string) :
  forall v, accepted v ->
            only options_event (val_sat accepted) (options w fuel argv v).
Proof.
  induction fuel as [|fuel IH]; intros v Hv; simpl.
  - apply only_out_of_fuel. exact I.
  - apply only_bind_any; [apply GetOpt_events|]. intros [key optarg].
    unfold strcpy.
    repeat lazymatch goal with
    | |- only _ _ (options _ _ _ _) => apply IH
    | |- only _ _ (if ?b then _ else _) => destruct b eqn:?
    | |- only _ _ (match ?x with _ => _ end) => destruct x eqn:?
    | |- only _ _ (bind (if ?b then _ else _) _) => destruct b eqn:?
    | |- only ?P ?R (bind (ret ?a) ?k) => change (only P R (k a)); cbv beta
    | |- only ?P ?R (bind (undefined_ ?u) _) =>
        change (only P R (undefined_ u)); apply only_undefined; exact I
    | |- only _ _ (bind _ _) =>
        apply only_bind_any;
        [first [apply only_emit; [exact I|exact I]
               |apply only_undefined; exact I
               |apply only_ret; exact I]
        |intros]
    | |- only _ _ (ret _) => apply only_ret; simpl; assumption
    | |- only _ _ (return_ _) => apply only_return; exact I
    end.
    all: unfold accepted in *; simpl; bool_hyps.
    all: repeat match goal with
         | H : C.sscanf_80s _ = Some _ |- _ => apply sscanf_80s_length in H
         end.
    all: try (assert (F := scan_int_range optarg (do_flush v) (-9999) 99999
                             ltac:(lia) ltac:(lia) ltac:(lia))).
    all: repeat split; try lia; tauto.
Qed.

(** X7.  The settings the option loop yields are checked or bounded: both
    addresses in 0..30, the delay in 0..600, both modes in 0..5, the range
    0, the flush interval in -9999..99999 (it is read with [%5d] and not
    checked), the stop time not below 0, the comment shorter than its
    buffer and the gnuplot command of at most 80 characters. *)
Theorem option_loop_invariant (w : World) (argv : list string) (fuel : nat)
    (v : locals) :
  configured w argv fuel = Val v -> accepted v.
Proof.
  rewrite configured_unfold. unfold bind.
  destruct (options_accepted w fuel argv defaults accepted_defaults
              after_disclaimer) as [evs [_ [_ V]]].
  destruct (options w fuel argv defaults after_disclaimer) as [r s1].
  simpl in *. intros ->. exact V.
Qed.

Lemma option_loop_invariant_witness :
  configured bench argv_delay7 10 = Val (set_delay 7 defaults) /\
  accepted (set_delay 7 defaults).
Proof.
  split; [reflexivity|].
  apply (option_loop_invariant bench argv_delay7 10 (set_delay 7 defaults)).
  reflexivity.
Defined.

(** ** Keyboard polling *)

(** X18.  When a byte other than [0xFF] waits on the terminal, [kbhit]
    reads it, keeps it and returns 1; a second [kbhit] returns 1 without
    reading; [readch] then yields that byte, as a [char], without reading
    the terminal again, and the next [kbhit] has to read anew. *)
Theorem kbhit_then_readch (w : World) (s : State) (ch : Z) :
  peek_character s = -1 ->
  w_read_stdin w (n_stdin s) = Some ch ->
  C.to_schar ch <> -1 ->
  let s1 := snd (kbhit w s) in
  let s2 := snd (readch w s1) in
  fst (kbhit w s) = Val 1 /\
  peek_character s1 = C.to_schar ch /\
  n_stdin s1 = S (n_stdin s) /\
  kbhit w s1 = (Val 1, s1) /\
  fst (readch w s1) = Val (C.to_schar ch) /\
  peek_character s2 = -1 /\
  n_stdin s2 = S (n_stdin s) /\
  trace s2 = trace s ++ [Readch (C.to_schar ch)].
Proof.
  intros P R N.
  assert (T : C.to_schar (C.to_schar ch) = C.to_schar ch).
  { unfold C.to_schar.
    assert (0 <= (ch + 128) mod 256 < 256) by (apply Z.mod_pos_bound; lia).
    replace ((ch + 128) mod 256 - 128 + 128) with ((ch + 128) mod 256) by lia.
    rewrite Z.mod_mod by lia. reflexivity. }
  assert (K : kbhit w s
              = (Val 1, set_peek (C.to_schar ch) (tick_stdin s))).
  { unfold kbhit, bind, gets, modify, ret. cbv beta iota.
    rewrite P. change (negb (-1 =? -1)) with false. cbv beta iota.
    change (n_stdin (tick_stdin s)) with (S (n_stdin s)).
    rewrite R. reflexivity. }
  rewrite K. cbn [fst snd].
  assert (B : (C.to_schar ch =? -1) = false) by (apply Z.eqb_neq; exact N).
  assert (K1 : kbhit w (set_peek (C.to_schar ch) (tick_stdin s))
               = (Val 1, set_peek (C.to_schar ch) (tick_stdin s))).
  { unfold kbhit, bind, gets, ret. cbn [peek_character set_peek].
    rewrite B. reflexivity. }
  assert (R1 : readch w (set_peek (C.to_schar ch) (tick_stdin s))
               = (Val (C.to_schar ch),
                  set_trace (trace s ++ [Readch (C.to_schar ch)])
                    (set_peek (-1) (set_peek (C.to_schar ch) (tick_stdin s))))).
  { unfold readch, bind, gets, modify, ret, emit.
    cbn [peek_character set_peek]. rewrite B. cbn [negb fst snd].
    rewrite T. reflexivity. }
  rewrite K1, R1. cbn. repeat split; reflexivity.
Qed.

Lemma kbhit_then_readch_witness :
  peek_character key_waiting = -1 /\
  w_read_stdin bench (n_stdin key_waiting) = Some KEY_q /\
  C.to_schar KEY_q <> -1 /\
  (fst (kbhit bench key_waiting) = Val 1 /\
   peek_character (snd (kbhit bench key_waiting)) = C.to_schar KEY_q /\
   n_stdin (snd (kbhit bench key_waiting)) = S (n_stdin key_waiting) /\
   kbhit bench (snd (kbhit bench key_waiting))
   = (Val 1, snd (kbhit bench key_waiting)) /\
   fst (readch bench (snd (kbhit bench key_waiting)))
   = Val (C.to_schar KEY_q) /\
   peek_character (snd (readch bench (snd (kbhit bench key_waiting)))) = -1 /\
   n_stdin (snd (readch bench (snd (kbhit bench key_waiting))))
   = S (n_stdin key_waiting) /\
   trace (snd (readch bench (snd (kbhit bench key_waiting))))
   = trace key_waiting ++ [Readch (C.to_schar KEY_q)]).
Proof.
  split; [reflexivity|]. split; [reflexivity|].
  split; [vm_compute; discriminate|].
  apply (kbhit_then_readch bench key_waiting KEY_q).
  - reflexivity.
  - reflexivity.
  - vm_compute. discriminate.
Defined.

(** X19.  When nothing waits on the terminal [kbhit] returns 0 after one
    read.  A byte [0xFF], which is -1 as a [char], makes [kbhit] return 1
    but is not kept: the byte is lost to [readch]. *)
Theorem kbhit_without_input (w : World) (s : State) :
  peek_character s = -1 ->
  (w_read_stdin w (n_stdin s) = None ->
   kbhit w s = (Val 0, tick_stdin s)) /\
  (forall ch, w_read_stdin w (n_stdin s) = Some ch -> C.to_schar ch = -1 ->
     fst (kbhit w s) = Val 1 /\ peek_character (snd (kbhit w s)) = -1).
Proof.
  intros P. unfold kbhit, bind, gets, modify, ret. cbv beta iota.
  rewrite P. change (negb (-1 =? -1)) with false. cbv beta iota.
  split.
  - intros ->. reflexivity.
  - intros ch -> E. cbn [fst snd peek_character set_peek]. auto.
Qed.

Lemma kbhit_without_input_witness :
  peek_character initial_state = -1 /\
  ((w_read_stdin bench (n_stdin initial_state) = None ->
    kbhit bench initial_state = (Val 0, tick_stdin initial_state)) /\
   (forall ch, w_read_stdin bench (n_stdin initial_state) = Some ch ->
      C.to_schar ch = -1 ->
      fst (kbhit bench initial_state) = Val 1 /\
      peek_character (snd (kbhit bench initial_state)) = -1)).
Proof.
  split; [reflexivity|].
  apply (kbhit_without_input bench initial_state). reflexivity.
Defined.

(** ** Opening an instrument *)

(** X17.  [s7150_open] returns the descriptor [ibdev] gave, which is then
    positive, only after the whole initialisation: device clear, two
    seconds of sleep, the output format.  Otherwise it returns 0 after one
    message that names the step that failed (after a failed [ibdev]
    nothing is written to the bus, after a failed first step there is no
    sleep), or after no message at all when the descriptor is 0. *)
Theorem s7150_open_outcome (w : World) (pad : Z) (s : State) :
  exists evs,
    trace (snd (s7150_open w pad s)) = trace s ++ evs /\
    open_outcome pad (w_ibdev w (n_ibdev s)) (fst (s7150_open w pad s)) evs.
Proof.
  unfold s7150_open, s7150_open_body, ibwrt, open_outcome.
  unfold bind, gets, modify, emit, ret. cbn.
  set (ud := w_ibdev w (n_ibdev s)).
  destruct (ud <? 0) eqn:E.
  - apply Z.ltb_lt in E. cbn. rewrite <- !app_assoc. eexists. split; [reflexivity|].
    exists 0. split; [reflexivity|]. split; [intros []; reflexivity|].
    intros _. left. split; [exact E|]. split; [reflexivity|].
    repeat constructor; intros; discriminate.
  - apply Z.ltb_ge in E. cbn.
    destruct (w_ibwrt w (n_ibwrt s)) eqn:W1; cbn.
    + rewrite <- !app_assoc. eexists. split; [reflexivity|].
      exists 0. split; [reflexivity|]. split; [intros []; reflexivity|].
      intros _. right. left. split; [exact E|]. split; [reflexivity|].
      cbn. intros H. repeat (destruct H as [H|H]; [discriminate H|]).
      exact H.
    + destruct (w_ibwrt w (S (n_ibwrt s))) eqn:W2; cbn.
      * rewrite <- !app_assoc. eexists. split; [reflexivity|].
        exists 0. split; [reflexivity|]. split; [intros []; reflexivity|].
        intros _. right. right. left. split; [exact E|]. reflexivity.
      * rewrite <- !app_assoc. eexists. split; [reflexivity|].
        exists ud. split; [reflexivity|]. split.
        -- intros N. split; [reflexivity|]. split; [lia|]. reflexivity.
        -- intros Z. right. right. right. split; [exact Z|]. reflexivity.
Qed.

(** ** The output file is opened with care *)

Lemma prepare_outfile_guarded (w : World) (argv : list string) (v : locals) :
  wp (prepare_outfile w argv v) (guarded_open w argv (do_overwrite v)).
Proof.
  unfold prepare_outfile, strcpy, pclose, guarded_open, may_open.
  repeat wp_step; simpl; intros f ok H;
    repeat (destruct H as [H|H]; try discriminate H); try contradiction;
    injection H as <- <-;
    (split; [eapply nth_error_In; eassumption|]);
    (split; [apply Z.ltb_lt; assumption|]);
    (split; [congruence|]).
  all: split; [|congruence].
  all: repeat match goal with
       | H : (_ || _) = true |- _ => apply orb_true_iff in H; destruct H
       | H : (_ && _) = false |- _ => apply andb_false_iff in H; destruct H
       | H : negb _ = false |- _ => apply negb_false_iff in H
       | H : is_key _ _ = true |- _ => unfold is_key in H; apply Z.eqb_eq in H
       end; auto.
Qed.

Lemma session_event_not_fopen v filename e :
  session_event v filename e -> forall f ok, e <> Fopen f ok.
Proof.
  intros [->|[H|[H|H]]] f ok E; [discriminate| | |];
    subst; simpl in H; contradiction.
Qed.

Lemma main_configured_guarded (w : World) (argv : list string) (fuel : nat)
    (v : locals) :
  wp (main_configured w argv fuel v) (guarded_open w argv (do_overwrite v)).
Proof.
  unfold main_configured.
  wp_call' (wp_conj _ _ _ (prepare_outfile_guarded w argv v)
              (prepare_outfile_shape w argv v)).
  destruct H as [G _].
  destruct r as [filename|c|u|];
    try (intros f ok HI; destruct (G f ok HI) as (a & b & c' & d & e);
         repeat split; auto; intros E; specialize (e E); congruence).
  wp_call' prepare_gnuplot_shape. cbv zeta in H. destruct H as [-> ->].
  cbv beta iota.
  eapply wp_mono; [apply session_events|]. intros r e3 [F3 _].
  intros f ok HI. rewrite !in_app_iff in HI. destruct HI as [HI|[HI|HI]].
  - destruct (G f ok HI) as (a & b & c & d & e).
    repeat split; auto. intros ->. discriminate (e eq_refl).
  - exfalso. destruct (w_popen w (gnuplot v)); simpl in HI;
      destruct (do_graph v); simpl in HI;
      repeat (destruct HI as [HI|HI]; try discriminate HI); exact HI.
  - exfalso. rewrite Forall_forall in F3.
    exact (session_event_not_fopen _ _ _ (F3 _ HI) f ok eq_refl).
Qed.

(** X8.  The program opens, and so truncates, a file only when it is an
    argument of the command line shorter than the name buffer and the file
    does not exist yet, or [-f] was given, or the answer to the prompt is
    [Y] or [y].  When that [fopen] fails the run does not reach
    [return ERR_FILE]: it ends in [pclose] of the null pointer. *)
Theorem output_file_guard (w : World) (argv : list string) (fuel : nat)
    (f : string) (ok : bool) :
  In (Fopen f ok) (trace (snd (run w argv fuel))) ->
  exists v,
    configured w argv fuel = Val v /\
    In f argv /\ C.strlen f < MAXLEN /\ ok = w_fopen w f /\
    may_open w (do_overwrite v) f /\
    (ok = false -> fst (run w argv fuel) = Undefined PcloseNull).
Proof.
  intros HI.
  destruct (configured w argv fuel) as [v| | |] eqn:C.
  - exists v. split; [reflexivity|].
    destruct (run_wp w argv fuel v _ C (main_configured_guarded w argv fuel v))
      as [_ [evs0 [evs [T [F0 G]]]]].
    rewrite T in HI. destruct HI as [HI|HI]; [discriminate|].
    apply in_app_or in HI. destruct HI as [HI|HI].
    + rewrite Forall_forall in F0. apply F0 in HI. contradiction.
    + exact (G f ok HI).
  - exfalso.
    destruct (run_not_configured w argv fuel) as [F _].
    { intros v; rewrite C; discriminate. }
    rewrite Forall_forall in F. apply F in HI. contradiction.
  - exfalso.
    destruct (run_not_configured w argv fuel) as [F _].
    { intros v; rewrite C; discriminate. }
    rewrite Forall_forall in F. apply F in HI. contradiction.
  - exfalso.
    destruct (run_not_configured w argv fuel) as [F _].
    { intros v; rewrite C; discriminate. }
    rewrite Forall_forall in F. apply F in HI. contradiction.
Qed.

Lemma output_file_guard_witness :
  In (Fopen "out.dat" true) (trace (snd (run bench argv_default 10))) /\
  exists v,
    configured bench argv_default 10 = Val v /\
    In "out.dat"%string argv_default /\ C.strlen "out.dat" < MAXLEN /\
    true = w_fopen bench "out.dat" /\
    may_open bench (do_overwrite v) "out.dat" /\
    (true = false ->
     fst (run bench argv_default 10) = Undefined PcloseNull).
Proof.
  assert (H : In (Fopen "out.dat" true)
                 (trace (snd (run bench argv_default 10)))).
  { vm_compute. auto. }
  split; [exact H|].
  apply (output_file_guard bench argv_default 10 "out.dat" true). exact H.
Defined.

(** ** Exit codes and the keyboard settings *)

Lemma keyboard_app (a b : list event) :
  keyboard (a ++ b) = keyboard a ++ keyboard b.
Proof. apply flat_map_app. Qed.

Lemma calm_obs (evs : list event) :
  Forall calm evs -> keyboard evs = [] /\ read_errors evs = 0%nat.
Proof.
  intros F. unfold keyboard, read_errors. split.
  - apply flat_map_nil. eapply Forall_impl; [|exact F]. intros e [H _]. exact H.
  - rewrite flat_map_nil; [reflexivity|].
    eapply Forall_impl; [|exact F]. intros e [_ H]. exact H.
Qed.

Lemma options_event_calm (e : event) : options_event e -> calm e.
Proof.
  destruct e; simpl; try contradiction; destruct m; simpl; try contradiction;
    split; reflexivity.
Qed.

Lemma outfile_event_calm (e : event) : outfile_event e -> calm e.
Proof.
  destruct e; simpl; try contradiction; try (split; reflexivity).
  destruct m; simpl; try contradiction; split; reflexivity.
Qed.

Lemma open_event_calm (e : event) : open_event e -> calm e.
Proof.
  destruct e; simpl; try contradiction; try (split; reflexivity).
  destruct m; simpl; try contradiction; split; reflexivity.
Qed.

Lemma setup_event_calm (f : float) (e : event) : setup_event f e -> calm e.
Proof.
  destruct e; simpl; try contradiction; try (split; reflexivity).
  destruct m; simpl; try contradiction; split; reflexivity.
Qed.

Lemma close_event_calm (e : event) : close_event e -> calm e.
Proof.
  destruct e; simpl; try contradiction; try (split; reflexivity).
  destruct m; simpl; try contradiction; split; reflexivity.
Qed.

Lemma read_event_keyboard (d : Z) (evs : list event) :
  Forall (read_event d) evs -> keyboard evs = [].
Proof.
  intros F. apply flat_map_nil. eapply Forall_impl; [|exact F].
  intros []; simpl; try contradiction; reflexivity.
Qed.

Ltac calm_tac :=
  repeat first
    [ apply Forall_nil
    | apply Forall_app; split
    | apply Forall_cons; [split; reflexivity|]
    | eapply Forall_impl; [|eassumption];
      first [ exact options_event_calm | exact outfile_event_calm
            | exact open_event_calm | apply setup_event_calm
            | exact close_event_calm ] ].

Ltac obs_tac :=
  repeat rewrite ?keyboard_app, ?read_errors_app;
  repeat match goal with
  | H : keyboard _ = _ |- _ => rewrite H
  | H : read_errors _ = _ |- _ => rewrite H
  end.

Section ExitStatus.
Variable w : World.

Lemma GetOpt_val (argv : list string) (optionS : string) :
  only options_event (fun r => exists x, r = Val x) (GetOpt argv optionS).
Proof.
  unfold only, GetOpt, GetOpt_letter, gopEOF, gopError.
  repeat wp_step; simpl; (split; [events_ok|eauto]).
Qed.

Lemma only_bind_val {A B} (P : event -> Prop) (R : res B -> Prop)
    (m : M A) (k : A -> M B) :
  only P (fun r => exists a, r = Val a) m ->
  (forall a, only P R (k a)) ->
  only P R (bind m k).
Proof.
  intros Hm Hk.
  eapply only_bind;
    [ exact Hm | intros a _; apply Hk | intros c [x E]; discriminate
    | intros u [x E]; discriminate | intros [x E]; discriminate ].
Qed.

Lemma options_codes (fuel : nat) (argv : list string) :
  forall v, only options_event exit_codes (options w fuel argv v).
Proof.
  induction fuel as [|fuel IH]; intros v; simpl.
  - apply only_out_of_fuel. exact I.
  - apply only_bind_val; [apply GetOpt_val|]. intros [key optarg].
    unfold strcpy.
    repeat lazymatch goal with
    | |- only _ _ (options _ _ _ _) => apply IH
    | |- only _ _ (if ?b then _ else _) => destruct b eqn:?
    | |- only _ _ (match ?x with _ => _ end) => destruct x eqn:?
    | |- only _ _ (bind (if ?b then _ else _) _) => destruct b eqn:?
    | |- only ?P ?R (bind (ret ?a) ?k) => change (only P R (k a)); cbv beta
    | |- only ?P ?R (bind (undefined_ ?u) _) =>
        change (only P R (undefined_ u)); apply only_undefined; exact I
    | |- only _ _ (bind (emit _) _) =>
        apply only_bind_val;
        [apply only_emit; [exact I|eexists; reflexivity]|intros]
    | |- only _ _ (ret _) => apply only_ret; exact I
    | |- only _ _ (return_ _) => apply only_return; simpl; auto
    end.
Qed.

Lemma open_instruments_calm (v : locals) (gp : bool) :
  wp (open_instruments w v gp)
     (fun r evs =>
        Forall calm evs /\
        match r with
        | Return c => c = ERR_INST
        | OutOfFuel => False
        | _ => True
        end).
Proof.
  unfold open_instruments, quit_instrument, pclose.
  wp_call s7150_open_shape. destruct H as [F1 [d1 [-> _]]].
  wp_call s7150_open_shape. destruct H as [F2 [d2 [-> _]]].
  destruct ((d1 =? 0) || (d2 =? 0)).
  - destruct gp; repeat wp_step; simpl; (split; [calm_tac|auto]).
  - apply wp_ret. split; [calm_tac|exact I].
Qed.

Lemma setup_instruments_calm (v : locals) (gp : bool) (dvm1 dvm2 : Z) :
  wp (setup_instruments w v gp dvm1 dvm2)
     (fun r evs =>
        Forall calm evs /\
        match r with
        | Return c => c = ERR_INST
        | OutOfFuel => False
        | _ => True
        end).
Proof.
  unfold setup_instruments, quit_instrument, pclose. simpl delay.
  wp_call s7150_setup_shape. destruct H as [F1 [c1 ->]].
  destruct (c1 =? 0).
  - destruct gp; repeat wp_step; simpl; (split; [calm_tac|auto]).
  - wp_call s7150_setup_shape. destruct H as [F2 [c2 ->]].
    destruct (c2 =? 0).
    + destruct gp; repeat wp_step; simpl; (split; [calm_tac|auto]).
    + apply wp_ret. split; [calm_tac|exact I].
Qed.

Lemma acquire_body_status v filename gp dvm1 dvm2 t0 loop key b1 b2 :
  wp (acquire_body w v filename gp dvm1 dvm2 t0 loop key b1 b2) loop_status.
Proof.
  unfold acquire_body, read_failed, pclose, loop_status.
  wp_call' s7150_read_counts. destruct H as [F1 [_ [_ H1]]].
  assert (K1 := read_event_keyboard _ _ F1).
  destruct r as [[c1 b1']|c|u|]; simpl in H1; try contradiction;
    [|exact K1].
  destruct H1 as [[-> E1]|[-> E1]]; wp_body.
  1,2: obs_tac; simpl; auto.
  wp_call' s7150_read_counts. destruct H as [F2 [_ [_ H2]]].
  assert (K2 := read_event_keyboard _ _ F2).
  destruct r as [[c2 b2']|c|u|]; simpl in H2; try contradiction.
  2: { obs_tac. reflexivity. }
  destruct H2 as [[-> E2]|[-> E2]]; wp_body; obs_tac; simpl; auto.
Qed.

Lemma acquire_status fuel v filename gp dvm1 dvm2 t0 :
  forall loop key b1 b2,
    wp (acquire w fuel v filename gp dvm1 dvm2 t0 loop key b1 b2) loop_status.
Proof.
  induction fuel as [|fuel IH]; intros; simpl.
  - apply wp_out_of_fuel. split; reflexivity.
  - wp_call' acquire_body_status.
    destruct r as [[[[l k] c1] c2]|c|u|]; try exact H.
    destruct H as [E1 K1]. destruct (quit_key k).
    + apply wp_ret. unfold loop_status. rewrite app_nil_r. auto.
    + eapply wp_mono; [apply IH|]. intros r e2 H2.
      unfold loop_status in *. obs_tac. simpl. exact H2.
Qed.

Lemma shutdown_status fuel v filename gp dvm1 dvm2 :
  wp (shutdown w fuel v filename gp dvm1 dvm2)
     (fun r evs =>
        read_errors evs = 0%nat /\
        match r with
        | Val _ => False
        | Return c =>
            (c = 0 /\ keyboard evs = [false]) \/
            (c = ERR_INST /\ keyboard evs = [])
        | _ => True
        end).
Proof.
  unfold shutdown, pclose.
  wp_yield time_ctime_shape. wp_run.
  wp_call' s7150_close_shape. destruct H as [F1 [c1 [-> H1]]].
  assert (C1 : Forall calm evs) by calm_tac.
  destruct (calm_obs _ C1) as [K1 E1].
  destruct H1 as [[-> I1]| ->]; wp_run.
  - obs_tac. simpl. auto.
  - wp_call' s7150_close_shape. destruct H as [F2 [c2 [-> H2]]].
    assert (C2 : Forall calm evs0) by calm_tac.
    destruct (calm_obs _ C2) as [K2 E2].
    destruct H2 as [[-> I2]| ->]; wp_run.
    + obs_tac. simpl. auto.
    + wp_call' wait_key_shape. destruct H as [F3 H3].
      assert (C3 : Forall calm evs1).
      { eapply Forall_impl; [|exact F3]. intros e ->. split; reflexivity. }
      destruct (calm_obs _ C3) as [K3 E3].
      destruct H3 as [-> | ->].
      * destruct gp; wp_run; obs_tac; simpl; auto.
      * obs_tac. simpl. auto.
    + obs_tac. simpl. auto.
Qed.

Lemma measure_status fuel v filename gp dvm1 dvm2 :
  wp (measure w fuel v filename gp dvm1 dvm2) session_status.
Proof.
  unfold measure.
  wp_call' setup_instruments_calm. destruct H as [C1 H1].
  destruct (calm_obs _ C1) as [K1 E1].
  destruct r as [v'|c|u|]; [|subst c; right; rewrite E1, K1; auto
                            |exact I|contradiction].
  wp_call' write_header_shape. destruct H as [[t0 ->] [ts ->]].
  cbv beta iota.
  wp_call' acquire_status.
  destruct r as [lk|c|u|]; unfold loop_status in H.
  - destruct H as [E3 K3].
    eapply wp_mono; [apply shutdown_status|]. intros r e4 [E4 H4].
    destruct r as [[]|c|u|]; try exact I; try contradiction.
    unfold session_status. obs_tac. simpl.
    destruct H4 as [[-> K4]|[-> K4]]; rewrite K4; auto.
  - destruct H as [-> [E3 K3]]. right. obs_tac. simpl. auto.
  - exact I.
  - exact I.
Qed.

Lemma session_status_holds fuel v filename gp :
  wp (session w fuel v filename gp)
     (fun r evs =>
        match r with
        | Val _ => False
        | Return c =>
            (c = 0 /\ read_errors evs = 0%nat /\
             keyboard evs = [true; false]) \/
            (c = ERR_INST /\ (read_errors evs <= 1)%nat /\
             keyboard evs = true :: repeat false (read_errors evs))
        | _ => True
        end).
Proof.
  unfold session. wp_run.
  wp_call' open_instruments_calm. destruct H as [C1 H1].
  destruct (calm_obs _ C1) as [K1 E1].
  destruct r as [[dvm1 dvm2]|c|u|]; [|subst c; right; obs_tac; simpl; auto
                                     |exact I|contradiction].
  eapply wp_mono; [apply measure_status|]. intros r e3 H3.
  destruct r as [[]|c|u|]; try exact I; try contradiction.
  unfold session_status in H3. obs_tac. simpl.
  destruct H3 as [[-> [E3 K3]]|[-> [E3 K3]]]; rewrite K3; [left|right];
    auto.
Qed.

Lemma main_status argv fuel : wp (main w argv fuel) exit_status.
Proof.
  unfold main. wp_run.
  wp_call' (options_codes fuel argv defaults). destruct H as [F0 H0].
  assert (C0 : Forall calm evs) by calm_tac.
  destruct (calm_obs _ C0) as [K0 E0].
  destruct r as [v|c|u|]; [| |exact I|exact I].
  2: { unfold exit_status. obs_tac. simpl.
       destruct H0 as [-> | ->]; auto. }
  unfold main_configured.
  wp_call' prepare_outfile_shape. destruct H as [F1 H1].
  assert (C1 : Forall calm evs0) by calm_tac.
  destruct (calm_obs _ C1) as [K1 E1].
  destruct r as [filename|c|u|]; [| |exact I|exact I].
  2: { subst c. right. left. obs_tac. simpl. auto. }
  wp_call' prepare_gnuplot_shape. cbv zeta in H. destruct H as [-> ->].
  cbv beta iota.
  set (e2 := Popen (gnuplot v) (w_popen w (gnuplot v)) :: _).
  assert (C2 : Forall calm e2).
  { unfold e2. destruct (w_popen w (gnuplot v)); simpl;
      destruct (do_graph v); simpl; repeat constructor. }
  destruct (calm_obs _ C2) as [K2 E2].
  eapply wp_mono; [apply session_status_holds|]. intros r e3 H3.
  destruct r as [[]|c|u|]; try exact I; try contradiction.
  unfold exit_status. obs_tac. simpl.
  destruct H3 as [[-> [E3 K3]]|[-> [E3 K3]]]; rewrite ?E3, ?K3; auto.
Qed.

End ExitStatus.

(** X10.  A run that ends with an exit code ends with 0, 1 or [ERR_INST];
    [ERR_FILE] is never returned; and [main] is never left otherwise than
    through a [return]. *)
Theorem exit_codes_of_main (w : World) (argv : list string) (fuel : nat) :
  (forall c, fst (run w argv fuel) = Return c ->
             c = 0 \/ c = 1 \/ c = ERR_INST) /\
  fst (run w argv fuel) <> Return ERR_FILE /\
  fst (run w argv fuel) <> Val tt.
Proof.
  assert (H := wp_main_run w argv fuel _ (main_status w argv fuel)).
  unfold exit_status in H.
  destruct (fst (run w argv fuel)) as [[]|c|u|]; try contradiction.
  - repeat split; try discriminate.
    + intros c' [= <-]. intuition.
    + intros [= E]. subst c. intuition discriminate.
  - repeat split; discriminate.
  - repeat split; discriminate.
Qed.

(** X11.  A run that ends with code 0 has called [init_keyboard] and then
    [close_keyboard], once each, or neither of them (the help text); one
    that ends with code 1 neither.  A run that ends with [ERR_INST] has
    called [init_keyboard] once; it has restored the keyboard settings
    with [close_keyboard] when a read error was reported, and has not when
    the failure was in opening, setting up or resetting an instrument. *)
Theorem keyboard_restoration (w : World) (argv : list string) (fuel : nat) :
  let tr := trace (snd (run w argv fuel)) in
  (fst (run w argv fuel) = Return 0 ->
   keyboard tr = [] \/ keyboard tr = [true; false]) /\
  (fst (run w argv fuel) = Return 1 -> keyboard tr = []) /\
  (fst (run w argv fuel) = Return ERR_INST ->
   (read_errors tr = 1%nat /\ keyboard tr = [true; false]) \/
   (read_errors tr = 0%nat /\ keyboard tr = [true])).
Proof.
  intros tr. subst tr.
  assert (H := wp_main_run w argv fuel _ (main_status w argv fuel)).
  unfold exit_status in H.
  destruct (fst (run w argv fuel)) as [[]|c|u|]; try contradiction;
    try (repeat split; discriminate).
  repeat split; intros [= ->];
    destruct H as [[E H]|[[E H]|[E H]]]; try discriminate E.
  - tauto.
  - tauto.
  - destruct H as [L K].
    destruct (read_errors (trace (snd (run w argv fuel)))) as [|[|n]];
      simpl in K; [right|left|lia]; auto.
Qed.

Example keyboard_runs :
  keyboard (trace (snd (run bench argv_default 10))) = [true; false] /\
  fst (run bench_bad_second_address argv_default 10) = Return ERR_INST /\
  keyboard (trace (snd (run bench_bad_second_address argv_default 10)))
  = [true] /\
  fst (run bench_reset_error argv_default 10) = Return ERR_INST /\
  keyboard (trace (snd (run bench_reset_error argv_default 10))) = [true] /\
  fst (run bench_read_error argv_default 10) = Return ERR_INST /\
  keyboard (trace (snd (run bench_read_error argv_default 10)))
  = [true; false].
Proof. vm_compute. repeat split; reflexivity. Qed.

(** ** Stop time and flush interval in the loop *)

Lemma keys_read_app (a b : list event) :
  keys_read (a ++ b) = keys_read a ++ keys_read b.
Proof. apply flat_map_app. Qed.

Section TimedStop.
Variable w : World.

Lemma s7150_read_no_key dvm d id b :
  wp (s7150_read w dvm d id b) (fun _ evs => keys_read evs = []).
Proof. unfold s7150_read. repeat wp_step; simpl; auto. Qed.

Lemma acquire_body_timed v filename gp dvm1 dvm2 t0 l key b1 b2 :
  wp (acquire_body w v filename gp dvm1 dvm2 t0 l key b1 b2)
     (body_timed v key).
Proof.
  unfold acquire_body, read_failed, pclose, body_timed.
  wp_call' (wp_conj _ _ _ (s7150_read_counts w dvm1 (delay v) Buffer1 b1)
              (s7150_read_no_key dvm1 (delay v) Buffer1 b1)).
  destruct H as [[_ [_ [_ H1]]] K1].
  destruct r as [[c1 b1']|c|u|]; simpl in H1; try contradiction; [|exact I].
  destruct H1 as [[-> E1]|[-> E1]]; wp_body.
  1,2: exact I.
  wp_call' (wp_conj _ _ _ (s7150_read_counts w dvm2 (delay v) Buffer2 b2)
              (s7150_read_no_key dvm2 (delay v) Buffer2 b2)).
  destruct H as [[_ [_ [_ H2]]] K2].
  destruct r as [[c2 b2']|c|u|]; simpl in H2; try contradiction; [|exact I].
  destruct H2 as [[-> E2]|[-> E2]]; wp_body; try exact I;
    eexists _, _, _; (split; [in_tac|]); (split; [in_tac|]);
    rewrite ?keys_read_app, K1, K2;
    first [right; split; reflexivity
          | left; split; [reflexivity|ends_tac]].
Qed.

End TimedStop.

(** X14.  In a pass through the loop body that completes, the progress
    line on the terminal and the Sample Record in the file carry the same
    time and the same readings.  A pass reads at most one key, as its last
    action, and a key it has read is the key it ends with: a key typed in
    the pass takes the place of the timed stop.  A pass that has read no
    key ends with ESC, which leaves the loop, when that time is past a
    positive stop time, and with the key it started with otherwise. *)
Theorem timed_stop_in_one_pass (w : World) (v : locals) (filename : string)
    (gp : bool) (dvm1 dvm2 : Z) (t0 : float) (l key : Z)
    (b1 b2 : list ascii) :
  wp (acquire_body w v filename gp dvm1 dvm2 t0 l key b1 b2)
     (body_timed v key) /\
  quit_key ESC = true.
Proof.
  split; [apply acquire_body_timed|reflexivity].
Qed.

(** A pass ten minutes into a session that is to stop after one minute, in
    which the space bar is found pressed: the pass ends with the space, not
    with ESC, and the loop goes on. *)
Example typed_key_replaces_timed_stop :
  let v := set_tstop 1 defaults in
  let s := tick_stdin (tick_stdin key_waiting) in
  let r := acquire_body bench v "out.dat" true 16 17 (-600)%float 0 0 [] [] s in
  timed_out 10 (tstop v) = true /\
  keys_read (trace (snd r)) = [32] /\
  quit_key 32 = false /\
  exists b1 b2, fst r = Val (1, 32, b1, b2) /\
    In (Fprintf_outfile (OutRecord 10 "+1.23456E+0 VDC" "+1.23456E+0 VDC"))
       (trace (snd r)).
Proof.
  vm_compute. repeat (split; [reflexivity|]).
  eexists _, _. split; [reflexivity|]. auto 10.
Qed.

(** The same pass with no key pressed ends with ESC. *)
Example timed_stop_without_key :
  let v := set_tstop 1 defaults in
  let r := acquire_body bench v "out.dat" true 16 17 (-600)%float 0 0 [] []
             initial_state in
  keys_read (trace (snd r)) = [] /\
  exists b1 b2, fst r = Val (1, ESC, b1, b2).
Proof.
  vm_compute. split; [reflexivity|]. eexists _, _. reflexivity.
Qed.

Lemma marks_nil (f : event -> bool) (tr : list event) :
  forall n, marks f n tr = [] -> Forall (fun e => f e = false) tr.
Proof.
  induction tr as [|e tr IH]; intros n H; [constructor|].
  simpl in H. apply app_eq_nil in H. destruct H as [H1 H2].
  constructor; [|eapply IH; exact H2].
  destruct (f e); [discriminate|reflexivity].
Qed.

Lemma due_list_none (N : Z) (count : nat) (from : Z) :
  0 <= from -> from + Z.of_nat count < N -> due_list N from count = [].
Proof.
  intros H0 H.
  destruct (due_list N from count) as [|k r] eqn:E; [reflexivity|].
  assert (I : In k (due_list N from count)) by (rewrite E; left; reflexivity).
  apply in_due_list in I. destruct I as [I1 I2].
  rewrite Z.mod_small in I2 by lia. lia.
Qed.

(** X15.  A negative flush interval, which the option loop accepts, is
    converted to a huge [unsigned long]: in a loop of fewer than [2^63]
    iterations the output file is never flushed and no plot command is
    sent. *)
Theorem negative_flush_interval_disables_flush (w : World) (fuel : nat)
    (v : locals) (filename : string) (gp : bool) (dvm1 dvm2 : Z)
    (t0 : float) (key : Z) (b1 b2 : list ascii) :
  - 2 ^ 63 <= do_flush v < 0 -> Z.of_nat fuel < 2 ^ 63 ->
  wp (acquire w fuel v filename gp dvm1 dvm2 t0 0 key b1 b2)
     (fun _ evs =>
        Forall (fun e => is_flush e = false) evs /\
        Forall (fun e => is_plot e = false) evs).
Proof.
  intros HN Hf.
  destruct (negative_flush_interval_never_due (do_flush v) 1 HN ltac:(lia))
    as [U _].
  assert (HU : C.to_ulong (do_flush v) <> 0) by lia.
  eapply wp_mono;
    [apply (acquire_marks w fuel v filename gp dvm1 dvm2 t0 HU 0 key b1 b2);
     lia|].
  intros r evs [B [MF MP]]. rewrite U in *.
  rewrite due_list_none in MF, MP by lia.
  split; [eapply marks_nil; exact MF|].
  destruct (do_graph v); eapply marks_nil; exact MP.
Qed.

Lemma negative_flush_interval_witness :
  - 2 ^ 63 <= do_flush (set_do_flush (-1) defaults) < 0 /\
  Z.of_nat 10 < 2 ^ 63 /\
  wp (acquire bench 10 (set_do_flush (-1) defaults) "out.dat"%string true
        16 17 0%float 0 0 [] [])
     (fun _ evs =>
        Forall (fun e => is_flush e = false) evs /\
        Forall (fun e => is_plot e = false) evs).
Proof.
  split; [simpl; lia|]. split; [lia|].
  apply (negative_flush_interval_disables_flush bench 10
           (set_do_flush (-1) defaults) "out.dat"%string true 16 17 0%float 0
           [] []).
  - simpl. lia.
  - lia.
Defined.

(** ** The order of resets and opens *)

Lemma close_calls_app (a b : list event) :
  close_calls (a ++ b) = close_calls a ++ close_calls b.
Proof. apply flat_map_app. Qed.

Lemma reset_errors_app (a b : list event) :
  reset_errors (a ++ b) = (reset_errors a + reset_errors b)%nat.
Proof. unfold reset_errors. rewrite flat_map_app, length_app. reflexivity. Qed.

Section Resets.
Variable w : World.

Lemma s7150_close_calls (dvm : Z) :
  wp (s7150_close w dvm)
     (fun r evs =>
        close_calls evs = [dvm] /\
        exists c, r = Val c /\
                  ((c = 0 /\ reset_errors evs = 1%nat) \/
                   (c = 1 /\ reset_errors evs = 0%nat))).
Proof.
  unfold s7150_close, ibwrt.
  repeat wp_step; simpl; (split; [reflexivity|eauto 10]).
Qed.

Lemma wait_key_no_reset (fuel : nat) :
  wp (wait_key w fuel)
     (fun r evs => close_calls evs = [] /\ reset_errors evs = 0%nat /\
                   (r = Val tt \/ r = OutOfFuel)).
Proof.
  eapply wp_mono; [apply wait_key_shape|]. intros r evs [F H].
  split; [|split; [|exact H]].
  - apply flat_map_nil. eapply Forall_impl; [|exact F]. intros e ->.
    reflexivity.
  - unfold reset_errors. rewrite flat_map_nil; [reflexivity|].
    eapply Forall_impl; [|exact F]. intros e ->. reflexivity.
Qed.

End Resets.

(** X16.  After the loop the first instrument is reset, and the second
    only when that reset succeeded; the program leaves with [ERR_INST]
    exactly when a reset failed, after the one report of it. *)
Theorem reset_order_after_the_loop (w : World) (fuel : nat) (v : locals)
    (filename : string) (gp : bool) (dvm1 dvm2 : Z) :
  wp (shutdown w fuel v filename gp dvm1 dvm2) (reset_order dvm1 dvm2).
Proof.
  unfold shutdown, pclose, reset_order.
  wp_yield time_ctime_shape. wp_run.
  wp_call' s7150_close_calls. destruct H as [C1 [c1 [-> H1]]].
  destruct H1 as [[-> R1]|[-> R1]]; wp_run.
  - left. rewrite !close_calls_app, !reset_errors_app, C1, R1. simpl. auto.
  - wp_call' s7150_close_calls. destruct H as [C2 [c2 [-> H2]]].
    destruct H2 as [[-> R2]|[-> R2]]; wp_run.
    + right. left.
      rewrite !close_calls_app, !reset_errors_app, C1, R1, C2, R2.
      simpl. auto.
    + wp_call' wait_key_no_reset. destruct H as [C3 [R3 H3]].
      destruct H3 as [-> | ->]; [destruct gp; wp_run|];
        right; right;
        rewrite ?close_calls_app, ?reset_errors_app, ?C1, ?R1, ?C2, ?R2,
          ?C3, ?R3; simpl; repeat split; auto; discriminate.
    + right. right.
      rewrite !close_calls_app, !reset_errors_app, C1, R1, C2, R2.
      simpl. repeat split; auto; discriminate.
Qed.

Section Opens.
Variable w : World.

Lemma session_opens fuel v filename gp :
  wp (session w fuel v filename gp) (opened_both v).
Proof.
  unfold session, opened_both. wp_run.
  wp_call' open_instruments_shape. destruct H as [_ [d1 [d2 [O H]]]].
  destruct r as [[a b]|c|u|].
  - eapply wp_mono; [apply measure_events|]. intros r e2 [F _].
    right. exists d1, d2. simpl. rewrite opens_app, O.
    unfold opens at 1. rewrite flat_map_nil.
    + split; [reflexivity|]. destruct H as [_ [H1 H2]]. tauto.
    + eapply Forall_impl; [|exact F]. apply measure_event_no_open.
  - right. exists d1, d2. split; [exact O|].
    destruct H as [-> _]. auto.
  - right. exists d1, d2. split; [exact O|].
    destruct H as [-> _]. auto.
  - contradiction.
Qed.

Lemma main_configured_opens argv fuel v :
  wp (main_configured w argv fuel v)
     (fun r evs => exists v', pad1 v' = pad1 v /\ pad2 v' = pad2 v /\
                              opened_both v' r evs).
Proof.
  unfold main_configured.
  wp_call' prepare_outfile_shape. destruct H as [F1 H1].
  assert (O1 : opens evs = []).
  { apply flat_map_nil. eapply Forall_impl; [|exact F1].
    intros []; simpl; tauto. }
  destruct r as [filename|c|u|];
    try (exists v; split; [reflexivity|]; split; [reflexivity|];
         left; exact O1).
  wp_call' prepare_gnuplot_shape. cbv zeta in H. destruct H as [-> ->].
  cbv beta iota.
  set (v' := if w_popen w (gnuplot v) then v else set_do_graph false v).
  set (e2 := Popen (gnuplot v) (w_popen w (gnuplot v)) :: _).
  assert (O2 : opens e2 = []).
  { unfold e2, v'. destruct (w_popen w (gnuplot v)); simpl;
      destruct (do_graph v); reflexivity. }
  eapply wp_mono; [apply session_opens|]. intros r e3 H3.
  exists v'. split; [unfold v'; destruct (w_popen w (gnuplot v)); reflexivity|].
  split; [unfold v'; destruct (w_popen w (gnuplot v)); reflexivity|].
  unfold opened_both in *. rewrite !opens_app, O1, O2. simpl. exact H3.
Qed.

End Opens.

(** X12.  In a run [s7150_open] is not called at all or returns twice,
    first for the first address and then for the second, whatever the
    first call returned; when either returned 0 the run ends with
    [ERR_INST], or in [pclose] of the null pointer. *)
Theorem instruments_opened_in_pairs (w : World) (argv : list string)
    (fuel : nat) :
  let tr := trace (snd (run w argv fuel)) in
  opens tr = [] \/
  exists v d1 d2,
    configured w argv fuel = Val v /\
    opens tr = [(pad1 v, d1); (pad2 v, d2)] /\
    (d1 = 0 \/ d2 = 0 ->
     fst (run w argv fuel) = Return ERR_INST \/
     fst (run w argv fuel) = Undefined PcloseNull).
Proof.
  intros tr. subst tr.
  destruct (configured w argv fuel) as [v| | |] eqn:C.
  - destruct (run_wp w argv fuel v _ C (main_configured_opens w argv fuel v))
      as [_ [evs0 [evs [T [F0 [v' [P1 [P2 H]]]]]]]].
    rewrite T.
    change (Stderr Disclaimer :: evs0 ++ evs)
      with ((Stderr Disclaimer :: evs0) ++ evs).
    rewrite opens_app.
    assert (O0 : opens (Stderr Disclaimer :: evs0) = []).
    { apply flat_map_nil. constructor; [reflexivity|].
      eapply Forall_impl; [|exact F0]. intros []; simpl; tauto. }
    rewrite O0. simpl.
    destruct H as [H|[d1 [d2 [O H]]]]; [left; exact H|].
    right. exists v, d1, d2. rewrite <- P1, <- P2. auto.
  - left. destruct (run_not_configured w argv fuel) as [F _].
    { intros v; rewrite C; discriminate. }
    apply flat_map_nil. eapply Forall_impl; [|exact F].
    intros []; simpl; tauto.
  - left. destruct (run_not_configured w argv fuel) as [F _].
    { intros v; rewrite C; discriminate. }
    apply flat_map_nil. eapply Forall_impl; [|exact F].
    intros []; simpl; tauto.
  - left. destruct (run_not_configured w argv fuel) as [F _].
    { intros v; rewrite C; discriminate. }
    apply flat_map_nil. eapply Forall_impl; [|exact F].
    intros []; simpl; tauto.
Qed.

(** ** When [popen] fails *)

(** X20.  In every run in which [popen] returns [NULL], nothing is ever
    sent to gnuplot, and once the failure to launch it has been reported
    the program goes on to open both instruments: that failure does not
    end the run.  Such a run can complete with exit code 0: on a bench on
    which [popen] fails and all else succeeds, the run reports the failure,
    writes its three Sample Records and returns 0. *)
Theorem popen_failure_is_not_fatal :
  (forall (w : World) (argv : list string) (fuel : nat),
      (forall cmd, w_popen w cmd = false) ->
      let tr := trace (snd (run w argv fuel)) in
      Forall no_gp tr /\
      (In (Stderr CannotLaunchGnuplot) tr ->
       exists p1 d1 p2 d2, opens tr = [(p1, d1); (p2, d2)])) /\
  (forall cmd, w_popen bench_no_gnuplot cmd = false) /\
  fst (run bench_no_gnuplot argv_default 10) = Return 0 /\
  In (Stderr CannotLaunchGnuplot)
     (trace (snd (run bench_no_gnuplot argv_default 10))) /\
  records (trace (snd (run bench_no_gnuplot argv_default 10))) = 3%nat.
Proof.
  split; [|split; [|split; [|split]]].
  - intros w argv fuel G tr. subst tr.
    destruct (configured_cases w argv fuel) as [[v C]|C].
    + destruct (run_wp w argv fuel v _ C
                  (main_configured_degraded w G argv fuel v))
        as [_ [evs0 [evs [T [F0 [NG H]]]]]].
      rewrite T. destruct (options_event_no_gp _ F0) as [G0 P0]. split.
      * constructor; [exact I|]. apply Forall_app. auto.
      * intros HI. destruct H as [H|[_ [d1 [d2 O]]]].
        { exfalso. destruct HI as [HI|HI]; [discriminate|].
          apply in_app_or in HI. rewrite Forall_forall in F0, H.
          destruct HI as [HI|HI]; [apply F0 in HI|apply H in HI];
            contradiction. }
        exists (pad1 v), d1, (pad2 v), d2.
        change (Stderr Disclaimer :: evs0 ++ evs)
          with ((Stderr Disclaimer :: evs0) ++ evs).
        rewrite opens_app, O.
        rewrite (options_event_no_open (Stderr Disclaimer :: evs0));
          [reflexivity|constructor; [exact I|exact F0]].
    + destruct (run_not_configured w argv fuel C) as [F _].
      destruct (options_event_no_gp _ F) as [G0 P0]. split; [exact G0|].
      intros HI. rewrite Forall_forall in F. apply F in HI. contradiction.
  - reflexivity.
  - vm_compute. reflexivity.
  - vm_compute. auto 10.
  - vm_compute. reflexivity.
Qed.
